(** * gcp_pilot.datastore: a shallow embedding of the object-mapping layer

    The development follows [src/gcp_pilot/datastore.py]:
    - Python values, classes and exceptions (the data the module handles);
    - the helpers [_chunks] and [_starts_with_operator];
    - [Metadata.from_dict] / [Metadata.to_dict] (record <-> property bag);
    - a small model of the datastore client the manager talks to;
    - [Manager]: [_build_filter], [_iterate], [query], [filter], [get],
      [create], [delete].

    Python dictionaries keep insertion order, so they are association
    lists here; strings are UTF-8 byte strings. *)

From Stdlib Require Import String Ascii List ZArith Bool Arith Lia DecimalString.
Import ListNotations.
Open Scope string_scope.
Open Scope list_scope.
Open Scope nat_scope.

Set Implicit Arguments.
Set Warnings "-register-all".

(** ** Python values *)

(** Naive [datetime.datetime] objects. *)
Record datetime := mk_datetime {
  year : nat; month : nat; day : nat;
  hour : nat; minute : nat; second : nat; microsecond : nat
}.

(** Values an [Enum] member may carry and a dataclass field may default to. *)
Inductive prim :=
| PNone
| PBool (b : bool)
| PInt (z : Z)
| PStr (s : string).

(** How a dataclass field is initialised when the constructor gets no
    argument for it. *)
Inductive default :=
| Required
| Default (p : prim)
| DefaultFactoryList
| DefaultFactoryDict.

(** Classes and [typing] aliases that can annotate a field.  [DocClass] is a
    (dataclass) subclass of [EmbeddedDocument]; [concrete] tells a [Document]
    subclass (it has a manager and a primary key) from an embedded one. *)
Inductive pytype :=
| KAny
| KInt
| KStr
| KBool
| KDatetime
| EnumClass (name : string) (members : list (string * prim))
| DocClass (name : string) (concrete : bool)
           (fields : list (string * pytype)) (defaults : list (string * default))
| ListOf (inner : pytype)
| DictOf (key_klass value_klass : pytype).

Inductive pyval :=
| VNone
| VBool (b : bool)
| VInt (z : Z)
| VStr (s : string)
| VDatetime (d : datetime)
| VEnum (cls : string) (member : string) (v : prim)
| VDoc (cls : pytype) (attrs : list (string * pyval))
| VList (items : list pyval)
| VDict (items : list (pyval * pyval)).

Definition of_prim (p : prim) : pyval :=
  match p with
  | PNone => VNone
  | PBool b => VBool b
  | PInt z => VInt z
  | PStr s => VStr s
  end.

(** ** Exceptions *)

Inductive unsupported :=
| LookupKeyFormat (extra : list string)   (* "Unsupported lookup key format {extra}" *)
| Lookup (operator : string).             (* "Unsupported lookup {operator}" *)

Inductive exn :=
| UnsupportedFormatException (what : unsupported)
| ValidationError (msg : string)
| DoesNotExist (cls : pytype) (filters : pyval)
| MultipleObjectsFound (cls : pytype) (filters : pyval)
| TypeError (msg : string)
| ValueError (msg : string)
| AttributeError (msg : string)
| KeyError (key : string)
| RecursionError
| OutOfFuel.   (* model only: a loop was cut off by its iteration bound *)

Inductive result (A : Type) :=
| Ok (a : A)
| Raise (e : exn).
Arguments Ok {A} a.
Arguments Raise {A} e.

Definition bind {A B} (r : result A) (k : A -> result B) : result B :=
  match r with
  | Ok a => k a
  | Raise e => Raise e
  end.

Declare Scope py_scope.
Delimit Scope py_scope with py.
Notation "x <- r ;; k" := (bind r (fun x => k))
  (at level 61, r at next level, right associativity) : py_scope.
Open Scope py_scope.

(** [[f(x) for x in xs]] with a fallible [f]: the first failure aborts. *)
Fixpoint mapM {A B} (f : A -> result B) (xs : list A) : result (list B) :=
  match xs with
  | [] => Ok []
  | x :: rest =>
      y <- f x ;;
      ys <- mapM f rest ;;
      Ok (y :: ys)
  end.

(** ** The parts of the Python runtime the module calls into

    [str(value)], [int(text)] and [datetime.fromisoformat(text)] belong to
    the interpreter, not to this module; they are taken as parameters. *)
Record Runtime := {
  py_str : pyval -> string;
  int_of_str : string -> result Z;
  fromisoformat : string -> result datetime
}.

(** The ranges [datetime] accepts (the length of each month aside). *)
Definition datetime_ok (d : datetime) : Prop :=
  1 <= year d < 10 ^ 4 /\ 1 <= month d <= 12 /\ 1 <= day d <= 31
  /\ hour d < 24 /\ minute d < 60 /\ second d < 60 /\ microsecond d < 10 ^ 6.

Record RuntimeLaws (rt : Runtime) : Prop := {
  (** [str(s)] of a string is the string itself *)
  str_of_str : forall s, py_str rt (VStr s) = s;
  (** [datetime.fromisoformat] reads back what [str] prints *)
  fromisoformat_str :
    forall d, datetime_ok d -> fromisoformat rt (py_str rt (VDatetime d)) = Ok d
}.

(** ** Strings *)

(** [s.split(sep)] for a non-empty separator: scan left to right, cut at
    each occurrence, never overlapping.  [skip] counts the characters of a
    separator that has just been matched and still have to be dropped. *)
Fixpoint split_from (sep : string) (skip : nat) (cur : string) (s : string)
  : list string :=
  match s with
  | EmptyString => [cur]
  | String c rest =>
      match skip with
      | S k => split_from sep k cur rest
      | O =>
          if prefix sep s
          then cur :: split_from sep (String.length sep - 1) EmptyString rest
          else split_from sep 0 (cur ++ String c EmptyString)%string rest
      end
  end.

Definition split (sep s : string) : list string := split_from sep 0 EmptyString s.

(** Iterating a [str] yields its characters, each a one-character string. *)
Fixpoint chars (s : string) : list string :=
  match s with
  | EmptyString => []
  | String c rest => String c EmptyString :: chars rest
  end.

(** U+FFFD in UTF-8. *)
Definition HIGH_SENTINEL : string :=
  String (ascii_of_nat 239) (String (ascii_of_nat 191) (String (ascii_of_nat 189) EmptyString)).

(** [x in xs] for strings. *)
Definition mem (x : string) (xs : list string) : bool :=
  existsb (String.eqb x) xs.

(** ** Module-level definitions *)

Definition DEFAULT_PK_FIELD : string := "id".
Definition MAX_ITEMS_PER_OPERATIONS : nat := 500.

(** [range(start, stop, step)] for a positive step; [fuel] bounds the number
    of elements ([stop - start] always suffices). *)
Fixpoint range_from (fuel start stop step : nat) : list nat :=
  match fuel with
  | O => []
  | S fuel' =>
      if start <? stop then start :: range_from fuel' (start + step) stop step
      else []
  end.

Definition range (start stop step : nat) : list nat :=
  range_from (stop - start) start stop step.

(** [lst[i:j]] *)
Definition slice {A} (lst : list A) (i j : nat) : list A :=
  firstn (j - i) (skipn i lst).

(** [_chunks(lst, n)]: the generator is consumed by a [for] loop, so the
    yielded chunks are collected in order. *)
Definition _chunks {A} (lst : list A) (n : nat) : list (list A) :=
  map (fun i => slice lst i (i + n)) (range 0 (length lst) n).

Definition filter3 : Type := string * string * pyval.

(** [_starts_with_operator(lookup_fields, value)] *)
Definition _starts_with_operator (rt : Runtime)
  (lookup_fields : list string) (value : pyval) : list filter3 :=
  let field_name := String.concat "." lookup_fields in
  [ (field_name, ">=", value);
    (field_name, "<=", VStr (py_str rt value ++ HIGH_SENTINEL)%string) ].

(** ** Built-in protocols on values *)

(** [bool(value)] *)
Definition truthy (v : pyval) : bool :=
  match v with
  | VNone => false
  | VBool b => b
  | VInt z => negb (z =? 0)%Z
  | VStr s => negb (s =? EmptyString)%string
  | VList items => match items with [] => false | _ => true end
  | VDict items => match items with [] => false | _ => true end
  | VDatetime _ | VEnum _ _ _ | VDoc _ _ => true
  end.

Definition is_none (v : pyval) : bool :=
  match v with VNone => true | _ => false end.

(** Dataclasses with [eq=True] (the default) and lists and dicts cannot be
    dictionary keys. *)
Definition hashable (v : pyval) : bool :=
  match v with
  | VDoc _ _ | VList _ | VDict _ => false
  | _ => true
  end.

Definition datetime_eqb (a b : datetime) : bool :=
  (year a =? year b) && (month a =? month b) && (day a =? day b)
  && (hour a =? hour b) && (minute a =? minute b) && (second a =? second b)
  && (microsecond a =? microsecond b).

Definition Z_of_bool (b : bool) : Z := if b then 1%Z else 0%Z.

(** [a == b] on hashable values: [bool] is a subclass of [int], enum members
    are compared by identity. *)
Definition key_eqb (a b : pyval) : bool :=
  match a, b with
  | VNone, VNone => true
  | VBool x, VBool y => Bool.eqb x y
  | VInt x, VInt y => (x =? y)%Z
  | VBool x, VInt y => (Z_of_bool x =? y)%Z
  | VInt x, VBool y => (x =? Z_of_bool y)%Z
  | VStr x, VStr y => (x =? y)%string
  | VDatetime x, VDatetime y => datetime_eqb x y
  | VEnum c m _, VEnum c' m' _ => (c =? c')%string && (m =? m')%string
  | _, _ => false
  end.

(** Dictionaries with arbitrary keys: [d[k]], [k in d], [d[k] = v]. *)
Fixpoint dict_get (d : list (pyval * pyval)) (k : pyval) : option pyval :=
  match d with
  | [] => None
  | (k', v) :: rest => if key_eqb k' k then Some v else dict_get rest k
  end.

Fixpoint dict_replace (d : list (pyval * pyval)) (k v : pyval)
  : list (pyval * pyval) :=
  match d with
  | [] => []
  | (k', v') :: rest =>
      if key_eqb k' k then (k', v) :: rest else (k', v') :: dict_replace rest k v
  end.

Definition dict_set (d : list (pyval * pyval)) (k v : pyval)
  : result (list (pyval * pyval)) :=
  if negb (hashable k) then Raise (TypeError "unhashable type")
  else match dict_get d k with
       | Some _ => Ok (dict_replace d k v)
       | None => Ok (d ++ [(k, v)])
       end.

(** Dictionaries whose keys are known to be strings (keyword arguments,
    [self.fields], entity properties). *)
Fixpoint assoc_get {A} (d : list (string * A)) (k : string) : option A :=
  match d with
  | [] => None
  | (k', v) :: rest => if (k' =? k)%string then Some v else assoc_get rest k
  end.

Fixpoint assoc_replace {A} (d : list (string * A)) (k : string) (v : A)
  : list (string * A) :=
  match d with
  | [] => []
  | (k', v') :: rest =>
      if (k' =? k)%string then (k', v) :: rest else (k', v') :: assoc_replace rest k v
  end.

Definition assoc_set {A} (d : list (string * A)) (k : string) (v : A)
  : list (string * A) :=
  match assoc_get d k with
  | Some _ => assoc_replace d k v
  | None => d ++ [(k, v)]
  end.

Definition keys {A} (d : list (string * A)) : list string := map fst d.

(** A string-keyed dictionary as a value. *)
Definition as_dict (d : list (string * pyval)) : pyval :=
  VDict (map (fun kv => (VStr (fst kv), snd kv)) d).

(** [for i in value] *)
Definition py_iter (v : pyval) : result (list pyval) :=
  match v with
  | VList items => Ok items
  | VDict items => Ok (map fst items)
  | VStr s => Ok (map VStr (chars s))
  | _ => Raise (TypeError "object is not iterable")
  end.

(** [value.items()] *)
Definition py_items (v : pyval) : result (list (pyval * pyval)) :=
  match v with
  | VDict items => Ok items
  | _ => Raise (AttributeError "items")
  end.

(** [getattr(obj, name)] on the instance attributes (the dataclass fields). *)
Definition getattr (obj : pyval) (name : string) : result pyval :=
  match obj with
  | VDoc _ attrs =>
      match assoc_get attrs name with
      | Some v => Ok v
      | None => Raise (AttributeError name)
      end
  | _ => Raise (AttributeError name)
  end.

(** Objects that are compared with, or tested for being, callables. *)
Inductive pyobj :=
| ObjStr (s : string)
| ObjFunction (qualname : string).

Definition callable (o : pyobj) : bool :=
  match o with
  | ObjFunction _ => true
  | ObjStr _ => false
  end.

Definition pyobj_eqb (a b : pyobj) : bool :=
  match a, b with
  | ObjStr x, ObjStr y => (x =? y)%string
  | ObjFunction x, ObjFunction y => (x =? y)%string
  | _, _ => false
  end.

(** [x in xs] where [xs] is a list of strings. *)
Definition py_in (x : pyobj) (xs : list string) : bool :=
  existsb (fun s => pyobj_eqb x (ObjStr s)) xs.

(** The name [field] at module level: [from dataclasses import dataclass, field]. *)
Definition field : pyobj := ObjFunction "dataclasses.field".

(** ** [Metadata]: a record kind's schema and its codec *)

Module Metadata.
Record t := {
  fields : list (string * pytype);
  doc_klass : pytype;
  pk_field : option string
}.
End Metadata.

(** [klass.Meta], set by the [ORM] metaclass on every class that is not one
    of the two abstract bases: the typed fields, the class itself and, for a
    concrete [Document], the default primary-key field. *)
Definition Meta (k : pytype) : option Metadata.t :=
  match k with
  | DocClass _ concrete fields _ =>
      Some {| Metadata.fields := fields;
              Metadata.doc_klass := k;
              Metadata.pk_field := if concrete then Some DEFAULT_PK_FIELD else None |}
  | _ => None
  end.

(** [issubclass(klass, EmbeddedDocument)]; [typing] forms are not classes. *)
Definition issubclass_EmbeddedDocument (k : pytype) : result bool :=
  match k with
  | DocClass _ _ _ _ => Ok true
  | KInt | KStr | KBool | KDatetime | EnumClass _ _ => Ok false
  | KAny | ListOf _ | DictOf _ _ => Raise (TypeError "issubclass() arg 1 must be a class")
  end.

(** [EnumClass(value)]: the member that carries [value]. *)
Fixpoint enum_by_value (name : string) (members : list (string * prim))
  (value : pyval) : result pyval :=
  match members with
  | [] => Raise (ValueError "is not a valid member")
  | (m, p) :: rest =>
      if key_eqb (of_prim p) value then Ok (VEnum name m p)
      else enum_by_value name rest value
  end.

(** The dataclass [__init__] called with keyword arguments only. *)
Fixpoint init_attrs (fields : list (string * pytype))
  (defaults : list (string * default)) (kwargs : list (string * pyval))
  : result (list (string * pyval)) :=
  match fields with
  | [] => Ok []
  | (name, _) :: rest =>
      v <- match assoc_get kwargs name with
           | Some v => Ok v
           | None =>
               match assoc_get defaults name with
               | Some (Default p) => Ok (of_prim p)
               | Some DefaultFactoryList => Ok (VList [])
               | Some DefaultFactoryDict => Ok (VDict [])
               | Some Required | None =>
                   Raise (TypeError "missing required argument")
               end
           end ;;
      vs <- init_attrs rest defaults kwargs ;;
      Ok ((name, v) :: vs)
  end.

Definition construct (cls : pytype) (kwargs : list (string * pyval))
  : result pyval :=
  match cls with
  | DocClass _ _ fields defaults =>
      if forallb (fun k => mem k (keys fields)) (keys kwargs) then
        attrs <- init_attrs fields defaults kwargs ;;
        Ok (VDoc cls attrs)
      else Raise (TypeError "unexpected keyword argument")
  | _ => Raise (TypeError "not a document class")
  end.

(** [data.copy()] and [data[field_name]] ([None] stands for [KeyError]). *)
Definition py_copy (v : pyval) : result pyval :=
  match v with
  | VDict _ | VList _ => Ok v
  | _ => Raise (AttributeError "copy")
  end.

Definition subscript (data : pyval) (key : string) : result (option pyval) :=
  match data with
  | VDict d => Ok (dict_get d (VStr key))
  | _ => Raise (TypeError "indices must be integers")
  end.

(** [{fk(k): fv(v) for k, v in items}] *)
Fixpoint dict_comp (fk fv : pyval -> result pyval)
  (items acc : list (pyval * pyval)) : result (list (pyval * pyval)) :=
  match items with
  | [] => Ok acc
  | (k, v) :: rest =>
      k' <- fk k ;;
      v' <- fv v ;;
      acc' <- dict_set acc k' v' ;;
      dict_comp fk fv rest acc'
  end.

Section Codec.
Variable rt : Runtime.

(** [klass(value)] for the classes that reach the last line of [_build]. *)
Definition call_klass (klass : pytype) (value : pyval) : result pyval :=
  match klass with
  | KInt =>
      match value with
      | VInt z => Ok (VInt z)
      | VBool b => Ok (VInt (Z_of_bool b))
      | VStr s => z <- int_of_str rt s ;; Ok (VInt z)
      | _ => Raise (TypeError "int() argument")
      end
  | KStr => Ok (VStr (py_str rt value))
  | KBool => Ok (VBool (truthy value))
  | EnumClass name members =>
      match value with
      | VEnum cls _ _ =>
          if (cls =? name)%string then Ok value
          else enum_by_value name members value
      | _ => enum_by_value name members value
      end
  | _ => Raise (TypeError "object is not callable with one argument")
  end.

(** The closure [_build] of [from_dict]; [from_dict] is the method it
    reaches through [klass.Meta]. *)
Definition _build (from_dict : Metadata.t -> pyval -> result pyval)
  (klass : pytype) (value : pyval) : result pyval :=
  if is_none value || (match klass with KAny => true | _ => false end)
  then Ok value
  else
    is_doc <- issubclass_EmbeddedDocument klass ;;
    if is_doc : bool then
      match Meta klass with
      | Some meta => from_dict meta value
      | None => Raise (AttributeError "Meta")
      end
    else
      match klass with
      | KDatetime =>
          d <- fromisoformat rt (py_str rt value) ;; Ok (VDatetime d)
      | _ => call_klass klass value
      end.

(** One turn of the loop of [from_dict] after [raw_value] was found:
    the [_name] of [typing.List[..]] is ["List"], that of
    [typing.Dict[..]] is ["Dict"], and a class has none. *)
Definition decode_field (build : pytype -> pyval -> result pyval)
  (field_klass : pytype) (raw_value : pyval) : result pyval :=
  match field_klass with
  | ListOf inner_klass =>
      items <- py_iter raw_value ;;
      item <- mapM (build inner_klass) items ;;
      Ok (VList item)
  | DictOf inner_klass_key inner_klass_value =>
      items <- py_items raw_value ;;
      item <- dict_comp (build inner_klass_key) (build inner_klass_value) items [] ;;
      Ok (VDict item)
  | _ => build field_klass raw_value
  end.

Fixpoint from_dict_fields (build : pytype -> pyval -> result pyval)
  (fields : list (string * pytype)) (data : pyval)
  (parsed_data : list (string * pyval)) : result (list (string * pyval)) :=
  match fields with
  | [] => Ok parsed_data
  | (field_name, field_klass) :: rest =>
      found <- subscript data field_name ;;
      match found with
      | None => from_dict_fields build rest data parsed_data
      | Some raw_value =>
          item <- decode_field build field_klass raw_value ;;
          from_dict_fields build rest data (assoc_set parsed_data field_name item)
      end
  end.

(** [Metadata.from_dict(self, data)]; [fuel] bounds the nesting of embedded
    documents the call may descend into. *)
Fixpoint from_dict (fuel : nat) (self : Metadata.t) (data : pyval)
  : result pyval :=
  match fuel with
  | O => Raise RecursionError
  | S fuel' =>
      data <- py_copy data ;;
      parsed_data <- from_dict_fields (_build (from_dict fuel'))
                       (Metadata.fields self) data [] ;;
      construct (Metadata.doc_klass self) parsed_data
  end.

(** The closure [_unbuild] of [to_dict]. *)
Definition _unbuild (to_dict : Metadata.t -> pyval -> result pyval)
  (value : pyval) : result pyval :=
  match value with
  | VNone => Ok value
  | VDoc cls _ =>
      match Meta cls with
      | Some meta => to_dict meta value
      | None => Raise (AttributeError "Meta")
      end
  | VEnum _ _ p => Ok (of_prim p)
  | _ => Ok value
  end.

Definition encode_field (unbuild : pyval -> result pyval)
  (field_klass : pytype) (raw_value : pyval) : result pyval :=
  match field_klass with
  | ListOf _ =>
      items <- py_iter raw_value ;;
      item <- mapM unbuild items ;;
      Ok (VList item)
  | DictOf _ _ =>
      items <- py_items raw_value ;;
      item <- dict_comp unbuild unbuild items [] ;;
      Ok (VDict item)
  | _ => unbuild raw_value
  end.

(** [select_fields and field not in select_fields]: the name tested is the
    module-level [field], not the loop variable [field_name]. *)
Definition skipped (select_fields : option (list string)) : bool :=
  match select_fields with
  | None | Some [] => false
  | Some names => negb (py_in field names)
  end.

Fixpoint to_dict_fields (unbuild : pyval -> result pyval)
  (fields : list (string * pytype)) (obj : pyval)
  (select_fields : option (list string))
  (data : list (string * pyval)) : result (list (string * pyval)) :=
  match fields with
  | [] => Ok data
  | (field_name, field_klass) :: rest =>
      if skipped select_fields
      then to_dict_fields unbuild rest obj select_fields data
      else
        raw_value <- getattr obj field_name ;;
        item <- encode_field unbuild field_klass raw_value ;;
        to_dict_fields unbuild rest obj select_fields
          (assoc_set data field_name item)
  end.

(** [Metadata.to_dict(self, obj, select_fields)] *)
Fixpoint to_dict (fuel : nat) (self : Metadata.t) (obj : pyval)
  (select_fields : option (list string)) : result pyval :=
  match fuel with
  | O => Raise RecursionError
  | S fuel' =>
      data <- to_dict_fields
                (_unbuild (fun meta value => to_dict fuel' meta value None))
                (Metadata.fields self) obj select_fields [] ;;
      Ok (as_dict data)
  end.
End Codec.

(** ** The datastore client

    [google.cloud.datastore] is not part of this module.  What the manager
    relies on is modelled as an in-memory store:
    - a key is a kind plus an integer id or a string name;
    - [client.get], [put], [delete], [delete_multi] act on the entity with
      that key; the write calls are logged in the order they are issued;
    - [allocate_ids] hands out an integer id no stored entity uses;
    - [client.query(kind)] creates a query object; [add_filter] appends to
      that object's own filter list, rejects an operator the store does not
      know, and returns the object it was called on;
    - [query.fetch(start_cursor, limit)] gives one page of the entities of
      the kind that satisfy every filter, in insertion order, and a
      continuation token exactly when results remain after the page.

    The store of this model keeps every property value as it was put.  The
    service does so for [None], booleans, 64-bit integers, text, and lists
    and text-keyed dictionaries of these ([storable] below); a [datetime]
    without time zone comes back with one, and it takes no other object.
    What is stated about values read back is stated for storable values. *)

Inductive key_id :=
| KeyId (id : Z)
| KeyName (name : string).

Record Key := {
  key_kind : string;
  id_or_name : key_id
}.

Record Entity := {
  key : Key;
  props : list (string * pyval)
}.

(** [entity.id]: the key's integer id, [None] for a named key. *)
Definition entity_id (e : Entity) : pyval :=
  match id_or_name (key e) with
  | KeyId z => VInt z
  | KeyName _ => VNone
  end.

Record Query := {
  query_kind : string;
  order : pyval;
  distinct_on : pyval;
  filters : list filter3
}.

Inductive Call :=
| Put (e : Entity)
| Delete (k : Key)
| DeleteMulti (ks : list Key).

Record Client := {
  entities : list Entity;
  next_id : Z;
  queries : list Query;          (* query objects, addressed by position *)
  default_page_size : nat;
  calls : list Call
}.

Definition qref := nat.

Definition key_id_eqb (a b : key_id) : bool :=
  match a, b with
  | KeyId x, KeyId y => (x =? y)%Z
  | KeyName x, KeyName y => (x =? y)%string
  | _, _ => false
  end.

Definition Key_eqb (a b : Key) : bool :=
  (key_kind a =? key_kind b)%string && key_id_eqb (id_or_name a) (id_or_name b).

(** Computations that read and write the store and may raise. *)
Definition M (A : Type) : Type := Client -> result A * Client.

Definition ret {A} (a : A) : M A := fun c => (Ok a, c).
Definition raise {A} (e : exn) : M A := fun c => (Raise e, c).
Definition lift {A} (r : result A) : M A := fun c => (r, c).
Definition bindM {A B} (m : M A) (k : A -> M B) : M B :=
  fun c =>
    match m c with
    | (Ok a, c') => k a c'
    | (Raise e, c') => (Raise e, c')
    end.

Notation "'let*' x ':=' m 'in' k" := (bindM m (fun x => k))
  (at level 10, x name, m at level 100, k at level 200) : py_scope.
Notation "'let*' ' p ':=' m 'in' k" := (bindM m (fun x => match x with p => k end))
  (at level 10, p pattern, m at level 100, k at level 200) : py_scope.

(** [client.key(kind, id_or_name)] *)
Definition client_key (kind : string) (typed_pk : pyval) : result Key :=
  match typed_pk with
  | VInt z => Ok {| key_kind := kind; id_or_name := KeyId z |}
  | VBool b => Ok {| key_kind := kind; id_or_name := KeyId (Z_of_bool b) |}
  | VStr s => Ok {| key_kind := kind; id_or_name := KeyName s |}
  | _ => Raise (ValueError "id or name must be an integer or a string")
  end.

Definition key_ident (k : Key) : Z :=
  match id_or_name k with
  | KeyId z => z
  | KeyName _ => 0%Z
  end.

(** [client.allocate_ids(client.key(kind), 1)[0]] *)
Definition allocate_id (kind : string) : M Key :=
  fun c =>
    let used := fold_right Z.max (Z.max 0 (next_id c))
                  (map (fun e => key_ident (key e)) (entities c)) in
    let z := Z.succ used in
    (Ok {| key_kind := kind; id_or_name := KeyId z |},
     {| entities := entities c; next_id := z; queries := queries c;
        default_page_size := default_page_size c; calls := calls c |}).

(** [client.get(key)] *)
Definition client_get (k : Key) : M (option Entity) :=
  fun c => (Ok (find (fun e => Key_eqb (key e) k) (entities c)), c).

Definition set_store (c : Client) (es : list Entity) (call : Call) : Client :=
  {| entities := es; next_id := next_id c; queries := queries c;
     default_page_size := default_page_size c; calls := calls c ++ [call] |}.

Fixpoint upsert (es : list Entity) (e : Entity) : list Entity :=
  match es with
  | [] => [e]
  | e' :: rest =>
      if Key_eqb (key e') (key e) then e :: rest else e' :: upsert rest e
  end.

(** [client.put(entity)] *)
Definition client_put (e : Entity) : M unit :=
  fun c => (Ok tt, set_store c (upsert (entities c) e) (Put e)).

(** [client.delete(key)] *)
Definition client_delete (k : Key) : M unit :=
  fun c =>
    (Ok tt,
     set_store c (List.filter (fun e => negb (Key_eqb (key e) k)) (entities c))
       (Delete k)).

(** [client.delete_multi(keys)] *)
Definition client_delete_multi (ks : list Key) : M unit :=
  fun c =>
    (Ok tt,
     set_store c
       (List.filter (fun e => negb (existsb (Key_eqb (key e)) ks)) (entities c))
       (DeleteMulti ks)).

Definition set_queries (c : Client) (qs : list Query) : Client :=
  {| entities := entities c; next_id := next_id c; queries := qs;
     default_page_size := default_page_size c; calls := calls c |}.

(** [client.query(kind=kind)]: a new query object. *)
Definition client_query (kind : string) : M qref :=
  fun c =>
    (Ok (length (queries c)),
     set_queries c (queries c ++ [ {| query_kind := kind; order := VNone;
                                      distinct_on := VNone; filters := [] |} ])).

Fixpoint update_nth {A} (l : list A) (n : nat) (f : A -> A) : list A :=
  match l, n with
  | [], _ => []
  | x :: rest, O => f x :: rest
  | x :: rest, S n' => x :: update_nth rest n' f
  end.

Definition modify_query (q : qref) (f : Query -> Query) : M unit :=
  fun c => (Ok tt, set_queries c (update_nth (queries c) q f)).

(** [query.order = order_by] and [query.distinct_on = distinct_on] *)
Definition set_order (q : qref) (order_by : pyval) : M unit :=
  modify_query q (fun o => {| query_kind := query_kind o; order := order_by;
                              distinct_on := distinct_on o; filters := filters o |}).

Definition set_distinct_on (q : qref) (d : pyval) : M unit :=
  modify_query q (fun o => {| query_kind := query_kind o; order := order o;
                              distinct_on := d; filters := filters o |}).

(** The operators [Query.add_filter] accepts. *)
Definition OPERATORS : list string := ["<="; ">="; "<"; ">"; "="].

(** [query.add_filter(property_name, operator, value)]: mutates the object
    and returns it. *)
Definition add_filter (q : qref) (property_name operator : string)
  (value : pyval) : M qref :=
  if negb (mem operator OPERATORS) then raise (ValueError "Invalid expression")
  else
    let* _ := modify_query q
                (fun o => {| query_kind := query_kind o; order := order o;
                             distinct_on := distinct_on o;
                             filters := filters o ++ [(property_name, operator, value)] |}) in
    ret q.

(** How the store evaluates one filter on one entity. *)
Fixpoint lookup_path (d : pyval) (path : list string) : option pyval :=
  match path with
  | [] => Some d
  | name :: rest =>
      match d with
      | VDict items =>
          match dict_get items (VStr name) with
          | Some v => lookup_path v rest
          | None => None
          end
      | _ => None
      end
  end.

Definition compare_values (operator : string) (a b : pyval) : bool :=
  match a, b with
  | VInt x, VInt y =>
      if (operator =? "<")%string then (x <? y)%Z
      else if (operator =? "<=")%string then (x <=? y)%Z
      else if (operator =? ">")%string then (y <? x)%Z
      else if (operator =? ">=")%string then (y <=? x)%Z
      else false
  | VStr x, VStr y =>
      if (operator =? "<")%string then (x <? y)%string
      else if (operator =? "<=")%string then (x <=? y)%string
      else if (operator =? ">")%string then (y <? x)%string
      else if (operator =? ">=")%string then (y <=? x)%string
      else false
  | _, _ => false
  end.

Definition satisfies (e : Entity) (f : filter3) : bool :=
  let '(property_name, operator, value) := f in
  match lookup_path (as_dict (props e)) (split "." property_name) with
  | Some v =>
      if (operator =? "=")%string then key_eqb v value
      else compare_values operator v value
  | None => false
  end.

Definition results (c : Client) (q : Query) : list Entity :=
  List.filter
    (fun e => (key_kind (key e) =? query_kind q)%string
              && forallb (satisfies e) (filters q))
    (entities c).

(** [query.fetch(start_cursor=cursor, limit=limit)], the first page of the
    iterator and its [next_page_token]. *)
Definition fetch (c : Client) (q : qref) (start_cursor : option nat)
  (limit : option nat) : result (list Entity * option nat) :=
  match nth_error (queries c) q with
  | None => Raise (AttributeError "fetch")
  | Some o =>
      let start := match start_cursor with Some n => n | None => 0 end in
      let size := match limit with Some n => n | None => default_page_size c end in
      let rest := skipn start (results c o) in
      Ok (firstn size rest,
          if size <? length rest then Some (start + size) else None)
  end.

(** ** Generators

    A generator that is run to its end: what it yielded, then how it ended.
    A consumer that stops early sees a prefix of [yielded] and never the
    [ending]. *)
Inductive ending :=
| Exhausted
| Raised (e : exn).

Record gen (A : Type) := {
  yielded : list A;
  ended : ending
}.

Definition gen_done {A} (xs : list A) : gen A :=
  {| yielded := xs; ended := Exhausted |}.

Definition gen_raise {A} (e : exn) : gen A :=
  {| yielded := []; ended := Raised e |}.

Definition gen_cons {A} (xs : list A) (g : gen A) : gen A :=
  {| yielded := xs ++ yielded g; ended := ended g |}.

(** [itertools.product] of the pools, the rightmost pool varying fastest. *)
Fixpoint product {A} (pools : list (list A)) : list (list A) :=
  match pools with
  | [] => [[]]
  | pool :: rest => flat_map (fun x => map (cons x) (product rest)) pool
  end.

(** ** [Manager] *)

Module Manager.
Record t := {
  fields : list (string * pytype);
  pk_field : string;
  doc_klass : pytype;
  kind : string
}.
End Manager.

(** [klass.documents], set by the [ORM] metaclass on concrete documents. *)
Definition documents (k : pytype) : option Manager.t :=
  match k with
  | DocClass name true fields _ =>
      Some {| Manager.fields := fields;
              Manager.pk_field := DEFAULT_PK_FIELD;
              Manager.doc_klass := k;
              Manager.kind := name |}
  | _ => None
  end.

Definition lookup_operators : list (string * pyobj) :=
  [ ("eq", ObjStr "=");
    ("gt", ObjStr ">");
    ("gte", ObjStr ">=");
    ("lt", ObjStr "<");
    ("lte", ObjStr "<=");
    ("in", ObjStr "in");
    ("startswith", ObjFunction "_starts_with_operator") ].

(** [obj.Meta.pk_field] of a [Document] instance; the property [pk] exists
    on [Document] only, and only a concrete document has a primary-key field. *)
Definition pk_field_of (obj : pyval) : result string :=
  match obj with
  | VDoc cls _ =>
      match Meta cls with
      | Some {| Metadata.pk_field := Some name |} => Ok name
      | _ => Raise (AttributeError "pk")
      end
  | _ => Raise (AttributeError "pk")
  end.

(** [obj.pk]: [getattr(self, self.Meta.pk_field, None)] *)
Definition pk (obj : pyval) : result pyval :=
  name <- pk_field_of obj ;;
  match obj with
  | VDoc _ attrs =>
      match assoc_get attrs name with
      | Some v => Ok v
      | None => Ok VNone
      end
  | _ => Raise (AttributeError "pk")
  end.

(** [setattr(obj, name, v)] *)
Definition setattr (obj : pyval) (name : string) (v : pyval) : pyval :=
  match obj with
  | VDoc cls attrs => VDoc cls (assoc_set attrs name v)
  | _ => obj
  end.

(** [entity.update(data)] for a dictionary [data] with string keys. *)
Fixpoint update_props (props : list (string * pyval))
  (data : list (pyval * pyval)) : list (string * pyval) :=
  match data with
  | [] => props
  | (VStr k, v) :: rest => update_props (assoc_set props k v) rest
  | _ :: rest => update_props props rest
  end.

Section ManagerMethods.
Variable rt : Runtime.
(** Bound on the iterations of the paging loop and on the nesting the
    codec descends into. *)
Variable fuel : nat.

(** [operator(field_name, value)] for the object bound to [operator]. *)
Definition call_operator (operator : pyobj) (field_name : string)
  (value : pyval) : result (list filter3) :=
  match operator with
  | ObjFunction _ => Ok (_starts_with_operator rt (chars field_name) value)
  | ObjStr _ => Raise (TypeError "'str' object is not callable")
  end.

(** [Manager._build_filter(self, key, value)].  [finish] is the tail of the
    method, from [parts = field_name.split(".")] on, which both the key
    without a suffix and the key with a known suffix reach.  [operator] is
    the suffix as it stands in the key, a [str]: it is what [callable] is
    asked about and what the returned predicate carries. *)
Definition _build_filter (self : Manager.t) (key : string) (value : pyval)
  : result (list filter3) :=
  match split "__" key with
  | [] => Raise (ValueError "not enough values to unpack")
  | field_name :: extra =>
      let finish (operator : option string) :=
        let parts := split "." field_name in
        if (1 <? length parts)
           && negb (mem (hd EmptyString parts) (keys (Manager.fields self)))
        then Raise (ValidationError
                      (hd EmptyString parts ++ " is not a valid field. Excepted one of "
                       ++ String.concat " | " (keys (Manager.fields self)))%string)
        else
          Ok [ (field_name,
                match operator with
                | Some o => if (o =? EmptyString)%string then "=" else o
                | None => "="
                end,
                value) ] in
      match extra with
      | [] => finish None
      | _ =>
          if 1 <? length extra
          then Raise (UnsupportedFormatException (LookupKeyFormat extra))
          else
            let operator := hd EmptyString extra in
            if negb (mem operator (keys lookup_operators))
            then Raise (UnsupportedFormatException (Lookup operator))
            else if callable (ObjStr operator)
                 then call_operator (ObjStr operator) field_name value
                 else finish (Some operator)
      end
  end.

(** [Manager.build_key(self, pk)] *)
Definition build_key (self : Manager.t) (pk : pyval) : M Key :=
  if truthy pk then
    let* typed_pk :=
      lift (match Meta (Manager.doc_klass self) with
            | Some meta =>
                match assoc_get (Metadata.fields meta) (Manager.pk_field self) with
                | Some klass => call_klass rt klass pk
                | None => Raise (KeyError (Manager.pk_field self))
                end
            | None => Raise (AttributeError "Meta")
            end) in
    lift (client_key (Manager.kind self) typed_pk)
  else allocate_id (Manager.kind self).

(** [Manager._iterate(self, query, page_size)], run on the store [c]. *)
Fixpoint _iterate_from (n : nat) (c : Client) (query : qref)
  (page_size : option nat) (cursor : option nat) : gen Entity :=
  match n with
  | O => gen_raise OutOfFuel
  | S n' =>
      match fetch c query cursor page_size with
      | Raise e => gen_raise e
      | Ok (page, next_page_token) =>
          match next_page_token with
          | Some _ => gen_cons page (_iterate_from n' c query page_size next_page_token)
          | None => gen_done page
          end
      end
  end.

Definition _iterate (c : Client) (query : qref) (page_size : option nat)
  : gen Entity :=
  _iterate_from fuel c query page_size None.

(** The first loop of [query]: compile every lookup, keep the ["in"]
    predicates aside, add the others to the query. *)
Fixpoint add_direct (query : qref) (all_filters : list filter3)
  (cross_filters : list filter3) : M (list filter3) :=
  match all_filters with
  | [] => ret cross_filters
  | (field_name, operator, field_value) :: rest =>
      if (operator =? "in")%string
      then add_direct query rest (cross_filters ++ [(field_name, operator, field_value)])
      else let* _ := add_filter query field_name operator field_value in
           add_direct query rest cross_filters
  end.

Fixpoint parse_lookups (self : Manager.t) (query : qref)
  (kwargs : list (string * pyval)) (cross_filters : list filter3)
  : M (list filter3) :=
  match kwargs with
  | [] => ret cross_filters
  | (key, value) :: rest =>
      let* all_filters := lift (_build_filter self key value) in
      let* cross_filters := add_direct query all_filters cross_filters in
      parse_lookups self query rest cross_filters
  end.

(** [options[name].append(...)] on a [defaultdict(list)] *)
Definition options_append (options : list (string * list filter3))
  (name : string) (f : filter3) : list (string * list filter3) :=
  match assoc_get options name with
  | Some l => assoc_replace options name (l ++ [f])
  | None => options ++ [(name, [f])]
  end.

Fixpoint prepare_options (cross_filters : list filter3)
  (options : list (string * list filter3))
  : result (list (string * list filter3)) :=
  match cross_filters with
  | [] => Ok options
  | (name, _, values) :: rest =>
      vs <- py_iter values ;;
      prepare_options rest
        (fold_left (fun opts value => options_append opts name (name, "=", value))
           vs options)
  end.

(** [current_query = query] followed by
    [current_query = current_query.add_filter(...)] for each filter. *)
Fixpoint add_combination (current_query : qref) (combination : list filter3)
  : M qref :=
  match combination with
  | [] => ret current_query
  | (field_name, operator, value) :: rest =>
      let* current_query := add_filter current_query field_name operator value in
      add_combination current_query rest
  end.

(** [if item.id not in found: yield item; found.add(item.id)] over the
    items of one combination. *)
Fixpoint take_new (items : list Entity) (found : list pyval)
  : list Entity * list pyval :=
  match items with
  | [] => ([], found)
  | item :: rest =>
      if existsb (key_eqb (entity_id item)) found
      then take_new rest found
      else let '(out, found') := take_new rest (found ++ [entity_id item]) in
           (item :: out, found')
  end.

Fixpoint run_combinations (query : qref) (page_size : option nat)
  (combinations : list (list filter3)) (found : list pyval) (c : Client)
  : gen Entity * Client :=
  match combinations with
  | [] => (gen_done [], c)
  | combination :: rest =>
      match add_combination query combination c with
      | (Raise e, c') => (gen_raise e, c')
      | (Ok current_query, c') =>
          let g := _iterate c' current_query page_size in
          let '(out, found') := take_new (yielded g) found in
          match ended g with
          | Exhausted =>
              let '(g', c'') := run_combinations query page_size rest found' c' in
              (gen_cons out g', c'')
          | Raised e => ({| yielded := out; ended := Raised e |}, c')
          end
      end
  end.

(** [Manager.query(self, distinct_on, order_by, page_size, **kwargs)] *)
Definition query (self : Manager.t) (distinct_on order_by : pyval)
  (page_size : option nat) (kwargs : list (string * pyval)) (c : Client)
  : gen Entity * Client :=
  let prepare : M (qref * list filter3) :=
    let* query := client_query (Manager.kind self) in
    let* _ := (if truthy order_by then set_order query order_by else ret tt) in
    let* _ := (if truthy distinct_on then set_distinct_on query distinct_on else ret tt) in
    let* cross_filters := parse_lookups self query kwargs [] in
    ret (query, cross_filters) in
  match prepare c with
  | (Raise e, c') => (gen_raise e, c')
  | (Ok (query, cross_filters), c') =>
      match cross_filters with
      | [] => (_iterate c' query page_size, c')
      | _ =>
          match prepare_options cross_filters [] with
          | Raise e => (gen_raise e, c')
          | Ok options =>
              let combinations := product (map snd options) in
              run_combinations query page_size combinations [] c'
          end
      end
  end.

(** [Manager.from_entity(self, entity)] *)
Definition from_entity (self : Manager.t) (entity : Entity) : result pyval :=
  let data := props entity in
  let data :=
    if negb (mem (Manager.pk_field self) (keys data))
    then assoc_set data (Manager.pk_field self) (entity_id entity)
    else data in
  match Meta (Manager.doc_klass self) with
  | Some meta => from_dict rt fuel meta (as_dict data)
  | None => Raise (AttributeError "Meta")
  end.

(** [for entity in ...: yield self.from_entity(entity=entity)] *)
Fixpoint decode_all (self : Manager.t) (items : list Entity) (e : ending)
  : gen pyval :=
  match items with
  | [] => {| yielded := []; ended := e |}
  | entity :: rest =>
      match from_entity self entity with
      | Ok obj => gen_cons [obj] (decode_all self rest e)
      | Raise err => gen_raise err
      end
  end.

(** The call of [query] with the keyword arguments of [filter] unpacked
    into it: a keyword argument named as one of the
    parameters of [query] is bound to that parameter, and only the others
    reach [query] as lookups. *)
Definition query_parameters : list string :=
  ["distinct_on"; "order_by"; "page_size"].

Definition argument (kwargs : list (string * pyval)) (name : string) : pyval :=
  match assoc_get kwargs name with
  | Some v => v
  | None => VNone
  end.

Definition lookups_of (kwargs : list (string * pyval))
  : list (string * pyval) :=
  List.filter (fun kv => negb (mem (fst kv) query_parameters)) kwargs.

(** [page_size] as the [limit] of [fetch]: [None] leaves the limit to the
    store, a [bool] is an [int]; the store takes no negative limit and
    nothing that is not a number. *)
Definition as_limit (page_size : pyval) : result (option nat) :=
  match page_size with
  | VNone => Ok None
  | VInt z =>
      if (z <? 0)%Z then Raise (ValueError "limit") else Ok (Some (Z.to_nat z))
  | VBool b => Ok (Some (if b then 1 else 0))
  | _ => Raise (TypeError "limit")
  end.

(** [query] with a [page_size] the store does not take: the generator runs
    as far as its first [fetch], which raises. *)
Definition query_refused (self : Manager.t) (distinct_on order_by : pyval)
  (kwargs : list (string * pyval)) (refusal : exn) (c : Client)
  : gen Entity * Client :=
  let prepare : M (qref * list filter3) :=
    let* query := client_query (Manager.kind self) in
    let* _ := (if truthy order_by then set_order query order_by else ret tt) in
    let* _ := (if truthy distinct_on then set_distinct_on query distinct_on else ret tt) in
    let* cross_filters := parse_lookups self query kwargs [] in
    ret (query, cross_filters) in
  match prepare c with
  | (Raise e, c') => (gen_raise e, c')
  | (Ok (query, cross_filters), c') =>
      match cross_filters with
      | [] => (gen_raise refusal, c')
      | _ =>
          match prepare_options cross_filters [] with
          | Raise e => (gen_raise e, c')
          | Ok options =>
              match product (map snd options) with
              | [] => (gen_done [], c')
              | combination :: _ =>
                  match add_combination query combination c' with
                  | (Raise e, c'') => (gen_raise e, c'')
                  | (Ok _, c'') => (gen_raise refusal, c'')
                  end
              end
          end
      end
  end.

(** [Manager.filter(self, **kwargs)] *)
Definition filter (self : Manager.t) (kwargs : list (string * pyval))
  (c : Client) : gen pyval * Client :=
  let distinct_on := argument kwargs "distinct_on" in
  let order_by := argument kwargs "order_by" in
  let '(g, c') :=
    match as_limit (argument kwargs "page_size") with
    | Ok page_size =>
        query self distinct_on order_by page_size (lookups_of kwargs) c
    | Raise refusal =>
        query_refused self distinct_on order_by (lookups_of kwargs) refusal c
    end in
  (decode_all self (yielded g) (ended g), c').

(** The loop of [get] over the objects [filter] yields. *)
Fixpoint hope_for_one (self : Manager.t) (kwargs : list (string * pyval))
  (objs : list pyval) (e : ending) (one_obj : pyval) : result pyval :=
  match objs with
  | [] =>
      match e with
      | Raised err => Raise err
      | Exhausted =>
          if negb (truthy one_obj)
          then Raise (DoesNotExist (Manager.doc_klass self) (as_dict kwargs))
          else Ok one_obj
      end
  | obj :: rest =>
      if negb (is_none one_obj)
      then Raise (MultipleObjectsFound (Manager.doc_klass self) (as_dict kwargs))
      else hope_for_one self kwargs rest e obj
  end.

(** [Manager.get(self, **kwargs)] *)
Definition get (self : Manager.t) (kwargs : list (string * pyval)) : M pyval :=
  match assoc_get kwargs (Manager.pk_field self) with
  | Some pk =>
      let* k := build_key self pk in
      let* entity := client_get k in
      match entity with
      | Some entity =>
          if match props entity with [] => false | _ => true end
          then lift (from_entity self entity)
          else raise (DoesNotExist (Manager.doc_klass self) pk)
      | None => raise (DoesNotExist (Manager.doc_klass self) pk)
      end
  | None =>
      fun c =>
        let '(g, c') := filter self kwargs c in
        (hope_for_one self kwargs (yielded g) (ended g) VNone, c')
  end.

(** [Manager.to_entity(self, obj)]; the object is mutated in place, so the
    updated object is returned next to the entity. *)
Definition to_entity (self : Manager.t) (obj : pyval) : M (Entity * pyval) :=
  let* pk_value := lift (pk obj) in
  let* k := build_key self pk_value in
  let entity := {| key := k; props := [] |} in
  let* pk_value := lift (pk obj) in
  let* obj :=
    (if negb (truthy pk_value)
     then let* name := lift (pk_field_of obj) in
          ret (setattr obj name (entity_id entity))
     else ret obj) in
  let* data :=
    lift (match obj with
          | VDoc cls _ =>
              match Meta cls with
              | Some meta => to_dict fuel meta obj None
              | None => Raise (AttributeError "Meta")
              end
          | _ => Raise (AttributeError "Meta")
          end) in
  let* items := lift (py_items data) in
  ret ({| key := k; props := update_props [] items |}, obj).

(** [Manager.create(self, obj)] *)
Definition create (self : Manager.t) (obj : pyval) : M pyval :=
  let* '(entity, obj) := to_entity self obj in
  let* _ := client_put entity in
  (* if successfully saved, we assure the auto-generated ID is added to the
     final object *)
  let* pk_value := lift (pk obj) in
  if negb (truthy pk_value)
  then let* name := lift (pk_field_of obj) in
       ret (setattr obj name (entity_id entity))
  else ret obj.

Fixpoint delete_chunks (chunks : list (list Key)) : M unit :=
  match chunks with
  | [] => ret tt
  | chunk :: rest =>
      let* _ := client_delete_multi chunk in
      delete_chunks rest
  end.

(** [Manager.delete(self, pk)] *)
Definition delete (self : Manager.t) (pk : pyval) : M unit :=
  if truthy pk then
    let* k := build_key self pk in
    client_delete k
  else
    fun c =>
      let '(g, c') := query self VNone VNone None [] c in
      match ended g with
      | Raised e => (Raise e, c')
      | Exhausted =>
          let keys := map key (yielded g) in
          delete_chunks (_chunks keys MAX_ITEMS_PER_OPERATIONS) c'
      end.
End ManagerMethods.

(** ** [Manager.update] and the conveniences of [Document] *)

(** [entity.update(as_data)] for a dictionary keyed by strings. *)
Definition merge_props (props data : list (string * pyval))
  : list (string * pyval) :=
  fold_left (fun acc kv => assoc_set acc (fst kv) (snd kv)) data props.

Section Update.
Variable rt : Runtime.
Variable fuel : nat.

(** The comprehension that builds [as_data] in [update]: an embedded
    document among the values is replaced by its bag, any other value is
    kept as it is. *)
Fixpoint as_data (kwargs : list (string * pyval))
  (acc : list (string * pyval)) : result (list (string * pyval)) :=
  match kwargs with
  | [] => Ok acc
  | (key, value) :: rest =>
      v <- match value with
           | VDoc cls _ =>
               match Meta cls with
               | Some meta => to_dict fuel meta value None
               | None => Raise (AttributeError "Meta")
               end
           | _ => Ok value
           end ;;
      as_data rest (assoc_set acc key v)
  end.

(** [Manager.update(self, pk, **kwargs)] *)
Definition update (self : Manager.t) (pk : pyval)
  (kwargs : list (string * pyval)) : M pyval :=
  let* _ :=
    (match kwargs with
     | [] => ret tt
     | _ =>
         let* k := build_key rt self pk in
         let* entity := client_get k in
         let* data := lift (as_data kwargs []) in
         match entity with
         | None => raise (AttributeError "update")
         | Some entity =>
             client_put {| key := key entity;
                           props := merge_props (props entity) data |}
         end
     end) in
  get rt fuel self [("id", pk)].
End Update.

Module Document.
Section Methods.
Variable rt : Runtime.
Variable fuel : nat.

(** [Document.save(self)]: [self.documents.create(obj=self)] *)
Definition save (self : pyval) : M pyval :=
  match self with
  | VDoc cls _ =>
      match documents cls with
      | Some manager => create rt fuel manager self
      | None => raise (AttributeError "documents")
      end
  | _ => raise (AttributeError "documents")
  end.

(** [Document.delete(self)]: [self.documents.delete(pk=self.id)] *)
Definition delete (self : pyval) : M unit :=
  match self with
  | VDoc cls _ =>
      match documents cls with
      | Some manager =>
          let* id := lift (getattr self "id") in
          delete rt fuel manager id
      | None => raise (AttributeError "documents")
      end
  | _ => raise (AttributeError "documents")
  end.
End Methods.
End Document.

(** ** A concrete runtime

    Enough of CPython to run the definitions above: [str] of the scalars
    and of a [datetime] (the ISO form with a space), [int] of a decimal
    string, and [datetime.fromisoformat] of that form. *)

Module CPython.
Definition digit (n : nat) : ascii := ascii_of_nat (48 + n).

(** [n] on [width] decimal digits, most significant first. *)
Fixpoint fmt (width n : nat) : string :=
  match width with
  | O => EmptyString
  | S w => String (digit (n / 10 ^ w)) (fmt w (n mod 10 ^ w))
  end.

(** Reads [width] decimal digits. *)
Fixpoint read_num (width acc : nat) (s : string) : option (nat * string) :=
  match width with
  | O => Some (acc, s)
  | S w =>
      match s with
      | EmptyString => None
      | String c rest =>
          let n := nat_of_ascii c in
          if (48 <=? n) && (n <=? 57)
          then read_num w (10 * acc + (n - 48)) rest
          else None
      end
  end.

Definition expect (c : ascii) (s : string) : option string :=
  match s with
  | String c' rest => if Ascii.eqb c c' then Some rest else None
  | EmptyString => None
  end.

Definition str_datetime (d : datetime) : string :=
  (fmt 4 (year d) ++ "-" ++ fmt 2 (month d) ++ "-" ++ fmt 2 (day d) ++ " "
   ++ fmt 2 (hour d) ++ ":" ++ fmt 2 (minute d) ++ ":" ++ fmt 2 (second d)
   ++ (if (microsecond d =? 0)%nat then EmptyString
       else "." ++ fmt 6 (microsecond d)))%string.

Definition opt_bind {A B} (o : option A) (k : A -> option B) : option B :=
  match o with
  | Some a => k a
  | None => None
  end.

Definition parse_datetime (s : string) : option datetime :=
  opt_bind (read_num 4 0 s) (fun '(y, s) =>
  opt_bind (expect "-" s) (fun s =>
  opt_bind (read_num 2 0 s) (fun '(mo, s) =>
  opt_bind (expect "-" s) (fun s =>
  opt_bind (read_num 2 0 s) (fun '(d, s) =>
  opt_bind (match s with String _ rest => Some rest | EmptyString => None end) (fun s =>
  opt_bind (read_num 2 0 s) (fun '(h, s) =>
  opt_bind (expect ":" s) (fun s =>
  opt_bind (read_num 2 0 s) (fun '(mi, s) =>
  opt_bind (expect ":" s) (fun s =>
  opt_bind (read_num 2 0 s) (fun '(sec, s) =>
  match s with
  | EmptyString => Some (mk_datetime y mo d h mi sec 0)
  | _ =>
      opt_bind (expect "." s) (fun s =>
      opt_bind (read_num 6 0 s) (fun '(us, s) =>
      match s with
      | EmptyString => Some (mk_datetime y mo d h mi sec us)
      | _ => None
      end))
  end))))))))))).

Definition str (v : pyval) : string :=
  match v with
  | VNone => "None"
  | VBool true => "True"
  | VBool false => "False"
  | VInt z => NilZero.string_of_int (Z.to_int z)
  | VStr s => s
  | VDatetime d => str_datetime d
  | VEnum cls member _ => (cls ++ "." ++ member)%string
  | VDoc _ _ => "<document>"
  | VList _ => "<list>"
  | VDict _ => "<dict>"
  end.

Definition runtime : Runtime :=
  {| py_str := str;
     int_of_str := fun s =>
       match NilZero.int_of_string s with
       | Some i => Ok (Z.of_int i)
       | None => Raise (ValueError "invalid literal for int()")
       end;
     fromisoformat := fun s =>
       match parse_datetime s with
       | Some d => Ok d
       | None => Raise (ValueError "Invalid isoformat string")
       end |}.
End CPython.

(** ** Sample record kinds and stores *)

Module Sample.
Definition Color : pytype :=
  EnumClass "Color" [("RED", PInt 1); ("BLUE", PInt 2)].

Definition Address : pytype :=
  DocClass "Address" false
    [("city", KStr); ("zip", KInt)]
    [("city", Default PNone); ("zip", Default PNone)].

Definition Person : pytype :=
  DocClass "Person" true
    [("name", KStr); ("born", KDatetime); ("color", Color); ("home", Address);
     ("tags", ListOf KStr); ("scores", DictOf KStr KInt); ("id", KInt)]
    [("name", Default PNone); ("born", Default PNone); ("color", Default PNone);
     ("home", Default PNone); ("tags", DefaultFactoryList);
     ("scores", DefaultFactoryDict); ("id", Default PNone)].

Definition home : pyval :=
  VDoc Address [("city", VStr "Recife"); ("zip", VInt 50000)].

Definition ada : pyval :=
  VDoc Person
    [("name", VStr "Ada");
     ("born", VDatetime (mk_datetime 1815 12 10 7 30 0 250));
     ("color", VEnum "Color" "BLUE" (PInt 2));
     ("home", home);
     ("tags", VList [VStr "math"; VNone]);
     ("scores", VDict [(VStr "algebra", VInt 10); (VStr "logic", VInt 9)]);
     ("id", VNone)].

(** A person whose date of birth is not known. *)
Definition eve : pyval :=
  VDoc Person
    [("name", VStr "Eve");
     ("born", VNone);
     ("color", VEnum "Color" "RED" (PInt 1));
     ("home", home);
     ("tags", VList [VStr "logic"; VNone]);
     ("scores", VDict [(VStr "algebra", VInt 10)]);
     ("id", VNone)].

(** [tags: List[str] = None] left at its default. *)
Definition untagged : pyval :=
  VDoc Person
    [("name", VStr "Bob"); ("born", VNone); ("color", VNone); ("home", VNone);
     ("tags", VNone); ("scores", VDict []); ("id", VInt 7)].

Definition person_meta : Metadata.t :=
  {| Metadata.fields :=
       [("name", KStr); ("born", KDatetime); ("color", Color); ("home", Address);
        ("tags", ListOf KStr); ("scores", DictOf KStr KInt); ("id", KInt)];
     Metadata.doc_klass := Person;
     Metadata.pk_field := Some DEFAULT_PK_FIELD |}.

(** An enumeration with a member whose value is [None]. *)
Definition Flag : pytype :=
  EnumClass "Flag" [("UNSET", PNone); ("SET", PInt 1)].

Definition Switch : pytype :=
  DocClass "Switch" false [("flag", Flag)] [("flag", Default PNone)].

Definition switch_meta : Metadata.t :=
  {| Metadata.fields := [("flag", Flag)];
     Metadata.doc_klass := Switch;
     Metadata.pk_field := None |}.

Definition switch_unset : pyval :=
  VDoc Switch [("flag", VEnum "Flag" "UNSET" PNone)].

(** The kind [K] of the query examples. *)
Definition K : pytype :=
  DocClass "K" true
    [("status", KStr); ("id", KInt)]
    [("status", Default PNone); ("id", Default PNone)].

Definition manager : Manager.t :=
  {| Manager.fields := [("status", KStr); ("id", KInt)];
     Manager.pk_field := DEFAULT_PK_FIELD;
     Manager.doc_klass := K;
     Manager.kind := "K" |}.

Definition record (id : Z) (status : string) : Entity :=
  {| key := {| key_kind := "K"; id_or_name := KeyId id |};
     props := [("status", VStr status); ("id", VInt id)] |}.


(** Five records: 1, 2 and 3 are active, 4 and 5 are not. *)
Definition five : Client :=
  {| entities := [record 1 "active"; record 2 "active"; record 3 "active";
                  record 4 "idle"; record 5 "idle"];
     next_id := 5; queries := [];
     default_page_size := 2; calls := [] |}.

(** A record that was never saved, and one whose key is zero. *)
Definition unsaved : pyval :=
  VDoc K [("status", VStr "new"); ("id", VNone)].

Definition zero_keyed : pyval :=
  VDoc K [("status", VStr "new"); ("id", VInt 0)].

(** [n] records of kind [K] with ids [1..n]. *)
Definition many (n : nat) : Client :=
  {| entities := map (fun i => record (Z.of_nat i) "active") (seq 1 n);
     next_id := Z.of_nat n; queries := [];
     default_page_size := 300; calls := [] |}.
End Sample.

(** ** Vocabulary of the lookup syntax [fieldPath] / [fieldPath__operator] *)

Fixpoint contains (c : ascii) (s : string) : bool :=
  match s with
  | EmptyString => false
  | String c' rest => Ascii.eqb c c' || contains c rest
  end.

(** The part of a lookup key before the first ["__"], and what follows it. *)
Definition field_path (key : string) : string :=
  hd EmptyString (split "__" key).

Definition suffixes (key : string) : list string :=
  tl (split "__" key).

(** More than one suffix, or one suffix that is no lookup operator. *)
Definition bad_suffix (key : string) : bool :=
  match suffixes key with
  | [] => false
  | [operator] => negb (mem operator (keys lookup_operators))
  | _ => true
  end.

(** The field path is dot-separated and its first segment is not declared. *)
Definition undeclared_nested (self : Manager.t) (key : string) : bool :=
  let parts := split "." (field_path key) in
  (1 <? length parts) && negb (mem (hd EmptyString parts) (keys (Manager.fields self))).

Definition is_unsupported {A} (r : result A) : Prop :=
  exists what, r = Raise (UnsupportedFormatException what).

Definition is_validation_error {A} (r : result A) : Prop :=
  exists msg, r = Raise (ValidationError msg).

Definition is_ok {A} (r : result A) : Prop :=
  exists a, r = Ok a.

(** ** Records that conform to their declared types *)

(** Pairwise different keys, as in a [dict]. *)
Fixpoint distinct (ks : list pyval) : Prop :=
  match ks with
  | [] => True
  | k :: rest => Forall (fun k' => key_eqb k k' = false) rest /\ distinct rest
  end.

(** An [Enum] class: no two members share a value (the second would be an
    alias of the first), and no member carries [None]. *)
Definition enum_ok (members : list (string * prim)) : Prop :=
  distinct (map (fun mp => of_prim (snd mp)) members)
  /\ Forall (fun mp => snd mp <> PNone) members.

Section Conformance.
(** The documents accepted one level down. *)
Variable doc_ok : pytype -> pyval -> Prop.

(** A value where [_build] and [_unbuild] apply: [None], or an instance of
    the declared class. *)
Definition item_ok (klass : pytype) (v : pyval) : Prop :=
  match klass, v with
  | (KAny | ListOf _ | DictOf _ _), _ => False
  | _, VNone => True
  | KInt, VInt _ => True
  | KStr, VStr _ => True
  | KBool, VBool _ => True
  | KDatetime, VDatetime d => datetime_ok d
  | EnumClass name members, VEnum cls m p =>
      cls = name /\ enum_ok members /\ In (m, p) members
  | DocClass _ _ _ _, VDoc _ _ => doc_ok klass v
  | _, _ => False
  end.

(** A field's value: a list for [List[T]], a dict with hashable keys for
    [Dict[K, V]], an item otherwise. *)
Definition field_ok (field_klass : pytype) (v : pyval) : Prop :=
  match field_klass with
  | ListOf inner =>
      match v with
      | VList items => Forall (item_ok inner) items
      | _ => False
      end
  | DictOf key_klass value_klass =>
      match v with
      | VDict items =>
          Forall (fun kv => hashable (fst kv) = true
                            /\ item_ok key_klass (fst kv)
                            /\ item_ok value_klass (snd kv)) items
          /\ distinct (map fst items)
      | _ => False
      end
  | _ => item_ok field_klass v
  end.
End Conformance.

(** An instance of a document class with embedded documents nested at most
    [n] deep: it has exactly the declared fields, each conforming. *)
Fixpoint doc_ok (n : nat) (klass : pytype) (v : pyval) : Prop :=
  match n with
  | O => False
  | S n' =>
      match klass, v with
      | DocClass _ _ fields _, VDoc cls attrs =>
          cls = klass
          /\ NoDup (keys fields)
          /\ keys attrs = keys fields
          /\ Forall2 (fun f a => field_ok (doc_ok n') (snd f) (snd a)) fields attrs
      | _, _ => False
      end
  end.

(** The bag a conforming value is written as. *)
Fixpoint raw_of (v : pyval) : pyval :=
  match v with
  | VEnum _ _ p => of_prim p
  | VDoc _ attrs => VDict (map (fun '(name, a) => (VStr name, raw_of a)) attrs)
  | VList items => VList (map raw_of items)
  | VDict items => VDict (map (fun '(k, a) => (raw_of k, raw_of a)) items)
  | _ => v
  end.

(** An instance of a document class. *)
Definition is_document (v : pyval) : Prop :=
  match v with
  | VDoc _ _ => True
  | _ => False
  end.

(** ** The cross-product executor, as the specification words it *)

Definition with_filters (o : Query) (fs : list filter3) : Query :=
  {| query_kind := query_kind o; order := order o;
     distinct_on := distinct_on o; filters := fs |}.

(** Each entity once, by its id, in first-seen order. *)
Fixpoint first_seen (items : list Entity) (seen : list pyval) : list Entity :=
  match items with
  | [] => []
  | item :: rest =>
      if existsb (key_eqb (entity_id item)) seen
      then first_seen rest seen
      else item :: first_seen rest (seen ++ [entity_id item])
  end.

(** For every combination a direct query with the base filters plus that
    combination's equality filters; the results deduplicated. *)
Definition spec_cross_query (c : Client) (base : Query)
  (combinations : list (list filter3)) : list Entity :=
  first_seen
    (flat_map (fun combination =>
                 results c (with_filters base (filters base ++ combination)))
       combinations)
    [].

(** The filter lists the shared query object goes through when the
    combinations are added to it one after the other. *)
Fixpoint accumulated (fs : list filter3) (combinations : list (list filter3))
  : list (list filter3) :=
  match combinations with
  | [] => []
  | combination :: rest =>
      (fs ++ combination) :: accumulated (fs ++ combination) rest
  end.

(** The entities of a manager's kind. *)
Definition of_kind (self : Manager.t) (e : Entity) : bool :=
  (key_kind (key e) =? Manager.kind self)%string.

(** [ceil(a / b)] *)
Definition ceil_div (a b : nat) : nat := (a + b - 1) / b.

(** The value a dataclass field takes when the constructor gets no argument
    for it, if it has a default. *)
Definition default_value (defaults : list (string * default)) (name : string)
  : option pyval :=
  match assoc_get defaults name with
  | Some (Default p) => Some (of_prim p)
  | Some DefaultFactoryList => Some (VList [])
  | Some DefaultFactoryDict => Some (VDict [])
  | Some Required | None => None
  end.

(** ** Keyword arguments as [query] sorts them *)

(** The suffix of the key is ["in"]. *)
Definition in_suffix (key : string) : bool :=
  match suffixes key with
  | [operator] => (operator =? "in")%string
  | _ => false
  end.

(** A key without suffix, and a key with the suffix ["in"], neither under an
    undeclared leading segment. *)
Definition plain_lookup (self : Manager.t) (kv : string * pyval) : Prop :=
  suffixes (fst kv) = [] /\ undeclared_nested self (fst kv) = false.

Definition in_lookup (self : Manager.t) (kv : string * pyval) : Prop :=
  in_suffix (fst kv) = true /\ undeclared_nested self (fst kv) = false.

(** The predicates of the keyword arguments that go to the query as they
    are, and those kept aside for the combinations. *)
Definition direct_predicates (kwargs : list (string * pyval)) : list filter3 :=
  flat_map (fun kv => if in_suffix (fst kv) then []
                      else [(field_path (fst kv), "=", snd kv)]) kwargs.

Definition cross_predicates (kwargs : list (string * pyval)) : list filter3 :=
  flat_map (fun kv => if in_suffix (fst kv)
                      then [(field_path (fst kv), "in", snd kv)]
                      else []) kwargs.

(** The query object [query] starts from, with the given filters. *)
Definition base_query (self : Manager.t) (fs : list filter3) : Query :=
  {| query_kind := Manager.kind self; order := VNone;
     distinct_on := VNone; filters := fs |}.

(** ** Values the store gives back as they were put *)

(** [None], booleans, integers of 64 bits, text of at most 1500 bytes (the
    limit of an indexed property), lists of such values that are not lists
    themselves, and dictionaries from text to such values. *)
Fixpoint storable (v : pyval) : bool :=
  match v with
  | VNone | VBool _ => true
  | VInt z => (- 2 ^ 63 <=? z)%Z && (z <? 2 ^ 63)%Z
  | VStr s => String.length s <=? 1500
  | VList items =>
      forallb (fun item => match item with
                           | VList _ => false
                           | _ => storable item
                           end) items
  | VDict items =>
      forallb (fun '(k, a) => match k with
                              | VStr _ => storable k && storable a
                              | _ => false
                              end) items
  | VDatetime _ | VEnum _ _ _ | VDoc _ _ => false
  end.

(** * Properties *)

(** ** The embedding on small inputs *)

Example split_lookup : split "__" "age__gte" = ["age"; "gte"].
Proof. reflexivity. Qed.

Example split_three_underscores : split "__" "a___b" = ["a"; "_b"].
Proof. reflexivity. Qed.

Example split_trailing : split "__" "a__" = ["a"; EmptyString].
Proof. reflexivity. Qed.

Example split_path : split "." "home.city" = ["home"; "city"].
Proof. reflexivity. Qed.

Example chunks_of_seven : _chunks [1; 2; 3; 4; 5; 6; 7] 3 = [[1; 2; 3]; [4; 5; 6]; [7]].
Proof. reflexivity. Qed.

Example product_of_two : product [[1; 2]; [3; 4]] = [[1; 3]; [1; 4]; [2; 3]; [2; 4]].
Proof. reflexivity. Qed.

Example manager_of_K : documents Sample.K = Some Sample.manager.
Proof. reflexivity. Qed.

Example bag_of_home :
  to_dict 1 {| Metadata.fields := [("city", KStr); ("zip", KInt)];
               Metadata.doc_klass := Sample.Address;
               Metadata.pk_field := None |} Sample.home None
  = Ok (VDict [(VStr "city", VStr "Recife"); (VStr "zip", VInt 50000)]).
Proof. reflexivity. Qed.

Example get_record_2 :
  fst (get CPython.runtime 10 Sample.manager [("id", VInt 2)] Sample.five)
  = Ok (VDoc Sample.K [("status", VStr "active"); ("id", VInt 2)]).
Proof. reflexivity. Qed.

Example query_active :
  yielded (fst (query CPython.runtime 10 Sample.manager VNone VNone None
                  [("status", VStr "active")] Sample.five))
  = [Sample.record 1 "active"; Sample.record 2 "active"; Sample.record 3 "active"].
Proof. reflexivity. Qed.

(** ** Lookup compilation *)

Section LookupFacts.
Variable rt : Runtime.

Lemma prefix_dot c rest :
  prefix "." (String c rest) = Ascii.eqb "."%char c.
Proof.
  change (prefix "." (String c rest))
    with (if ascii_dec "." c then prefix EmptyString rest else false).
  destruct (ascii_dec "." c) as [<-|Hne].
  - rewrite Ascii.eqb_refl. now destruct rest.
  - symmetry. now apply Ascii.eqb_neq.
Qed.

Lemma split_from_no_dot s : forall cur,
  contains "." s = false ->
  split_from "." 0 cur s = [(cur ++ s)%string].
Proof.
  induction s as [|c rest IH]; intros cur H.
  - simpl. f_equal. induction cur; simpl; congruence.
  - cbn [contains] in H. apply orb_false_iff in H as [Hc Hrest].
    cbn [split_from]. rewrite prefix_dot, Hc.
    rewrite (IH _ Hrest). f_equal.
    clear. induction cur; simpl; congruence.
Qed.

Lemma split_no_dot s :
  contains "." s = false -> split "." s = [s].
Proof. intro H. unfold split. now rewrite split_from_no_dot. Qed.

Lemma split_from_nonempty sep s : forall skip cur,
  split_from sep skip cur s <> [].
Proof.
  induction s as [|c rest IH]; intros skip cur; cbn [split_from].
  - discriminate.
  - destruct skip; [|apply IH].
    destruct (prefix sep (String c rest)); [discriminate|apply IH].
Qed.

Lemma known_operator_not_empty operator :
  mem operator (keys lookup_operators) = true ->
  (operator =? EmptyString)%string = false.
Proof.
  intro H. destruct (String.eqb_spec operator EmptyString) as [->|]; [|reflexivity].
  discriminate H.
Qed.

(** What [_build_filter] does, by the three cases of the key: a bad
    suffix, an undeclared leading segment of a dotted path, anything else. *)
Lemma _build_filter_cases (self : Manager.t) key value :
  _build_filter rt self key value =
    if bad_suffix key then
      Raise (UnsupportedFormatException
               (match suffixes key with
                | [operator] => Lookup operator
                | extra => LookupKeyFormat extra
                end))
    else if undeclared_nested self key then
      Raise (ValidationError
               (hd EmptyString (split "." (field_path key))
                ++ " is not a valid field. Excepted one of "
                ++ String.concat " | " (keys (Manager.fields self)))%string)
    else
      Ok [ (field_path key,
            match suffixes key with
            | [operator] => operator
            | _ => "="
            end,
            value) ].
Proof.
  unfold _build_filter, bad_suffix, undeclared_nested, field_path, suffixes.
  destruct (split "__" key) as [|field_name extra] eqn:Hs.
  - exfalso. revert Hs. apply split_from_nonempty.
  - cbn [hd tl]. destruct extra as [|operator [|o2 more]].
    + reflexivity.
    + cbn [length Nat.ltb Nat.leb hd].
      destruct (mem operator (keys lookup_operators)) eqn:Hop; cbn [negb].
      * cbn [callable]. now rewrite (known_operator_not_empty _ Hop).
      * reflexivity.
    + reflexivity.
Qed.
End LookupFacts.

(** C6, as amended: compilation fails with the unsupported-lookup error
    exactly when the key carries more than one ["__"] suffix or one that is
    no known operator; it fails with [ValidationError], whose message lists
    the declared fields, exactly when the suffix is acceptable and the field
    path is dot-nested with an undeclared leading segment; every other key
    compiles. *)
Theorem C6_lookup_errors_by_precedence :
  forall rt (self : Manager.t) key value,
    let r := _build_filter rt self key value in
    (is_unsupported r <-> bad_suffix key = true)
    /\ (is_validation_error r <->
        bad_suffix key = false /\ undeclared_nested self key = true)
    /\ (is_ok r <-> bad_suffix key = false /\ undeclared_nested self key = false)
    /\ (is_validation_error r ->
        r = Raise (ValidationError
                     (hd EmptyString (split "." (field_path key))
                      ++ " is not a valid field. Excepted one of "
                      ++ String.concat " | " (keys (Manager.fields self)))%string)).
Proof.
  intros rt self key value r. subst r.
  rewrite _build_filter_cases.
  unfold is_unsupported, is_validation_error, is_ok.
  destruct (bad_suffix key); [|destruct (undeclared_nested self key)];
    repeat split; intros;
    repeat match goal with
      | H : exists _, _ |- _ => destruct H
      | H : _ /\ _ |- _ => destruct H
      end;
    try discriminate; try congruence; eauto.
Qed.

(** C6 as stated fails: on [bogus.sub__unknown] the field path is nested
    under an undeclared field, yet the error is the unsupported-lookup one. *)
Lemma C6_nested_undeclared_without_validation_error :
  let r := _build_filter CPython.runtime Sample.manager "bogus.sub__unknown" (VInt 1) in
  undeclared_nested Sample.manager "bogus.sub__unknown" = true
  /\ ~ is_validation_error r
  /\ r = Raise (UnsupportedFormatException (Lookup "unknown")).
Proof.
  repeat split.
  intros [msg H]. discriminate H.
Qed.

(** C10: a key whose field path has no dot compiles to one predicate, with
    [=] when it has no suffix and with the suffix itself when the suffix is a
    known operator, whatever the declared fields are. *)
Theorem C10_single_segment_never_validated :
  forall rt (self : Manager.t) key value field_name,
    contains "." field_name = false ->
    (split "__" key = [field_name] ->
     _build_filter rt self key value = Ok [(field_name, "=", value)])
    /\ (forall operator,
           split "__" key = [field_name; operator] ->
           mem operator (keys lookup_operators) = true ->
           _build_filter rt self key value = Ok [(field_name, operator, value)]).
Proof.
  intros rt self key value field_name Hdot.
  split; [intros Hs | intros operator Hs Hop];
    rewrite _build_filter_cases;
    unfold bad_suffix, undeclared_nested, suffixes, field_path;
    rewrite Hs; cbn [tl hd]; try rewrite Hop; cbn [negb];
    rewrite (split_no_dot _ Hdot); reflexivity.
Qed.

Lemma C10_witness :
  contains "." "nick" = false
  /\ _build_filter CPython.runtime Sample.manager "nick" (VStr "x")
     = Ok [("nick", "=", VStr "x")]
  /\ _build_filter CPython.runtime Sample.manager "nick__gte" (VInt 3)
     = Ok [("nick", "gte", VInt 3)].
Proof.
  split; [reflexivity|].
  split.
  - apply (proj1 (C10_single_segment_never_validated CPython.runtime
                    Sample.manager "nick" (VStr "x") "nick" eq_refl)).
    reflexivity.
  - apply (proj2 (C10_single_segment_never_validated CPython.runtime
                    Sample.manager "nick__gte" (VInt 3) "nick" eq_refl) "gte");
      reflexivity.
Defined.

(** C2, on the code: the ["startswith"] suffix is kept as the operator of a
    single predicate; the expansion into a range is never run. *)
Theorem C2_startswith_not_expanded :
  _build_filter CPython.runtime Sample.manager "name__startswith" (VStr "ab")
  = Ok [("name", "startswith", VStr "ab")].
Proof. reflexivity. Qed.

(** No lookup compiles to more than one predicate. *)
Lemma _build_filter_single rt (self : Manager.t) key value fs :
  _build_filter rt self key value = Ok fs -> length fs = 1.
Proof.
  rewrite _build_filter_cases.
  destruct (bad_suffix key); [discriminate|].
  destruct (undeclared_nested self key); [discriminate|].
  intro H. injection H as <-. reflexivity.
Qed.

(** The helper itself, called on the segments of a path, builds the range. *)
Lemma _starts_with_operator_range rt (laws : RuntimeLaws rt) path v :
  _starts_with_operator rt path (VStr v) =
    [ (String.concat "." path, ">=", VStr v);
      (String.concat "." path, "<=", VStr (v ++ HIGH_SENTINEL)%string) ].
Proof. unfold _starts_with_operator. now rewrite (str_of_str laws). Qed.

(** ** Batching: [range], slices and [_chunks] *)

Section ChunkFacts.
Context {A : Type}.
Variable n : nat.
Hypothesis n_pos : 0 < n.

Lemma range_from_enough stop : forall fuel1 fuel2 start,
  stop - start <= fuel1 -> stop - start <= fuel2 ->
  range_from fuel1 start stop n = range_from fuel2 start stop n.
Proof.
  induction fuel1 as [|fuel1 IH]; intros fuel2 start H1 H2.
  - destruct fuel2; cbn [range_from]; [reflexivity|].
    destruct (Nat.ltb_spec start stop); [lia|reflexivity].
  - destruct fuel2; cbn [range_from];
      destruct (Nat.ltb_spec start stop); try reflexivity; try lia.
    f_equal. apply IH; lia.
Qed.

Lemma range_from_shift k stop : forall fuel start,
  range_from fuel (start + k) (stop + k) n
  = map (fun i => i + k) (range_from fuel start stop n).
Proof.
  induction fuel as [|fuel IH]; intros start; cbn [range_from map]; [reflexivity|].
  destruct (Nat.ltb_spec start stop), (Nat.ltb_spec (start + k) (stop + k));
    try lia; [|reflexivity].
  cbn [map]. f_equal.
  replace (start + k + n) with (start + n + k) by lia. apply IH.
Qed.

Lemma _chunks_nil : _chunks (@nil A) n = [].
Proof. reflexivity. Qed.

(** The generator peels [n] items off the front at each turn. *)
Lemma _chunks_step (lst : list A) :
  lst <> [] ->
  _chunks lst n = firstn n lst :: _chunks (skipn n lst) n.
Proof.
  intro Hne. unfold _chunks, range.
  assert (Hlen : 0 < length lst) by (destruct lst; [congruence|simpl; lia]).
  rewrite !Nat.sub_0_r.
  destruct (length lst) as [|len] eqn:Hl; [lia|].
  cbn [range_from]. rewrite <- Hl. clear Hlen.
  destruct (Nat.ltb_spec 0 (length lst)) as [_|]; [|lia].
  cbn [map]. f_equal.
  - unfold slice. now rewrite Nat.add_0_l, Nat.sub_0_r.
  - rewrite length_skipn.
    destruct (Nat.le_gt_cases (length lst) n) as [Hle|Hgt].
    + replace (length lst - n) with 0 by lia. cbn [range_from map].
      destruct len; cbn [range_from map]; [reflexivity|].
      destruct (Nat.ltb_spec (0 + n) (length lst)); [lia|reflexivity].
    + rewrite (@range_from_enough (length lst) len (length lst - n) (0 + n)) by lia.
      replace (length lst) with (length lst - n + n) at 2 by lia.
      rewrite range_from_shift, map_map.
      apply map_ext. intro i. unfold slice.
      replace (i + n + n - (i + n)) with n by lia.
      replace (i + n - i) with n by lia.
      now rewrite skipn_skipn.
Qed.

Lemma ceil_div_0 : ceil_div 0 n = 0.
Proof. unfold ceil_div. apply Nat.div_small. lia. Qed.

Lemma ceil_div_step len :
  0 < len -> ceil_div len n = S (ceil_div (len - n) n).
Proof.
  intro Hpos. unfold ceil_div.
  destruct (Nat.le_gt_cases len n) as [Hle|Hgt].
  - replace (len - n) with 0 by lia.
    rewrite (Nat.div_small (0 + n - 1) n) by lia.
    symmetry. apply (Nat.div_unique _ _ 1 (len - 1)); lia.
  - replace (len + n - 1) with (1 * n + (len - n + n - 1)) by lia.
    rewrite Nat.div_add_l by lia. reflexivity.
Qed.

Lemma div_mod_step len :
  n <= len -> len / n = S ((len - n) / n) /\ len mod n = (len - n) mod n.
Proof.
  intro Hle.
  assert (E : len = 1 * n + (len - n)) by lia.
  split.
  - rewrite E at 1. now rewrite Nat.div_add_l by lia.
  - rewrite E at 1. rewrite Nat.add_comm. apply Nat.Div0.mod_add.
Qed.

(** Induction that follows the generator. *)
Lemma chunks_ind (P : list A -> Prop) :
  P [] ->
  (forall lst, lst <> [] -> P (skipn n lst) -> P lst) ->
  forall lst, P lst.
Proof.
  intros Hnil Hstep lst.
  remember (length lst) as len eqn:Hl.
  revert lst Hl. induction len as [len IH] using lt_wf_ind. intros lst Hl.
  destruct lst as [|x rest]; [exact Hnil|].
  apply Hstep; [discriminate|].
  apply (IH (length (skipn n (x :: rest)))); [|reflexivity].
  rewrite length_skipn. subst len. cbn [length]. lia.
Qed.

Lemma _chunks_concat (lst : list A) : concat (_chunks lst n) = lst.
Proof.
  induction lst as [|lst Hne IH] using chunks_ind; [reflexivity|].
  rewrite (_chunks_step Hne). cbn [concat]. rewrite IH.
  apply firstn_skipn.
Qed.

Lemma _chunks_bounded (lst : list A) :
  Forall (fun chunk => length chunk <= n) (_chunks lst n).
Proof.
  induction lst as [|lst Hne IH] using chunks_ind; [constructor|].
  rewrite (_chunks_step Hne). constructor; [|exact IH].
  rewrite length_firstn. lia.
Qed.

Lemma _chunks_count (lst : list A) :
  length (_chunks lst n) = ceil_div (length lst) n.
Proof.
  induction lst as [|lst Hne IH] using chunks_ind.
  - rewrite _chunks_nil. cbn [length]. now rewrite ceil_div_0.
  - rewrite (_chunks_step Hne). cbn [length]. rewrite IH, length_skipn.
    symmetry. apply ceil_div_step. destruct lst; [congruence|simpl; lia].
Qed.

Lemma _chunks_sizes (lst : list A) :
  map (@length A) (_chunks lst n)
  = repeat n (length lst / n)
    ++ (if length lst mod n =? 0 then [] else [length lst mod n]).
Proof.
  induction lst as [|lst Hne IH] using chunks_ind.
  - rewrite _chunks_nil. cbn [length map].
    rewrite Nat.Div0.div_0_l, Nat.Div0.mod_0_l. reflexivity.
  - rewrite (_chunks_step Hne). cbn [map]. rewrite IH, length_skipn, length_firstn.
    destruct (Nat.le_gt_cases n (length lst)) as [Hle|Hgt].
    + destruct (div_mod_step Hle) as [-> ->].
      rewrite Nat.min_l by lia. reflexivity.
    + replace (length lst - n) with 0 by lia.
      rewrite Nat.Div0.div_0_l, Nat.Div0.mod_0_l.
      rewrite Nat.div_small, Nat.mod_small by lia.
      rewrite Nat.min_r by lia.
      destruct (Nat.eqb_spec (length lst) 0) as [H0|_]; [|reflexivity].
      destruct lst; [congruence|discriminate].
Qed.
End ChunkFacts.

(** ** Paging and bulk deletion *)

Lemma gen_cons_done {A} (xs ys : list A) :
  gen_cons xs (gen_done ys) = gen_done (xs ++ ys).
Proof. reflexivity. Qed.

(** With a positive page size and enough turns, the paging loop yields every
    result after the cursor and ends normally. *)
Lemma _iterate_from_all c q page_size o :
  nth_error (queries c) q = Some o ->
  0 < match page_size with Some p => p | None => default_page_size c end ->
  forall n cursor,
    length (skipn (match cursor with Some s => s | None => 0 end) (results c o)) < n ->
    _iterate_from n c q page_size cursor
    = gen_done (skipn (match cursor with Some s => s | None => 0 end) (results c o)).
Proof.
  intros Hq Hpos. induction n as [|n IH]; intros cursor Hlt; [lia|].
  cbn [_iterate_from]. unfold fetch. rewrite Hq.
  set (start := match cursor with Some s => s | None => 0 end) in *.
  set (size := match page_size with Some p => p | None => default_page_size c end) in *.
  set (rest := skipn start (results c o)) in *.
  destruct (Nat.ltb_spec size (length rest)) as [Hmore|Hlast].
  - rewrite IH.
    + rewrite gen_cons_done. f_equal.
      rewrite <- (firstn_skipn size rest) at 2. f_equal.
      subst rest. rewrite skipn_skipn. f_equal. lia.
    + replace (skipn (start + size) (results c o)) with (skipn size rest)
        by (subst rest; rewrite skipn_skipn; f_equal; lia).
      rewrite length_skipn. lia.
  - now rewrite firstn_all2 by lia.
Qed.

Lemma Key_eqb_refl k : Key_eqb k k = true.
Proof.
  unfold Key_eqb. rewrite String.eqb_refl. cbn [andb].
  destruct (id_or_name k); cbn [key_id_eqb]; [apply Z.eqb_refl|apply String.eqb_refl].
Qed.

Lemma Key_eqb_kind a b : Key_eqb a b = true -> key_kind a = key_kind b.
Proof.
  unfold Key_eqb. intro H. apply andb_true_iff in H as [H _].
  now apply String.eqb_eq.
Qed.

Lemma filter_twice {A} (p q : A -> bool) l :
  List.filter p (List.filter q l) = List.filter (fun x => q x && p x) l.
Proof.
  induction l as [|x l IH]; [reflexivity|].
  cbn [List.filter]. destruct (q x); cbn [List.filter andb]; now rewrite IH.
Qed.

Lemma delete_chunks_spec chunks : forall c,
  delete_chunks chunks c =
    (Ok tt,
     {| entities :=
          List.filter (fun e => negb (existsb (Key_eqb (key e)) (concat chunks)))
            (entities c);
        next_id := next_id c;
        queries := queries c;
        default_page_size := default_page_size c;
        calls := calls c ++ map DeleteMulti chunks |}).
Proof.
  induction chunks as [|chunk rest IH]; intro c.
  - cbn [delete_chunks concat existsb negb map]. unfold ret. f_equal.
    destruct c; cbn. f_equal.
    + induction entities0 as [|e es IHes]; [reflexivity|].
      cbn [List.filter]. now rewrite <- IHes.
    + now rewrite app_nil_r.
  - cbn [delete_chunks]. unfold bindM, client_delete_multi. rewrite IH.
    unfold set_store. cbn [entities next_id queries default_page_size calls].
    f_equal. f_equal.
    + rewrite filter_twice. apply filter_ext. intro e.
      cbn [concat]. rewrite existsb_app, negb_orb. reflexivity.
    + rewrite <- app_assoc. reflexivity.
Qed.

Section DeleteFacts.
Variable rt : Runtime.
Variable fuel : nat.
Variable self : Manager.t.

(** [self.query()] without lookups pages through every entity of the kind. *)
Lemma query_everything c :
  0 < default_page_size c ->
  length (List.filter (of_kind self) (entities c)) < fuel ->
  exists c',
    query rt fuel self VNone VNone None [] c
    = (gen_done (List.filter (of_kind self) (entities c)), c')
    /\ entities c' = entities c
    /\ calls c' = calls c.
Proof.
  intros Hpage Hfuel.
  set (o := {| query_kind := Manager.kind self; order := VNone;
               distinct_on := VNone; filters := [] |}).
  set (c' := set_queries c (queries c ++ [o])).
  assert (Hres : results c' o = List.filter (of_kind self) (entities c)).
  { unfold results. cbn. apply filter_ext. intro e.
    unfold of_kind. now rewrite andb_true_r. }
  exists c'. split; [|split; reflexivity].
  unfold query. cbn. fold o. fold c'. unfold _iterate. f_equal.
  rewrite <- Hres.
  apply (@_iterate_from_all c' (length (queries c)) None o).
  - subst c'. cbn. rewrite nth_error_app2 by lia.
    now rewrite Nat.sub_diag.
  - exact Hpage.
  - cbn [skipn]. now rewrite Hres.
Qed.
End DeleteFacts.

(** C5: [delete()] without a key removes every record of the kind with
    [ceil(n / 500)] bulk-delete calls of at most 500 keys each, which together
    delete exactly the keys of the [n] records, in batches of 500 followed by
    the remainder; for [n = 1200] the batches have sizes 500, 500, 200. *)
Theorem C5_delete_all_in_batches :
  forall rt fuel (self : Manager.t) (c : Client),
    let stored := List.filter (of_kind self) (entities c) in
    let n := length stored in
    0 < default_page_size c ->
    n < fuel ->
    exists c' batches,
      delete rt fuel self VNone c = (Ok tt, c')
      /\ entities c' = List.filter (fun e => negb (of_kind self e)) (entities c)
      /\ calls c' = calls c ++ map DeleteMulti batches
      /\ length batches = ceil_div n 500
      /\ Forall (fun batch => length batch <= 500) batches
      /\ concat batches = map key stored
      /\ map (@length Key) batches
         = repeat 500 (n / 500) ++ (if n mod 500 =? 0 then [] else [n mod 500])
      /\ (n = 1200 -> map (@length Key) batches = [500; 500; 200]).
Proof.
  intros rt fuel self c stored n Hpage Hfuel.
  destruct (query_everything rt self c Hpage Hfuel) as (c1 & Hq & Hent & Hcalls).
  set (batches := _chunks (map key stored) MAX_ITEMS_PER_OPERATIONS).
  assert (H500 : 0 < MAX_ITEMS_PER_OPERATIONS) by (unfold MAX_ITEMS_PER_OPERATIONS; lia).
  assert (Hsizes : map (@length Key) batches
            = repeat 500 (n / 500) ++ (if n mod 500 =? 0 then [] else [n mod 500])).
  { subst batches. rewrite (_chunks_sizes H500), length_map. reflexivity. }
  eexists. exists batches.
  split; [|split; [|split; [|split; [|split; [|split; [|split]]]]]].
  - unfold delete. cbn [truthy]. rewrite Hq. cbn [ended gen_done yielded].
    fold stored. fold batches. apply delete_chunks_spec.
  - cbn [entities]. unfold batches. rewrite Hent, (_chunks_concat H500).
    apply filter_ext_in. intros e He. f_equal.
    unfold stored.
    destruct (of_kind self e) eqn:Hk.
    + apply existsb_exists. exists (key e). split; [|apply Key_eqb_refl].
      apply in_map. apply filter_In. now split.
    + apply not_true_is_false. intro Hex.
      apply existsb_exists in Hex as (k & Hin & Heq).
      apply in_map_iff in Hin as (e' & <- & Hin').
      apply filter_In in Hin' as [_ Hk'].
      apply Key_eqb_kind in Heq. unfold of_kind in Hk, Hk'.
      rewrite Heq, Hk' in Hk. discriminate.
  - cbn [calls]. now rewrite Hcalls.
  - subst batches. rewrite (_chunks_count H500), length_map. reflexivity.
  - apply (_chunks_bounded H500).
  - apply (_chunks_concat H500).
  - exact Hsizes.
  - intro Hn. rewrite Hsizes, Hn. reflexivity.
Qed.

Lemma C5_witness :
  0 < default_page_size (Sample.many 1200)
  /\ length (List.filter (of_kind Sample.manager) (entities (Sample.many 1200))) = 1200
  /\ exists c' batches,
       delete CPython.runtime 1201 Sample.manager VNone (Sample.many 1200) = (Ok tt, c')
       /\ entities c' = []
       /\ calls c' = map DeleteMulti batches
       /\ map (@length Key) batches = [500; 500; 200].
Proof.
  assert (Hn : length (List.filter (of_kind Sample.manager)
                         (entities (Sample.many 1200))) = 1200)
    by (vm_compute; reflexivity).
  split; [cbn; lia|]. split; [exact Hn|].
  destruct (@C5_delete_all_in_batches CPython.runtime 1201 Sample.manager
              (Sample.many 1200))
    as (c' & batches & Hd & He & Hc & _ & _ & _ & _ & H1200).
  - cbn; lia.
  - rewrite Hn. lia.
  - exists c', batches. repeat split.
    + exact Hd.
    + rewrite He. vm_compute. reflexivity.
    + exact Hc.
    + exact (H1200 Hn).
Defined.

(** ** The codec: [to_dict] and [from_dict] *)

Lemma field_not_a_name names : py_in field names = false.
Proof. induction names as [|name names IH]; [reflexivity|exact IH]. Qed.

Lemma to_dict_fields_skipped unbuild obj name names data : forall fields,
  to_dict_fields unbuild fields obj (Some (name :: names)) data = Ok data.
Proof.
  induction fields as [|[field_name field_klass] rest IH]; [reflexivity|].
  cbn [to_dict_fields skipped]. now rewrite field_not_a_name.
Qed.

(** Whatever names a non-empty [select_fields] holds, the bag is empty. *)
Lemma to_dict_select_fields_empty fuel (self : Metadata.t) obj name names :
  to_dict (S fuel) self obj (Some (name :: names)) = Ok (VDict []).
Proof. cbn [to_dict]. now rewrite to_dict_fields_skipped. Qed.

(** C9, on the code: with [select_fields = ["name"]] no field is written to
    the bag, not even the declared field [name]. *)
Theorem C9_select_fields_drops_every_field :
  to_dict 3 Sample.person_meta Sample.ada (Some ["name"]) = Ok (VDict [])
  /\ getattr Sample.ada "name" = Ok (VStr "Ada")
  /\ mem "name" (keys (Metadata.fields Sample.person_meta)) = true.
Proof. repeat split. Qed.

Section DecodeNone.
Variable rt : Runtime.
Variable from_dict' : Metadata.t -> pyval -> result pyval.

Lemma _build_None klass : _build rt from_dict' klass VNone = Ok VNone.
Proof. reflexivity. Qed.

Lemma mapM_build_None inner n :
  mapM (_build rt from_dict' inner) (repeat VNone n) = Ok (repeat VNone n).
Proof.
  induction n as [|n IH]; [reflexivity|].
  cbn [repeat mapM]. rewrite _build_None. cbn [bind]. now rewrite IH.
Qed.
End DecodeNone.

(** C7, as amended: for a scalar, enum, datetime or embedded-record type
    (any declared type that is not a sequence or a mapping) the raw value
    [None] decodes to [None]; inside a sequence or a mapping each [None]
    element, key or value decodes to [None]; [None] in place of the whole
    sequence or mapping raises. *)
Theorem C7_None_decodes_to_None_below_containers :
  forall rt from_dict' field_klass,
    let build := _build rt from_dict' in
    match field_klass with
    | ListOf inner =>
        (forall n, decode_field build field_klass (VList (repeat VNone n))
                   = Ok (VList (repeat VNone n)))
        /\ decode_field build field_klass VNone
           = Raise (TypeError "object is not iterable")
    | DictOf _ _ =>
        decode_field build field_klass (VDict [(VNone, VNone)])
        = Ok (VDict [(VNone, VNone)])
        /\ decode_field build field_klass VNone = Raise (AttributeError "items")
    | _ => decode_field build field_klass VNone = Ok VNone
    end.
Proof.
  intros rt from_dict' field_klass build.
  destruct field_klass; try reflexivity.
  - split; [|reflexivity]. intro n. cbn [decode_field py_iter bind].
    unfold build. now rewrite mapM_build_None.
  - split; reflexivity.
Qed.

(** C7 as stated fails for a sequence type: a bag that holds [None] for a
    [List[str]] field cannot be decoded. *)
Lemma C7_None_for_sequence_raises :
  decode_field (_build CPython.runtime (from_dict CPython.runtime 3))
    (ListOf KStr) VNone
  = Raise (TypeError "object is not iterable")
  /\ from_dict CPython.runtime 3 Sample.person_meta
       (as_dict [("name", VStr "Bob"); ("tags", VNone)])
     = Raise (TypeError "object is not iterable").
Proof. split; reflexivity. Qed.

(** ** The concrete runtime obeys the laws *)

Module CPythonFacts.
Import CPython.

Lemma digit_value q : q < 10 -> nat_of_ascii (digit q) = 48 + q.
Proof. intro H. unfold digit. apply nat_ascii_embedding. lia. Qed.

Lemma read_fmt rest : forall w n acc,
  n < 10 ^ w ->
  read_num w acc (fmt w n ++ rest)%string = Some (acc * 10 ^ w + n, rest).
Proof.
  induction w as [|w IH]; intros n acc Hn.
  - cbn in *. do 2 f_equal. lia.
  - cbn [fmt append read_num].
    assert (Hp : 0 < 10 ^ w) by (apply Nat.neq_0_lt_0, Nat.pow_nonzero; lia).
    assert (Hq : n / 10 ^ w < 10).
    { apply Nat.Div0.div_lt_upper_bound. rewrite Nat.pow_succ_r' in Hn. lia. }
    rewrite (digit_value Hq).
    destruct (Nat.leb_spec 48 (48 + n / 10 ^ w)) as [_|]; [|lia].
    destruct (Nat.leb_spec (48 + n / 10 ^ w) 57) as [_|]; [|lia].
    cbn [andb]. rewrite IH by (apply Nat.mod_upper_bound; lia).
    do 2 f_equal. rewrite Nat.pow_succ_r'.
    pose proof (Nat.div_mod_eq n (10 ^ w)) as E.
    set (P := 10 ^ w) in *. set (q := n / P) in *. set (r := n mod P) in *.
    rewrite E. replace (48 + q - 48) with q by lia. ring.
Qed.

Lemma read_fmt0 rest w n :
  n < 10 ^ w -> read_num w 0 (fmt w n ++ rest)%string = Some (n, rest).
Proof. intro H. now rewrite read_fmt. Qed.

Lemma append_empty s : (s ++ EmptyString)%string = s.
Proof. induction s; cbn; congruence. Qed.

Lemma parse_str_datetime d :
  datetime_ok d -> parse_datetime (str_datetime d) = Some d.
Proof.
  intros (Hy & Hmo & Hd & Hh & Hmi & Hs & Hus).
  assert (H100 : 10 ^ 2 = 100) by reflexivity.
  destruct d as [y mo dd h mi sec us]. cbn [year month day hour minute second microsecond] in *.
  unfold parse_datetime, str_datetime.
  cbn [year month day hour minute second microsecond].
  assert (Hsep : forall c rest, expect c (String c rest) = Some rest)
    by (intros c rest; cbn [expect]; now rewrite Ascii.eqb_refl).
  destruct (Nat.eqb_spec us 0) as [->|Hne];
    repeat first
      [ rewrite read_fmt0 by lia
      | rewrite Hsep
      | progress cbn [opt_bind append] ].
  - reflexivity.
  - rewrite <- (append_empty (fmt 6 us)).
    rewrite read_fmt0 by lia. reflexivity.
Qed.

Lemma laws : RuntimeLaws runtime.
Proof.
  split.
  - reflexivity.
  - intros d Hd.
    change (fromisoformat runtime (py_str runtime (VDatetime d)))
      with (match parse_datetime (str_datetime d) with
            | Some d' => Ok d'
            | None => Raise (ValueError "Invalid isoformat string")
            end).
    now rewrite parse_str_datetime.
Qed.
End CPythonFacts.

(** ** Round trip of the codec *)

(** *** Association lists and dictionaries *)

Lemma mem_In x xs : In x xs -> mem x xs = true.
Proof.
  intro H. unfold mem. apply existsb_exists. exists x.
  split; [exact H|apply String.eqb_refl].
Qed.

Lemma assoc_get_In {A} (l : list (string * A)) k v :
  NoDup (keys l) -> In (k, v) l -> assoc_get l k = Some v.
Proof.
  induction l as [|[k' v'] l IH]; intros Hnd Hin; [contradiction|].
  cbn [keys map fst] in Hnd. inversion Hnd as [|? ? Hfresh Hnd']; subst.
  cbn [assoc_get]. destruct Hin as [E|Hin].
  - injection E as -> ->. now rewrite String.eqb_refl.
  - destruct (String.eqb_spec k' k) as [->|_].
    + exfalso. apply Hfresh. change k with (fst (k, v)). now apply in_map.
    + now apply IH.
Qed.

Lemma assoc_get_fresh {A} (l : list (string * A)) k :
  ~ In k (keys l) -> assoc_get l k = None.
Proof.
  induction l as [|[k' v'] l IH]; intro H; [reflexivity|].
  cbn [assoc_get]. destruct (String.eqb_spec k' k) as [->|_].
  - exfalso. apply H. now left.
  - apply IH. intro Hin. apply H. now right.
Qed.

Lemma assoc_set_fresh {A} (l : list (string * A)) k v :
  ~ In k (keys l) -> assoc_set l k v = l ++ [(k, v)].
Proof. intro H. unfold assoc_set. now rewrite assoc_get_fresh. Qed.

Lemma dict_get_bag (f : pyval -> pyval) (l : list (string * pyval)) k :
  dict_get (map (fun '(name, a) => (VStr name, f a)) l) (VStr k)
  = option_map f (assoc_get l k).
Proof.
  induction l as [|[k' v'] l IH]; [reflexivity|].
  cbn [map dict_get assoc_get key_eqb].
  destruct (k' =? k)%string; [reflexivity|exact IH].
Qed.

Lemma keys_app {A} (l1 l2 : list (string * A)) :
  keys (l1 ++ l2) = keys l1 ++ keys l2.
Proof. apply map_app. Qed.

Lemma NoDup_fresh_head {A} (data : list (string * A)) name (v : A) rest :
  NoDup (keys data ++ name :: rest) ->
  ~ In name (keys data) /\ NoDup (keys (data ++ [(name, v)]) ++ rest).
Proof.
  intro H. split.
  - apply NoDup_remove_2 in H. intro Hin. apply H. apply in_or_app. now left.
  - rewrite keys_app, <- app_assoc. exact H.
Qed.

Lemma distinct_app_head l1 k l2 :
  distinct (l1 ++ k :: l2) -> Forall (fun x => key_eqb x k = false) l1.
Proof.
  induction l1 as [|x l1 IH]; intro H; [constructor|].
  cbn [app distinct] in H. destruct H as [Hx Hrest].
  constructor; [|now apply IH].
  rewrite Forall_app in Hx. destruct Hx as [_ Hx]. now inversion Hx.
Qed.

Lemma dict_get_fresh d k :
  Forall (fun x => key_eqb x k = false) (map fst d) -> dict_get d k = None.
Proof.
  induction d as [|[k' v'] d IH]; intro H; [reflexivity|].
  cbn [map fst] in H. inversion H as [|? ? Hk Hd]; subst.
  cbn [dict_get]. rewrite Hk. now apply IH.
Qed.

Lemma dict_comp_ok fk fv : forall items outs acc,
  Forall2 (fun kv out => fk (fst kv) = Ok (fst out)
                         /\ fv (snd kv) = Ok (snd out)
                         /\ hashable (fst out) = true) items outs ->
  distinct (map fst (acc ++ outs)) ->
  dict_comp fk fv items acc = Ok (acc ++ outs).
Proof.
  intros items outs acc H. revert acc.
  induction H as [|[k v] [k' v'] items outs (Hk & Hv & Hh) _ IH]; intros acc Hd.
  - cbn [dict_comp]. now rewrite app_nil_r.
  - cbn [fst snd] in *. cbn [dict_comp]. rewrite Hk, Hv. cbn [bind].
    unfold dict_set. rewrite Hh. cbn [negb].
    rewrite dict_get_fresh.
    + cbn [bind]. rewrite IH; rewrite <- app_assoc; [reflexivity|exact Hd].
    + rewrite map_app in Hd. cbn [map fst] in Hd.
      now apply distinct_app_head in Hd.
Qed.

Lemma mapM_ok {A B} (f : A -> result B) (g : A -> B) xs :
  Forall (fun x => f x = Ok (g x)) xs -> mapM f xs = Ok (map g xs).
Proof.
  induction 1 as [|x xs Hx _ IH]; [reflexivity|].
  cbn [mapM map]. now rewrite Hx, IH.
Qed.

Lemma mapM_back {A B} (f : B -> result A) (g : A -> B) xs :
  Forall (fun x => f (g x) = Ok x) xs -> mapM f (map g xs) = Ok xs.
Proof.
  induction 1 as [|x xs Hx _ IH]; [reflexivity|].
  cbn [mapM map]. now rewrite Hx, IH.
Qed.

(** *** Keys and enumerations *)

Lemma key_eqb_prim_refl p : key_eqb (of_prim p) (of_prim p) = true.
Proof.
  destruct p as [|b|z|s]; cbn.
  - reflexivity.
  - now destruct b.
  - apply Z.eqb_refl.
  - apply String.eqb_refl.
Qed.

Lemma key_eqb_prim_sym p q :
  key_eqb (of_prim p) (of_prim q) = key_eqb (of_prim q) (of_prim p).
Proof.
  destruct p as [|b|z|s], q as [|b'|z'|s']; cbn; try reflexivity.
  - now destruct b, b'.
  - apply Z.eqb_sym.
  - apply Z.eqb_sym.
  - apply Z.eqb_sym.
  - apply String.eqb_sym.
Qed.

Lemma enum_by_value_member name (members : list (string * prim)) m p :
  distinct (map (fun mp => of_prim (snd mp)) members) ->
  In (m, p) members ->
  enum_by_value name members (of_prim p) = Ok (VEnum name m p).
Proof.
  induction members as [|[m0 p0] rest IH]; intros Hd Hin; [contradiction|].
  cbn [map snd distinct] in Hd. destruct Hd as [Hhead Hrest].
  cbn [enum_by_value]. destruct Hin as [E|Hin].
  - injection E as -> ->. now rewrite key_eqb_prim_refl.
  - rewrite Forall_forall in Hhead.
    rewrite (Hhead (of_prim p)).
    + now apply IH.
    + change (of_prim p) with ((fun mp : string * prim => of_prim (snd mp)) (m, p)).
      now apply in_map.
Qed.

Lemma distinct_members (members : list (string * prim)) m1 p1 m2 p2 :
  distinct (map (fun mp => of_prim (snd mp)) members) ->
  In (m1, p1) members -> In (m2, p2) members -> m1 <> m2 ->
  key_eqb (of_prim p1) (of_prim p2) = false.
Proof.
  induction members as [|[m0 p0] rest IH]; intros Hd H1 H2 Hne; [contradiction|].
  cbn [map snd distinct] in Hd. destruct Hd as [Hhead Hrest].
  rewrite Forall_forall in Hhead.
  assert (Hval : forall m p, In (m, p) rest ->
                   key_eqb (of_prim p0) (of_prim p) = false).
  { intros m p Hin. apply Hhead.
    change (of_prim p) with ((fun mp : string * prim => of_prim (snd mp)) (m, p)).
    now apply in_map. }
  destruct H1 as [E1|H1], H2 as [E2|H2].
  - congruence.
  - injection E1 as -> ->. eauto.
  - injection E2 as -> ->. rewrite key_eqb_prim_sym. eauto.
  - now apply IH.
Qed.

Lemma prim_not_None p : p <> PNone -> is_none (of_prim p) = false.
Proof. destruct p; [congruence|reflexivity..]. Qed.

Lemma hashable_raw k : hashable k = true -> hashable (raw_of k) = true.
Proof.
  destruct k; cbn; try congruence.
  intros _. now destruct v.
Qed.

(** *** One level of nesting *)

Section RoundTripStep.
Variable rt : Runtime.
Hypothesis laws : RuntimeLaws rt.
(** The documents one level down, for which the round trip is known. *)
Variable D : pytype -> pyval -> Prop.
Variable fuel : nat.
Hypothesis docs_shape :
  forall klass v, D klass v -> exists attrs, v = VDoc klass attrs.
Hypothesis docs_roundtrip :
  forall klass v meta, D klass v -> Meta klass = Some meta ->
    to_dict fuel meta v None = Ok (raw_of v)
    /\ from_dict rt fuel meta (raw_of v) = Ok v.

Lemma item_roundtrip klass v :
  item_ok D klass v ->
  _unbuild (fun meta value => to_dict fuel meta value None) v = Ok (raw_of v)
  /\ _build rt (from_dict rt fuel) klass (raw_of v) = Ok v.
Proof.
  destruct klass; try contradiction;
    destruct v; try contradiction; intro H; cbn [item_ok] in H;
    try (split; reflexivity).
  - (* str *) split; [reflexivity|].
    cbn. now rewrite (str_of_str laws).
  - (* datetime *) split; [reflexivity|].
    cbn. now rewrite (fromisoformat_str laws H).
  - (* enum *) destruct H as (-> & (Hdist & Hvals) & Hin).
    split; [reflexivity|].
    assert (Hp : v <> PNone).
    { rewrite Forall_forall in Hvals. exact (Hvals _ Hin). }
    cbn [raw_of]. unfold _build. rewrite (prim_not_None Hp).
    cbn [orb issubclass_EmbeddedDocument bind call_klass].
    erewrite enum_by_value_member; [|exact Hdist|exact Hin].
    now destruct v.
  - (* embedded document *)
    destruct (docs_shape H) as [attrs' E]. injection E as -> ->.
    destruct (docs_roundtrip (meta := {| Metadata.fields := fields;
                Metadata.doc_klass := DocClass name concrete fields defaults;
                Metadata.pk_field := if concrete then Some DEFAULT_PK_FIELD else None |})
                H eq_refl) as [Hto Hfrom].
    split.
    + cbn [_unbuild Meta]. exact Hto.
    + unfold _build. cbn [raw_of is_none orb issubclass_EmbeddedDocument bind Meta].
      exact Hfrom.
Qed.

Lemma raw_key_distinct klass k1 k2 :
  item_ok D klass k1 -> item_ok D klass k2 ->
  hashable k1 = true -> hashable k2 = true ->
  key_eqb k1 k2 = false ->
  key_eqb (raw_of k1) (raw_of k2) = false.
Proof.
  destruct klass; try contradiction;
    destruct k1; try contradiction; try discriminate;
    destruct k2; try contradiction; try discriminate;
    cbn [item_ok raw_of]; intros H1 H2 _ _ Hne; try exact Hne.
  - (* None and a member *)
    destruct H2 as (_ & (_ & Hvals) & Hin).
    rewrite Forall_forall in Hvals. specialize (Hvals _ Hin). cbn in Hvals.
    destruct v; [congruence|reflexivity..].
  - (* a member and None *)
    destruct H1 as (_ & (_ & Hvals) & Hin).
    rewrite Forall_forall in Hvals. specialize (Hvals _ Hin). cbn in Hvals.
    destruct v; [congruence|reflexivity..].
  - (* two members *)
    destruct H1 as (-> & (Hdist & _) & Hin1), H2 as (-> & _ & Hin2).
    eapply distinct_members; [exact Hdist|exact Hin1|exact Hin2|].
    intros ->. cbn [key_eqb] in Hne. now rewrite !String.eqb_refl in Hne.
Qed.

Lemma raw_keys_distinct klass ks :
  Forall (fun k => hashable k = true /\ item_ok D klass k) ks ->
  distinct ks -> distinct (map raw_of ks).
Proof.
  induction 1 as [|k ks [Hh Hk] Hks IH]; intro Hd; [exact I|].
  cbn [distinct map] in *. destruct Hd as [Hhead Hrest].
  split; [|now apply IH].
  rewrite Forall_map. rewrite Forall_forall in *.
  intros k' Hin. destruct (Hks k' Hin) as [Hh' Hk'].
  apply (raw_key_distinct klass); auto.
Qed.

Lemma field_roundtrip field_klass v :
  field_ok D field_klass v ->
  encode_field (_unbuild (fun meta value => to_dict fuel meta value None))
    field_klass v = Ok (raw_of v)
  /\ decode_field (_build rt (from_dict rt fuel)) field_klass (raw_of v) = Ok v.
Proof.
  destruct field_klass;
    try (intro H; exact (item_roundtrip _ _ H)).
  - (* List[T] *)
    cbn [field_ok]. destruct v; try contradiction. intro H.
    cbn [encode_field decode_field raw_of py_iter bind]. split.
    + rewrite (mapM_ok _ raw_of); [reflexivity|].
      eapply Forall_impl; [|exact H]. intros x Hx. apply (item_roundtrip _ _ Hx).
    + rewrite mapM_back; [reflexivity|].
      eapply Forall_impl; [|exact H]. intros x Hx. apply (item_roundtrip _ _ Hx).
  - (* Dict[K, V] *)
    cbn [field_ok]. destruct v; try contradiction. intros [H Hd].
    cbn [encode_field decode_field raw_of py_items bind].
    assert (Hraw : distinct (map fst (map (fun '(k, a) => (raw_of k, raw_of a))
                                        items))).
    { rewrite map_map.
      rewrite (map_ext _ (fun kv => raw_of (fst kv))) by (now intros [k a]).
      rewrite <- map_map. apply (raw_keys_distinct field_klass1); [|exact Hd].
      rewrite Forall_map. eapply Forall_impl; [|exact H].
      cbn. intros kv (Hh & Hk & _). now split. }
    split.
    + rewrite (@dict_comp_ok _ _ items
                 (map (fun '(k, a) => (raw_of k, raw_of a)) items) []);
        [reflexivity| |exact Hraw].
      clear Hd Hraw. induction H as [|[k a] items (Hh & Hk & Ha) _ IH]; constructor.
      * cbn [fst snd] in *. repeat split.
        -- apply (item_roundtrip _ _ Hk).
        -- apply (item_roundtrip _ _ Ha).
        -- now apply hashable_raw.
      * exact IH.
    + rewrite (@dict_comp_ok _ _
                 (map (fun '(k, a) => (raw_of k, raw_of a)) items) items []);
        [reflexivity| |exact Hd].
      clear Hd Hraw. induction H as [|[k a] items (Hh & Hk & Ha) _ IH]; constructor.
      * cbn [fst snd] in *. repeat split.
        -- apply (item_roundtrip _ _ Hk).
        -- apply (item_roundtrip _ _ Ha).
        -- exact Hh.
      * exact IH.
Qed.
End RoundTripStep.

(** *** The loops over the declared fields *)

Lemma to_dict_fields_ok unbuild cls attrs0 : forall fields attrs data,
  Forall2 (fun f a => fst f = fst a
                      /\ assoc_get attrs0 (fst a) = Some (snd a)
                      /\ encode_field unbuild (snd f) (snd a) = Ok (raw_of (snd a)))
    fields attrs ->
  NoDup (keys data ++ keys attrs) ->
  to_dict_fields unbuild fields (VDoc cls attrs0) None data
  = Ok (data ++ map (fun '(name, a) => (name, raw_of a)) attrs).
Proof.
  intros fields attrs data H. revert data.
  induction H as [|[fname fk] [aname a] fields attrs (Hn & Hget & Henc) _ IH];
    intros data Hnd.
  - cbn [to_dict_fields map]. now rewrite app_nil_r.
  - cbn [fst snd] in *. subst aname.
    cbn [to_dict_fields skipped getattr]. rewrite Hget. cbn [bind].
    rewrite Henc. cbn [bind].
    cbn [keys map fst] in Hnd.
    destruct (NoDup_fresh_head data fname (raw_of a) _ Hnd) as [Hfresh Hnd'].
    rewrite assoc_set_fresh by exact Hfresh.
    rewrite IH by exact Hnd'.
    cbn [map]. now rewrite <- app_assoc.
Qed.

Lemma from_dict_fields_ok build bag : forall fields attrs parsed,
  Forall2 (fun f a => fst f = fst a
                      /\ dict_get bag (VStr (fst a)) = Some (raw_of (snd a))
                      /\ decode_field build (snd f) (raw_of (snd a)) = Ok (snd a))
    fields attrs ->
  NoDup (keys parsed ++ keys attrs) ->
  from_dict_fields build fields (VDict bag) parsed = Ok (parsed ++ attrs).
Proof.
  intros fields attrs parsed H. revert parsed.
  induction H as [|[fname fk] [aname a] fields attrs (Hn & Hget & Hdec) _ IH];
    intros parsed Hnd.
  - cbn [from_dict_fields]. now rewrite app_nil_r.
  - cbn [fst snd] in *. subst aname.
    cbn [from_dict_fields subscript bind]. rewrite Hget, Hdec. cbn [bind].
    cbn [keys map fst] in Hnd.
    destruct (NoDup_fresh_head parsed fname a _ Hnd) as [Hfresh Hnd'].
    rewrite assoc_set_fresh by exact Hfresh.
    rewrite IH by exact Hnd'.
    now rewrite <- app_assoc.
Qed.

Lemma init_attrs_all defaults kwargs : forall fields attrs,
  Forall2 (fun (f : string * pytype) (a : string * pyval) =>
             fst f = fst a /\ assoc_get kwargs (fst a) = Some (snd a))
    fields attrs ->
  init_attrs fields defaults kwargs = Ok attrs.
Proof.
  induction 1 as [|[fname fk] [aname a] fields attrs [Hn Hget] _ IH]; [reflexivity|].
  cbn [fst snd] in *. subst aname.
  cbn [init_attrs]. rewrite Hget. cbn [bind]. now rewrite IH.
Qed.

Lemma Forall2_enrich {A} (P : string * A -> string * pyval -> Prop)
  (Q : string * pyval -> Prop) : forall fields attrs,
  Forall2 P fields attrs ->
  keys attrs = keys fields ->
  (forall a, In a attrs -> Q a) ->
  Forall2 (fun f a => fst f = fst a /\ Q a /\ P f a) fields attrs.
Proof.
  induction 1 as [|f a fields attrs Hp _ IH]; intros Hk Hq; constructor.
  - cbn [keys map] in Hk. injection Hk as Hk _.
    repeat split; [now symmetry| apply Hq; now left | exact Hp].
  - cbn [keys map] in Hk. injection Hk as _ Hk.
    apply IH; [exact Hk|]. intros a' Hin. apply Hq. now right.
Qed.

Lemma as_dict_raw cls attrs :
  as_dict (map (fun '(name, a) => (name, raw_of a)) attrs) = raw_of (VDoc cls attrs).
Proof.
  unfold as_dict. cbn [raw_of]. rewrite map_map. f_equal.
  apply map_ext. now intros [name a].
Qed.

(** *** Documents of any nesting depth *)

Section RoundTrip.
Variable rt : Runtime.
Hypothesis laws : RuntimeLaws rt.

Lemma doc_ok_shape n klass v :
  doc_ok n klass v -> exists attrs, v = VDoc klass attrs.
Proof.
  destruct n; [contradiction|].
  destruct klass; try contradiction. destruct v; try contradiction.
  intros (-> & _). eauto.
Qed.

Lemma doc_roundtrip : forall n klass v meta fuel,
  doc_ok n klass v -> Meta klass = Some meta -> n <= fuel ->
  to_dict fuel meta v None = Ok (raw_of v)
  /\ from_dict rt fuel meta (raw_of v) = Ok v.
Proof.
  induction n as [|n IH]; intros klass v meta fuel Hok Hmeta Hfuel;
    [contradiction|].
  destruct fuel as [|fuel]; [lia|]. apply le_S_n in Hfuel.
  destruct klass; try contradiction. destruct v; try contradiction.
  destruct Hok as (-> & Hnd & Hkeys & Hfields).
  injection Hmeta as <-.
  assert (Hstep : forall fk a, field_ok (doc_ok n) fk a ->
            encode_field (_unbuild (fun meta value => to_dict fuel meta value None)) fk a
            = Ok (raw_of a)
            /\ decode_field (_build rt (from_dict rt fuel)) fk (raw_of a) = Ok a).
  { intros fk a. apply (@field_roundtrip rt laws (doc_ok n) fuel).
    - intros k v'. apply doc_ok_shape.
    - intros k v' m Hd Hm. now apply (IH k v' m fuel). }
  assert (Hlook : forall a, In a attrs -> assoc_get attrs (fst a) = Some (snd a)).
  { intros [aname a] Hin. apply assoc_get_In; [now rewrite Hkeys|exact Hin]. }
  pose proof (Forall2_enrich _ Hfields Hkeys Hlook) as Hall.
  assert (Hnd0 : NoDup (keys (@nil (string * pyval)) ++ keys attrs))
    by (now rewrite Hkeys).
  split.
  - cbn [to_dict Metadata.fields].
    rewrite (@to_dict_fields_ok _ _ attrs fields attrs []);
      [cbn [bind app]; now rewrite (as_dict_raw (DocClass name concrete fields defaults))
      | |exact Hnd0].
    eapply Forall2_impl; [|exact Hall].
    intros f a (Hn & Hq & Hp). repeat split; [exact Hn|exact Hq|].
    apply (Hstep _ _ Hp).
  - cbn [from_dict raw_of py_copy bind Metadata.fields Metadata.doc_klass].
    rewrite (@from_dict_fields_ok _ _ fields attrs []); [| |exact Hnd0].
    + cbn [bind app construct]. rewrite Hkeys.
      replace (forallb _ (keys fields)) with true.
      * rewrite (@init_attrs_all defaults attrs fields attrs); [reflexivity|].
        eapply Forall2_impl; [|exact Hall]. now intros f a (Hn & Hq & _).
      * symmetry. apply forallb_forall. intros k Hin. now apply mem_In.
    + eapply Forall2_impl; [|exact Hall].
      intros f a (Hn & Hq & Hp). repeat split; [exact Hn| |apply (Hstep _ _ Hp)].
      rewrite dict_get_bag, Hq. reflexivity.
Qed.
End RoundTrip.

(** C3, as amended: a record whose fields hold values of their declared
    types (a list in a sequence field, a dictionary with distinct hashable
    keys in a mapping field, [None] or an instance elsewhere, enumerations
    without a [None]-valued member, embedded records nested to any depth)
    is written to a bag from which [from_dict] rebuilds the same record. *)
Theorem C3_roundtrip_of_conforming_records :
  forall rt, RuntimeLaws rt ->
  forall n klass r meta fuel,
    doc_ok n klass r -> Meta klass = Some meta -> n <= fuel ->
    exists bag,
      to_dict fuel meta r None = Ok bag
      /\ from_dict rt fuel meta bag = Ok r.
Proof.
  intros rt laws n klass r meta fuel Hok Hmeta Hfuel.
  exists (raw_of r). now apply (@doc_roundtrip rt laws n klass).
Qed.

Lemma pow6 : 10 ^ 6 = 1000 * 1000.
Proof. exact (Nat.pow_add_r 10 3 3). Qed.

Lemma pow4 : 10 ^ 4 = 100 * 100.
Proof. exact (Nat.pow_add_r 10 2 2). Qed.

(** Decides [doc_ok] on a concrete record. *)
Ltac conforming :=
  repeat first
    [ exact I
    | reflexivity
    | rewrite ?pow4, ?pow6; lia
    | progress unfold datetime_ok, enum_ok
    | progress cbn [doc_ok field_ok item_ok distinct map fst snd keys
                    year month day hour minute second microsecond
                    hashable In of_prim key_eqb]
    | match goal with
      | |- _ /\ _ => split
      | |- NoDup _ => constructor
      | |- Forall2 _ _ _ => constructor
      | |- Forall _ _ => constructor
      | |- ~ _ => intro
      | |- _ <> _ => discriminate
      | H : _ \/ _ |- _ => destruct H
      | H : False |- _ => destruct H
      | H : _ = _ |- _ => discriminate H
      | |- _ \/ _ => (left; reflexivity) || right
      end ].

Lemma C3_witness :
  doc_ok 2 Sample.Person Sample.ada
  /\ exists bag,
       to_dict 2 Sample.person_meta Sample.ada None = Ok bag
       /\ from_dict CPython.runtime 2 Sample.person_meta bag = Ok Sample.ada.
Proof.
  assert (H : doc_ok 2 Sample.Person Sample.ada).
  { cbv delta [Sample.Person Sample.ada Sample.Color Sample.Address Sample.home].
    conforming. }
  split; [exact H|].
  exact (@C3_roundtrip_of_conforming_records CPython.runtime CPythonFacts.laws
           2 Sample.Person Sample.ada Sample.person_meta 2 H eq_refl (le_n 2)).
Defined.

(** C3 as stated fails: a record whose [List[str]] field is left at [None]
    has no bag at all, [to_dict] raises while iterating the field; and a
    record holding an enumeration member whose value is [None] is read back
    with [None] in place of the member. *)
Lemma C3_roundtrip_fails_on_None :
  (to_dict 3 Sample.person_meta Sample.untagged None
   = Raise (TypeError "object is not iterable")
   /\ ~ exists bag,
         to_dict 3 Sample.person_meta Sample.untagged None = Ok bag
         /\ from_dict CPython.runtime 3 Sample.person_meta bag = Ok Sample.untagged)
  /\ (exists bag r',
        to_dict 3 Sample.switch_meta Sample.switch_unset None = Ok bag
        /\ from_dict CPython.runtime 3 Sample.switch_meta bag = Ok r'
        /\ r' = VDoc Sample.Switch [("flag", VNone)]
        /\ r' <> Sample.switch_unset).
Proof.
  split; [split|].
  - reflexivity.
  - intros (bag & H & _). discriminate H.
  - exists (VDict [(VStr "flag", VNone)]), (VDoc Sample.Switch [("flag", VNone)]).
    repeat split. discriminate.
Qed.

(** ** The cross-product executor *)

Lemma take_new_first_seen items : forall found,
  fst (take_new items found) = first_seen items found.
Proof.
  induction items as [|item rest IH]; intro found; [reflexivity|].
  cbn [take_new first_seen].
  destruct (existsb (key_eqb (entity_id item)) found); [apply IH|].
  specialize (IH (found ++ [entity_id item])).
  destruct (take_new rest (found ++ [entity_id item])) as [out found'].
  cbn [fst] in *. now rewrite IH.
Qed.

Lemma take_new_app a b : forall found,
  take_new (a ++ b) found
  = let '(out1, found1) := take_new a found in
    let '(out2, found2) := take_new b found1 in
    (out1 ++ out2, found2).
Proof.
  induction a as [|item rest IH]; intro found.
  - cbn [app take_new]. now destruct (take_new b found).
  - cbn [app take_new].
    destruct (existsb (key_eqb (entity_id item)) found); [apply IH|].
    rewrite IH.
    destruct (take_new rest (found ++ [entity_id item])) as [out1 found1].
    now destruct (take_new b found1).
Qed.

Lemma update_nth_hit {A} (f : A -> A) : forall l n x,
  nth_error l n = Some x -> nth_error (update_nth l n f) n = Some (f x).
Proof.
  induction l as [|y l IH]; intros [|n] x H; try discriminate.
  - injection H as ->. reflexivity.
  - cbn [update_nth nth_error] in *. now apply IH.
Qed.

(** Adding a combination of equality filters appends them to the one query
    object there is, and hands that same object back. *)
Lemma add_combination_spec q combination : forall c o,
  nth_error (queries c) q = Some o ->
  Forall (fun f => snd (fst f) = "=") combination ->
  exists c',
    add_combination q combination c = (Ok q, c')
    /\ entities c' = entities c
    /\ default_page_size c' = default_page_size c
    /\ calls c' = calls c
    /\ nth_error (queries c') q
       = Some (with_filters o (filters o ++ combination)).
Proof.
  induction combination as [|[[name op] v] rest IH]; intros c o Hq Hops.
  - exists c. cbn [add_combination]. unfold ret. repeat split.
    rewrite app_nil_r. now destruct o.
  - inversion Hops as [|? ? Hop Hrest]; subst. cbn [fst snd] in Hop. subst op.
    cbn [add_combination]. unfold bindM at 1. unfold add_filter.
    cbn [mem OPERATORS existsb String.eqb Ascii.eqb Bool.eqb orb negb].
    unfold bindM, modify_query, ret.
    set (c1 := set_queries c _).
    assert (Hq1 : nth_error (queries c1) q
                  = Some (with_filters o (filters o ++ [(name, "=", v)]))).
    { subst c1. cbn [queries set_queries]. now rewrite (@update_nth_hit _ _ _ _ _ Hq). }
    destruct (IH c1 _ Hq1 Hrest) as (c' & Hrun & He & Hp & Hc & Hq').
    exists c'. rewrite Hrun. repeat split; try assumption.
    rewrite Hq'. unfold with_filters. cbn [filters query_kind order distinct_on].
    now rewrite <- app_assoc.
Qed.

Lemma results_bounded c o : length (results c o) <= length (entities c).
Proof. unfold results. apply filter_length_le. Qed.

Lemma results_same_entities c c' o :
  entities c' = entities c -> results c' o = results c o.
Proof. unfold results. now intros ->. Qed.

(** What [run_combinations] does: combination [k] is run with the base
    filters and the filters of every combination up to [k]. *)
Lemma run_combinations_accumulates fuel q page_size combinations :
  forall c o found,
    nth_error (queries c) q = Some o ->
    Forall (Forall (fun f => snd (fst f) = "=")) combinations ->
    0 < match page_size with Some p => p | None => default_page_size c end ->
    length (entities c) < fuel ->
    exists c',
      run_combinations fuel q page_size combinations found c
      = (gen_done
           (fst (take_new
                   (flat_map (fun fs => results c (with_filters o fs))
                      (accumulated (filters o) combinations))
                   found)),
         c')
      /\ entities c' = entities c.
Proof.
  induction combinations as [|combination rest IH];
    intros c o found Hq Hops Hpage Hfuel.
  - exists c. split; reflexivity.
  - inversion Hops as [|? ? Hop Hrest]; subst.
    destruct (@add_combination_spec q combination c o Hq Hop)
      as (c1 & Hadd & He & Hp & _ & Hq1).
    cbn [run_combinations]. rewrite Hadd.
    set (o1 := with_filters o (filters o ++ combination)) in *.
    assert (Hit : _iterate fuel c1 q page_size = gen_done (results c o1)).
    { unfold _iterate.
      rewrite (@_iterate_from_all c1 q page_size o1 Hq1); cbn [skipn].
      - now rewrite (@results_same_entities c c1 _ He).
      - now rewrite Hp.
      - pose proof (results_bounded c1 o1). rewrite He in *. lia. }
    rewrite Hit. cbn [yielded ended gen_done].
    destruct (take_new (results c o1) found) as [out found'] eqn:Hnew.
    destruct (IH c1 o1 found' Hq1 Hrest) as (c' & Hrun & He').
    + now rewrite Hp.
    + now rewrite He.
    + exists c'. rewrite Hrun. split; [|now rewrite He'].
      f_equal. unfold gen_cons, gen_done. cbn [yielded ended]. f_equal.
      cbn [accumulated flat_map]. rewrite take_new_app.
      change (with_filters o (filters o ++ combination)) with o1.
      rewrite Hnew.
      replace (flat_map (fun fs => results c (with_filters o fs))
                 (accumulated (filters o ++ combination) rest))
        with (flat_map (fun fs => results c1 (with_filters o1 fs))
                (accumulated (filters o1) rest)).
      * now destruct (take_new _ found').
      * apply flat_map_ext. intro fs. now rewrite (@results_same_entities c c1 _ He).
Qed.

(** C1, on the code: with [id__in=[1, 2, 3]] and [status="active"] on the
    five sample records the executor yields record 1 only.  The three
    combinations are added to the same query object, which ends up holding
    [id = 1], [id = 2] and [id = 3] at once; run apart, as the specification
    words it, they give the three active records. *)
Theorem C1_combinations_share_one_query :
  let kwargs := [("id__in", VList [VInt 1; VInt 2; VInt 3]);
                 ("status", VStr "active")] in
  let base := {| query_kind := "K"; order := VNone; distinct_on := VNone;
                 filters := [("status", "=", VStr "active")] |} in
  let combinations := [[("id", "=", VInt 1)]; [("id", "=", VInt 2)];
                       [("id", "=", VInt 3)]] in
  let run := query CPython.runtime 10 Sample.manager VNone VNone None kwargs
               Sample.five in
  fst run = gen_done [Sample.record 1 "active"]
  /\ map filters (queries (snd run))
     = [[("status", "=", VStr "active"); ("id", "=", VInt 1);
         ("id", "=", VInt 2); ("id", "=", VInt 3)]]
  /\ spec_cross_query Sample.five base combinations
     = [Sample.record 1 "active"; Sample.record 2 "active";
        Sample.record 3 "active"].
Proof. repeat split. Qed.

(** ** What [from_dict], [from_entity] and [filter] hand back *)

Lemma construct_document cls kwargs v :
  construct cls kwargs = Ok v -> is_document v.
Proof.
  unfold construct. destruct cls; try discriminate.
  destruct (forallb _ _); [|discriminate].
  destruct (init_attrs _ _ _); cbn [bind]; [|discriminate].
  intro H. injection H as <-. exact I.
Qed.

Lemma from_dict_document rt fuel meta data v :
  from_dict rt fuel meta data = Ok v -> is_document v.
Proof.
  destruct fuel; [discriminate|]. cbn [from_dict].
  destruct (py_copy data); cbn [bind]; [|discriminate].
  destruct (from_dict_fields _ _ _ _); cbn [bind]; [|discriminate].
  apply construct_document.
Qed.

Lemma from_entity_document rt fuel self entity v :
  from_entity rt fuel self entity = Ok v -> is_document v.
Proof.
  unfold from_entity. destruct (Meta _); [|discriminate].
  apply from_dict_document.
Qed.

Lemma decode_all_documents rt fuel self e : forall items,
  Forall is_document (yielded (decode_all rt fuel self items e)).
Proof.
  induction items as [|entity rest IH]; [constructor|].
  cbn [decode_all]. destruct (from_entity rt fuel self entity) eqn:H.
  - cbn [gen_cons yielded app]. constructor; [|exact IH].
    exact (from_entity_document _ _ _ _ H).
  - constructor.
Qed.

Lemma filter_documents rt fuel self kwargs c :
  Forall is_document (yielded (fst (filter rt fuel self kwargs c))).
Proof.
  unfold filter.
  destruct (match as_limit _ with Ok _ => _ | Raise _ => _ end) as [g c'].
  apply decode_all_documents.
Qed.

(** ** [create] *)

Lemma assoc_get_replace {A} (l : list (string * A)) k v :
  assoc_get l k <> None -> assoc_get (assoc_replace l k v) k = Some v.
Proof.
  induction l as [|[k' v'] l IH]; intro H; [now contradiction H|].
  cbn [assoc_get assoc_replace] in *.
  destruct (String.eqb_spec k' k) as [->|Hne].
  - cbn [assoc_get]. now rewrite String.eqb_refl.
  - cbn [assoc_get]. destruct (String.eqb_spec k' k); [contradiction|].
    now apply IH.
Qed.

Lemma assoc_get_app_fresh {A} (l : list (string * A)) k v :
  assoc_get l k = None -> assoc_get (l ++ [(k, v)]) k = Some v.
Proof.
  induction l as [|[k' v'] l IH]; intro H.
  - cbn. now rewrite String.eqb_refl.
  - cbn [app assoc_get] in *. destruct (k' =? k)%string; [discriminate|].
    now apply IH.
Qed.

Lemma assoc_get_set {A} (l : list (string * A)) k v :
  assoc_get (assoc_set l k v) k = Some v.
Proof.
  unfold assoc_set. destruct (assoc_get l k) eqn:H.
  - apply assoc_get_replace. congruence.
  - now apply assoc_get_app_fresh.
Qed.

Lemma pk_setattr obj name v :
  pk_field_of obj = Ok name -> pk (setattr obj name v) = Ok v.
Proof.
  destruct obj; try discriminate. cbn [pk_field_of setattr].
  unfold pk. cbn [pk_field_of].
  destruct (Meta cls) as [[fs dk [pkf|]]|]; try discriminate.
  intro H. injection H as ->. cbn [bind]. now rewrite assoc_get_set.
Qed.

Lemma fold_max_bound (zs : list Z) (b : Z) :
  (b <= fold_right Z.max b zs)%Z
  /\ Forall (fun z => (z <= fold_right Z.max b zs)%Z) zs.
Proof.
  induction zs as [|z zs [IHb IHzs]]; cbn [fold_right]; [split; [lia|constructor]|].
  split; [lia|]. constructor; [lia|].
  eapply Forall_impl; [|exact IHzs]. cbn. intros. lia.
Qed.

(** A key the allocator hands out has a positive id that no stored entity
    uses. *)
Lemma allocate_id_fresh kind c k c1 :
  allocate_id kind c = (Ok k, c1) ->
  exists z, k = {| key_kind := kind; id_or_name := KeyId z |}
            /\ (0 < z)%Z
            /\ Forall (fun e => key_ident (key e) <> z) (entities c)
            /\ entities c1 = entities c.
Proof.
  unfold allocate_id. intro H. injection H as <- <-.
  eexists. split; [reflexivity|].
  destruct (fold_max_bound (map (fun e => key_ident (key e)) (entities c))
              (Z.max 0 (next_id c))) as [Hb Hall].
  repeat split; [lia|].
  rewrite Forall_map in Hall. eapply Forall_impl; [|exact Hall].
  cbn. intros e He. lia.
Qed.

Lemma upsert_stores es e : In (key e) (map key (upsert es e)).
Proof.
  induction es as [|e' es IH]; cbn [upsert]; [now left|].
  destruct (Key_eqb (key e') (key e)); cbn [map]; [now left|now right].
Qed.

Section CreateFacts.
Variable rt : Runtime.
Variable fuel : nat.
Variable self : Manager.t.

Lemma build_key_falsy pk_value c :
  truthy pk_value = false ->
  build_key rt self pk_value c = allocate_id (Manager.kind self) c.
Proof. intro H. unfold build_key. now rewrite H. Qed.

Lemma build_key_entities pk_value c k c1 :
  build_key rt self pk_value c = (Ok k, c1) -> entities c1 = entities c.
Proof.
  unfold build_key. destruct (truthy pk_value).
  - unfold bindM, lift.
    destruct (match Meta (Manager.doc_klass self) with Some _ => _ | None => _ end);
      [|discriminate].
    intro H. now injection H as _ <-.
  - intro H. now destruct (allocate_id_fresh H) as (z & _ & _ & _ & ->).
Qed.

(** What [to_entity] returns: the entity under the key built from [obj.pk],
    and the object, with the key's id written to it when it had no key. *)
Lemma to_entity_spec obj c entity obj1 c1 :
  to_entity rt fuel self obj c = (Ok (entity, obj1), c1) ->
  exists before,
    pk obj = Ok before
    /\ build_key rt self before c = (Ok (key entity), c1)
    /\ (truthy before = true -> obj1 = obj)
    /\ (truthy before = false ->
        exists name, pk_field_of obj = Ok name
                     /\ obj1 = setattr obj name (entity_id entity)).
Proof.
  unfold to_entity, bindM, lift, ret.
  destruct (pk obj) as [before|]; [|discriminate].
  destruct (build_key rt self before c) as [[k|] c0] eqn:Hkey; [|discriminate].
  intro H. exists before. split; [reflexivity|].
  destruct (truthy before) eqn:Ht; cbn [negb] in H.
  - destruct (match obj with VDoc _ _ => _ | _ => _ end); [|discriminate].
    destruct (py_items a); [|discriminate].
    injection H as <- <- <-. cbn [key].
    split; [exact Hkey|]. split; [reflexivity|discriminate].
  - destruct (pk_field_of obj) as [name|]; [|discriminate].
    destruct (match setattr obj name _ with VDoc _ _ => _ | _ => _ end); [|discriminate].
    destruct (py_items a); [|discriminate].
    injection H as <- <- <-. cbn [key].
    split; [exact Hkey|]. split; [discriminate|].
    intros _. exists name. split; reflexivity.
Qed.
End CreateFacts.

(** C8, as amended: after a successful [create] the record's primary key is
    populated; a record whose primary key was [None], zero or empty gets the
    id the store allocated, one no stored entity used, written back, and the
    entity is stored under it; a record with any other primary key keeps it
    and is returned unchanged. *)
Theorem C8_create_populates_primary_key :
  forall rt fuel (self : Manager.t) obj c obj' c',
    create rt fuel self obj c = (Ok obj', c') ->
    exists before after,
      pk obj = Ok before
      /\ pk obj' = Ok after
      /\ truthy after = true
      /\ (truthy before = true -> after = before /\ obj' = obj)
      /\ (truthy before = false ->
          exists z,
            after = VInt z
            /\ (0 < z)%Z
            /\ Forall (fun e => key_ident (key e) <> z) (entities c)
            /\ In {| key_kind := Manager.kind self; id_or_name := KeyId z |}
                 (map key (entities c'))).
Proof.
  intros rt fuel self obj c obj' c' H.
  unfold create in H. unfold bindM at 1 in H.
  destruct (to_entity rt fuel self obj c) as [[[entity obj1]|] c1] eqn:Hto;
    [|discriminate].
  destruct (@to_entity_spec rt fuel self _ _ _ _ _ Hto) as (before & Hpk & Hkey & Hkeep & Hset).
  exists before.
  unfold bindM, client_put, lift, ret in H.
  destruct (truthy before) eqn:Ht.
  - (* the record had a key *)
    rewrite (Hkeep eq_refl) in H. rewrite Hpk, Ht in H. cbn [negb] in H.
    injection H as <- <-. exists before.
    split; [exact Hpk|]. split; [exact Hpk|]. split; [exact Ht|].
    split; [now split|discriminate].
  - (* the record had none *)
    destruct (Hset eq_refl) as (name & Hname & ->).
    rewrite (@build_key_falsy rt self _ c Ht) in Hkey.
    destruct (allocate_id_fresh Hkey) as (z & Hk & Hz & Hfresh & Hent).
    assert (Hid : entity_id entity = VInt z) by (unfold entity_id; now rewrite Hk).
    rewrite Hid in *. rewrite (@pk_setattr _ _ (VInt z) Hname) in H.
    assert (Hz' : truthy (VInt z) = true).
    { cbn. destruct (Z.eqb_spec z 0); [lia|reflexivity]. }
    rewrite Hz' in H. cbn [negb] in H. injection H as <- <-.
    exists (VInt z).
    split; [exact Hpk|]. split; [apply (@pk_setattr _ _ (VInt z) Hname)|].
    split; [exact Hz'|]. split; [discriminate|].
    intros _. exists z. repeat split; try assumption.
    cbn [entities set_store]. rewrite <- Hk. apply upsert_stores.
Qed.

Lemma C8_witness :
  create CPython.runtime 10 Sample.manager Sample.unsaved Sample.five
  = (Ok (VDoc Sample.K [("status", VStr "new"); ("id", VInt 6)]),
     snd (create CPython.runtime 10 Sample.manager Sample.unsaved Sample.five))
  /\ exists after,
       pk (VDoc Sample.K [("status", VStr "new"); ("id", VInt 6)]) = Ok after
       /\ truthy after = true.
Proof.
  assert (H : create CPython.runtime 10 Sample.manager Sample.unsaved Sample.five
              = (Ok (VDoc Sample.K [("status", VStr "new"); ("id", VInt 6)]),
                 snd (create CPython.runtime 10 Sample.manager Sample.unsaved
                        Sample.five))) by reflexivity.
  split; [exact H|].
  destruct (@C8_create_populates_primary_key CPython.runtime 10 Sample.manager
              _ _ _ _ H) as (before & after & _ & Ha & Ht & _).
  exists after. split; assumption.
Defined.

(** C8 as stated fails: a record whose primary key is 0 has a primary-key
    value, and [create] replaces it by an allocated id. *)
Lemma C8_zero_key_is_replaced :
  pk Sample.zero_keyed = Ok (VInt 0)
  /\ fst (create CPython.runtime 10 Sample.manager Sample.zero_keyed Sample.five)
     = Ok (VDoc Sample.K [("status", VStr "new"); ("id", VInt 6)])
  /\ pk (VDoc Sample.K [("status", VStr "new"); ("id", VInt 6)]) = Ok (VInt 6).
Proof. repeat split. Qed.

(** * Further properties of the module *)

(** ** [_chunks] *)

Lemma _chunks_nonempty {A} n (lst : list A) :
  0 < n -> Forall (fun chunk => chunk <> []) (_chunks lst n).
Proof.
  intro Hn. induction lst as [|lst Hne IH] using (chunks_ind Hn); [constructor|].
  rewrite (_chunks_step Hn Hne). constructor; [|exact IH].
  destruct lst as [|x rest]; [congruence|].
  destruct n; [lia|discriminate].
Qed.

(** [_chunks] cuts a list into consecutive pieces: put end to end they give
    the list back, none is empty and none is longer than [n]; an empty list
    gives no piece at all. *)
Theorem chunks_partition :
  forall (A : Type) (lst : list A) (n : nat),
    0 < n ->
    concat (_chunks lst n) = lst
    /\ Forall (fun chunk => chunk <> [] /\ length chunk <= n) (_chunks lst n)
    /\ (_chunks lst n = [] <-> lst = []).
Proof.
  intros A lst n Hn. split; [apply (_chunks_concat Hn)|]. split.
  - pose proof (_chunks_nonempty lst Hn) as H1.
    pose proof (_chunks_bounded Hn lst) as H2.
    rewrite Forall_forall in *. intros chunk Hin. split; auto.
  - split.
    + intro H. rewrite <- (_chunks_concat Hn lst), H. reflexivity.
    + intros ->. reflexivity.
Qed.

Lemma chunks_partition_witness :
  0 < 3
  /\ concat (_chunks [1; 2; 3; 4; 5; 6; 7] 3) = [1; 2; 3; 4; 5; 6; 7].
Proof.
  split; [lia|].
  apply (chunks_partition [1; 2; 3; 4; 5; 6; 7]). lia.
Defined.

(** ** [_build_filter] *)

(** A lookup that compiles gives exactly one predicate: on the text before
    the first ["__"], with the value as given, and with [=] when the key has
    no suffix and the suffix text itself otherwise.  The suffix is a key of
    [lookup_operators]; the predicate never carries the native comparison
    operator the table maps it to. *)
Theorem _build_filter_keeps_suffix :
  forall rt (self : Manager.t) key value fs,
    _build_filter rt self key value = Ok fs ->
    exists operator,
      fs = [(field_path key, operator, value)]
      /\ ((suffixes key = [] /\ operator = "=")
          \/ (suffixes key = [operator]
              /\ mem operator (keys lookup_operators) = true
              /\ ~ In operator ["="; ">"; ">="; "<"; "<="])).
Proof.
  intros rt self key value fs. rewrite _build_filter_cases.
  unfold bad_suffix.
  destruct (suffixes key) as [|operator [|o2 more]] eqn:Hs.
  - destruct (undeclared_nested self key); [discriminate|].
    intro H. injection H as <-. exists "=". split; [reflexivity|now left].
  - destruct (mem operator (keys lookup_operators)) eqn:Hop; [|discriminate].
    cbn [negb]. destruct (undeclared_nested self key); [discriminate|].
    intro H. injection H as <-. exists operator. split; [reflexivity|].
    right. split; [reflexivity|]. split; [exact Hop|].
    intro Hin. cbn [In] in Hin.
    repeat (destruct Hin as [<-|Hin]; [discriminate Hop|]). exact Hin.
  - discriminate.
Qed.

Lemma _build_filter_keeps_suffix_witness :
  exists operator,
    [("age", "gte", VInt 18)] = [(field_path "age__gte", operator, VInt 18)]
    /\ ((suffixes "age__gte" = [] /\ operator = "=")
        \/ (suffixes "age__gte" = [operator]
            /\ mem operator (keys lookup_operators) = true
            /\ ~ In operator ["="; ">"; ">="; "<"; "<="])).
Proof.
  apply (@_build_filter_keeps_suffix CPython.runtime Sample.manager
           "age__gte" (VInt 18)).
  reflexivity.
Defined.

(** ** [to_dict] and [from_dict] on any bag *)

Lemma to_dict_fields_keys unbuild obj select_fields :
  skipped select_fields = false ->
  forall fields data data',
    NoDup (keys data ++ keys fields) ->
    to_dict_fields unbuild fields obj select_fields data = Ok data' ->
    keys data' = keys data ++ keys fields.
Proof.
  intros Hskip. induction fields as [|[fname fk] rest IH]; intros data data' Hnd H.
  - cbn [to_dict_fields] in H. injection H as <-. cbn. now rewrite app_nil_r.
  - cbn [to_dict_fields] in H. rewrite Hskip in H.
    destruct (getattr obj fname) as [raw|]; [|discriminate].
    cbn [bind] in H.
    destruct (encode_field unbuild fk raw) as [item|]; [|discriminate].
    cbn [bind] in H. cbn [keys map fst] in Hnd.
    destruct (@NoDup_fresh_head _ data fname item _ Hnd) as [Hfresh Hnd'].
    rewrite assoc_set_fresh in H by exact Hfresh.
    rewrite (IH _ _ Hnd' H), keys_app. cbn [keys map fst].
    now rewrite <- app_assoc.
Qed.

(** Without [select_fields] (or with an empty one) the bag [to_dict]
    returns has exactly the declared field names as keys, in the order of
    the declaration. *)
Theorem to_dict_keys_in_declared_order :
  forall fuel (self : Metadata.t) obj select_fields bag,
    NoDup (keys (Metadata.fields self)) ->
    select_fields = None \/ select_fields = Some [] ->
    to_dict fuel self obj select_fields = Ok bag ->
    exists items,
      bag = VDict items
      /\ map fst items = map VStr (keys (Metadata.fields self)).
Proof.
  intros fuel self obj select_fields bag Hnd Hsel H.
  destruct fuel as [|fuel]; [discriminate|]. cbn [to_dict] in H.
  destruct (to_dict_fields _ _ obj select_fields []) as [data|] eqn:Hf;
    [|discriminate].
  cbn [bind] in H. injection H as <-.
  eexists. split; [reflexivity|].
  rewrite map_map. cbn [fst].
  assert (Hskip : skipped select_fields = false) by (destruct Hsel; subst; reflexivity).
  pose proof (@to_dict_fields_keys _ obj select_fields Hskip
                (Metadata.fields self) [] data Hnd Hf) as Hk.
  cbn [keys map app] in Hk. unfold keys in *. now rewrite <- Hk, map_map.
Qed.

Lemma to_dict_keys_in_declared_order_witness :
  exists items,
    VDict [(VStr "city", VStr "Recife"); (VStr "zip", VInt 50000)] = VDict items
    /\ map fst items = [VStr "city"; VStr "zip"].
Proof.
  apply (@to_dict_keys_in_declared_order 1
           {| Metadata.fields := [("city", KStr); ("zip", KInt)];
              Metadata.doc_klass := Sample.Address;
              Metadata.pk_field := None |} Sample.home None).
  - repeat constructor; cbn; intuition discriminate.
  - now left.
  - reflexivity.
Defined.

Lemma from_dict_fields_agree build d1 d2 : forall fields parsed,
  (forall name, In name (keys fields) ->
     dict_get d1 (VStr name) = dict_get d2 (VStr name)) ->
  from_dict_fields build fields (VDict d1) parsed
  = from_dict_fields build fields (VDict d2) parsed.
Proof.
  induction fields as [|[fname fk] rest IH]; intros parsed H; [reflexivity|].
  cbn [from_dict_fields subscript bind].
  rewrite (H fname) by now left.
  assert (Hrest : forall name, In name (keys rest) ->
            dict_get d1 (VStr name) = dict_get d2 (VStr name))
    by (intros name Hin; apply H; now right).
  destruct (dict_get d2 (VStr fname)) as [raw|]; [|now apply IH].
  destruct (decode_field build fk raw); cbn [bind]; [now apply IH|reflexivity].
Qed.

(** [from_dict] reads the bag under the declared field names only: two bags
    that agree on those names decode to the same result, whatever else they
    hold. *)
Theorem from_dict_reads_declared_keys_only :
  forall rt fuel (self : Metadata.t) d1 d2,
    (forall name, In name (keys (Metadata.fields self)) ->
       dict_get d1 (VStr name) = dict_get d2 (VStr name)) ->
    from_dict rt fuel self (VDict d1) = from_dict rt fuel self (VDict d2).
Proof.
  intros rt fuel self d1 d2 H. destruct fuel as [|fuel]; [reflexivity|].
  cbn [from_dict py_copy bind].
  now rewrite (@from_dict_fields_agree _ d1 d2 (Metadata.fields self) [] H).
Qed.

Lemma from_dict_reads_declared_keys_only_witness :
  from_dict CPython.runtime 2 Sample.switch_meta
    (VDict [(VStr "flag", VInt 1); (VStr "colour", VStr "red"); (VInt 7, VNone)])
  = from_dict CPython.runtime 2 Sample.switch_meta (VDict [(VStr "flag", VInt 1)]).
Proof.
  apply from_dict_reads_declared_keys_only.
  intros name [<-|[]]. reflexivity.
Defined.

Lemma assoc_get_replace_other {A} (l : list (string * A)) k k' v :
  k <> k' -> assoc_get (assoc_replace l k v) k' = assoc_get l k'.
Proof.
  intro Hne. induction l as [|[k0 v0] l IH]; [reflexivity|].
  cbn [assoc_replace]. destruct (String.eqb_spec k0 k) as [->|Hk].
  - cbn [assoc_get]. destruct (String.eqb_spec k k'); [contradiction|reflexivity].
  - cbn [assoc_get]. now rewrite IH.
Qed.

Lemma assoc_get_app_other {A} (l : list (string * A)) k k' v :
  k <> k' -> assoc_get (l ++ [(k, v)]) k' = assoc_get l k'.
Proof.
  intro Hne. induction l as [|[k0 v0] l IH].
  - cbn. destruct (String.eqb_spec k k'); [contradiction|reflexivity].
  - cbn [app assoc_get]. now rewrite IH.
Qed.

Lemma assoc_get_set_other {A} (l : list (string * A)) k k' v :
  k <> k' -> assoc_get (assoc_set l k v) k' = assoc_get l k'.
Proof.
  intro Hne. unfold assoc_set. destruct (assoc_get l k).
  - now apply assoc_get_replace_other.
  - now apply assoc_get_app_other.
Qed.

Lemma from_dict_fields_absent build d fname :
  dict_get d (VStr fname) = None ->
  forall fields parsed parsed',
    assoc_get parsed fname = None ->
    from_dict_fields build fields (VDict d) parsed = Ok parsed' ->
    assoc_get parsed' fname = None.
Proof.
  intro Habs. induction fields as [|[f fk] rest IH]; intros parsed parsed' Hp H.
  - cbn [from_dict_fields] in H. now injection H as <-.
  - cbn [from_dict_fields subscript bind] in H.
    destruct (dict_get d (VStr f)) as [raw|] eqn:Hget; [|now apply (IH parsed)].
    destruct (decode_field build fk raw) as [item|]; [|discriminate].
    cbn [bind] in H. refine (IH _ _ _ H).
    rewrite assoc_get_set_other; [exact Hp|].
    intros ->. congruence.
Qed.

Lemma init_attrs_keys defaults kwargs : forall fields attrs,
  init_attrs fields defaults kwargs = Ok attrs -> keys attrs = keys fields.
Proof.
  induction fields as [|[f fk] rest IH]; intros attrs H.
  - cbn [init_attrs] in H. now injection H as <-.
  - cbn [init_attrs] in H.
    destruct (match assoc_get kwargs f with Some _ => _ | None => _ end) as [v|];
      [|discriminate].
    cbn [bind] in H.
    destruct (init_attrs rest defaults kwargs) as [vs|]; [|discriminate].
    cbn [bind] in H. injection H as <-. cbn [keys map fst]. f_equal.
    now apply IH.
Qed.

Lemma init_attrs_default defaults kwargs fname :
  assoc_get kwargs fname = None ->
  forall fields attrs,
    In fname (keys fields) ->
    init_attrs fields defaults kwargs = Ok attrs ->
    exists dv, default_value defaults fname = Some dv
               /\ assoc_get attrs fname = Some dv.
Proof.
  intro Hkw. induction fields as [|[f fk] rest IH]; intros attrs Hin H;
    [contradiction|].
  cbn [init_attrs] in H.
  destruct (String.eqb_spec f fname) as [->|Hne].
  - rewrite Hkw in H. unfold default_value.
    destruct (assoc_get defaults fname) as [[|p| |]|]; try discriminate;
      cbn [bind] in H;
      (destruct (init_attrs rest defaults kwargs) as [vs|]; [|discriminate]);
      cbn [bind] in H; injection H as <-;
      eexists; (split; [reflexivity|]); cbn [assoc_get];
      now rewrite String.eqb_refl.
  - destruct Hin as [E|Hin]; [cbn in E; congruence|].
    destruct (match assoc_get kwargs f with Some _ => _ | None => _ end) as [v|];
      [|discriminate].
    cbn [bind] in H.
    destruct (init_attrs rest defaults kwargs) as [vs|] eqn:Hrest; [|discriminate].
    cbn [bind] in H. injection H as <-.
    destruct (IH vs Hin eq_refl) as (dv & Hd & Hg).
    exists dv. split; [exact Hd|]. cbn [assoc_get].
    destruct (String.eqb_spec f fname); [contradiction|exact Hg].
Qed.

(** The record [from_dict] returns is an instance of the class with every
    declared field; a field the bag has no entry for holds the default of
    its declaration. *)
Theorem from_dict_defaults_absent_fields :
  forall rt fuel name concrete fields defaults meta d r,
    Meta (DocClass name concrete fields defaults) = Some meta ->
    from_dict rt fuel meta (VDict d) = Ok r ->
    exists attrs,
      r = VDoc (DocClass name concrete fields defaults) attrs
      /\ keys attrs = keys fields
      /\ forall fname,
           In fname (keys fields) ->
           dict_get d (VStr fname) = None ->
           exists dv, default_value defaults fname = Some dv
                      /\ assoc_get attrs fname = Some dv.
Proof.
  intros rt fuel name concrete fields defaults meta d r Hmeta H.
  cbn [Meta] in Hmeta. injection Hmeta as <-.
  destruct fuel as [|fuel]; [discriminate|].
  cbn [from_dict py_copy bind Metadata.fields Metadata.doc_klass] in H.
  destruct (from_dict_fields _ fields (VDict d) []) as [parsed|] eqn:Hf;
    [|discriminate].
  cbn [bind construct] in H.
  destruct (forallb _ _); [|discriminate].
  destruct (init_attrs fields defaults parsed) as [attrs|] eqn:Hinit;
    [|discriminate].
  cbn [bind] in H. injection H as <-.
  exists attrs. split; [reflexivity|].
  split; [exact (@init_attrs_keys defaults parsed fields attrs Hinit)|].
  intros fname Hin Habs.
  refine (@init_attrs_default defaults parsed fname _ fields attrs Hin Hinit).
  exact (@from_dict_fields_absent _ d fname Habs fields [] parsed eq_refl Hf).
Qed.

Lemma from_dict_defaults_absent_fields_witness :
  exists attrs,
    VDoc Sample.Address [("city", VStr "Olinda"); ("zip", VNone)]
    = VDoc Sample.Address attrs
    /\ keys attrs = ["city"; "zip"]
    /\ forall fname,
         In fname ["city"; "zip"] ->
         dict_get [(VStr "city", VStr "Olinda")] (VStr fname) = None ->
         exists dv,
           default_value [("city", Default PNone); ("zip", Default PNone)] fname
           = Some dv
           /\ assoc_get attrs fname = Some dv.
Proof.
  apply (@from_dict_defaults_absent_fields CPython.runtime 1 "Address" false
           [("city", KStr); ("zip", KInt)]
           [("city", Default PNone); ("zip", Default PNone)]
           {| Metadata.fields := [("city", KStr); ("zip", KInt)];
              Metadata.doc_klass := Sample.Address;
              Metadata.pk_field := None |}
           [(VStr "city", VStr "Olinda")]); reflexivity.
Defined.

(** ** [_iterate] *)

(** Whatever the positive page size, given or the store's default, the
    paging loop yields every result of the query once, in the store's
    order, and then ends. *)
Theorem _iterate_yields_every_result :
  forall fuel c q o page_size,
    nth_error (queries c) q = Some o ->
    0 < match page_size with Some p => p | None => default_page_size c end ->
    length (results c o) < fuel ->
    _iterate fuel c q page_size = gen_done (results c o).
Proof.
  intros fuel c q o page_size Hq Hpage Hfuel. unfold _iterate.
  now rewrite (@_iterate_from_all c q page_size o Hq Hpage fuel None).
Qed.

Lemma _iterate_yields_every_result_witness :
  let c := snd (client_query "K" Sample.five) in
  _iterate 6 c 0 (Some 2) = _iterate 6 c 0 (Some 5).
Proof.
  intro c.
  rewrite (@_iterate_yields_every_result 6 c 0
             {| query_kind := "K"; order := VNone; distinct_on := VNone;
                filters := [] |} (Some 2) eq_refl);
    [|cbn; lia|cbn; lia].
  rewrite (@_iterate_yields_every_result 6 c 0
             {| query_kind := "K"; order := VNone; distinct_on := VNone;
                filters := [] |} (Some 5) eq_refl);
    [reflexivity|cbn; lia|cbn; lia].
Defined.

(** ** [query] *)

Section QueryFacts.
Variable rt : Runtime.
Variable self : Manager.t.

Lemma add_filter_equality q name value c o :
  nth_error (queries c) q = Some o ->
  exists c',
    add_filter q name "=" value c = (Ok q, c')
    /\ entities c' = entities c
    /\ default_page_size c' = default_page_size c
    /\ calls c' = calls c
    /\ next_id c' = next_id c
    /\ nth_error (queries c') q = Some (with_filters o (filters o ++ [(name, "=", value)])).
Proof.
  intro Hq. eexists. unfold add_filter.
  cbn [mem OPERATORS existsb String.eqb Ascii.eqb Bool.eqb orb negb].
  unfold bindM, modify_query, ret. split; [reflexivity|].
  cbn [entities default_page_size calls next_id queries set_queries].
  repeat split. now rewrite (@update_nth_hit _ _ _ _ _ Hq).
Qed.

Lemma _build_filter_plain kv :
  plain_lookup self kv ->
  _build_filter rt self (fst kv) (snd kv)
  = Ok [(field_path (fst kv), "=", snd kv)]
  /\ in_suffix (fst kv) = false.
Proof.
  intros [Hs Hu]. rewrite _build_filter_cases. unfold bad_suffix, in_suffix.
  rewrite Hs, Hu. split; reflexivity.
Qed.

Lemma _build_filter_in kv :
  in_lookup self kv ->
  _build_filter rt self (fst kv) (snd kv)
  = Ok [(field_path (fst kv), "in", snd kv)].
Proof.
  intros [Hs Hu]. rewrite _build_filter_cases. unfold bad_suffix.
  unfold in_suffix in Hs.
  destruct (suffixes (fst kv)) as [|operator [|o2 more]]; try discriminate.
  apply String.eqb_eq in Hs. subst operator. now rewrite Hu.
Qed.

(** The first loop of [query] on keyword arguments of these two sorts: the
    plain ones end up on the query object, in order, the others aside. *)
Lemma parse_lookups_sorted q : forall kwargs cross c o,
  nth_error (queries c) q = Some o ->
  Forall (fun kv => plain_lookup self kv \/ in_lookup self kv) kwargs ->
  exists c',
    parse_lookups rt self q kwargs cross c
    = (Ok (cross ++ cross_predicates kwargs), c')
    /\ entities c' = entities c
    /\ default_page_size c' = default_page_size c
    /\ calls c' = calls c
    /\ next_id c' = next_id c
    /\ nth_error (queries c') q
       = Some (with_filters o (filters o ++ direct_predicates kwargs)).
Proof.
  induction kwargs as [|kv rest IH]; intros cross c o Hq Hall.
  - exists c. cbn [parse_lookups cross_predicates direct_predicates flat_map].
    unfold ret. rewrite !app_nil_r. repeat split. now destruct o.
  - inversion Hall as [|? ? Hkv Hrest]; subst.
    destruct kv as [key value]. cbn [parse_lookups].
    unfold bindM at 1. unfold lift.
    cbn [cross_predicates direct_predicates flat_map fst snd] in *.
    destruct Hkv as [Hp|Hi].
    + destruct (_build_filter_plain Hp) as [Hb Hin]. cbn [fst snd] in Hb, Hin.
      rewrite Hb, Hin. unfold bindM at 1. cbn [add_direct String.eqb Ascii.eqb Bool.eqb].
      unfold bindM at 1.
      destruct (@add_filter_equality q (field_path key) value c _ Hq)
        as (c1 & Hadd & He & Hp1 & Hc & Hn & Hq1).
      rewrite Hadd. unfold ret at 1.
      destruct (IH cross c1 _ Hq1 Hrest) as (c' & Hrun & He' & Hp' & Hc' & Hn' & Hq').
      exists c'. rewrite Hrun. cbn [app].
      repeat split; try congruence.
      rewrite Hq'. unfold with_filters. cbn [filters query_kind order distinct_on].
      now rewrite <- app_assoc.
    + pose proof (_build_filter_in Hi) as Hb. cbn [fst snd] in Hb.
      destruct Hi as [Hin _]. cbn [fst] in Hin.
      rewrite Hb, Hin. unfold bindM at 1.
      cbn [add_direct String.eqb Ascii.eqb Bool.eqb]. unfold ret at 1.
      destruct (IH (cross ++ [(field_path key, "in", value)]) c o Hq Hrest)
        as (c' & Hrun & He' & Hp' & Hc' & Hn' & Hq').
      exists c'. rewrite Hrun. cbn [app]. rewrite <- app_assoc.
      repeat split; assumption.
Qed.
End QueryFacts.

Section QueryShape.
Variable rt : Runtime.
Variable fuel : nat.
Variable self : Manager.t.

(** [query] on keyword arguments of the two sorts: one query object is
    made, it receives the plain lookups, and the rest is run from the
    lookups kept aside. *)
Lemma query_sorted page_size kwargs c :
  Forall (fun kv => plain_lookup self kv \/ in_lookup self kv) kwargs ->
  exists c1,
    entities c1 = entities c
    /\ default_page_size c1 = default_page_size c
    /\ calls c1 = calls c
    /\ next_id c1 = next_id c
    /\ nth_error (queries c1) (length (queries c))
       = Some (base_query self (direct_predicates kwargs))
    /\ query rt fuel self VNone VNone page_size kwargs c
       = match cross_predicates kwargs with
         | [] => (_iterate fuel c1 (length (queries c)) page_size, c1)
         | _ :: _ =>
             match prepare_options (cross_predicates kwargs) [] with
             | Raise e => (gen_raise e, c1)
             | Ok options =>
                 run_combinations fuel (length (queries c)) page_size
                   (product (map snd options)) [] c1
             end
         end.
Proof.
  intro Hall.
  set (c0 := set_queries c (queries c ++ [base_query self []])).
  assert (Hq0 : nth_error (queries c0) (length (queries c))
                = Some (base_query self [])).
  { subst c0. cbn [queries set_queries]. rewrite nth_error_app2 by lia.
    now rewrite Nat.sub_diag. }
  destruct (@parse_lookups_sorted rt self (length (queries c)) kwargs [] c0 _ Hq0 Hall)
    as (c1 & Hrun & He & Hp & Hc & Hn & Hq1).
  exists c1. repeat split; try assumption.
  unfold query. cbn [truthy]. unfold bindM at 1. unfold client_query.
  fold (base_query self []). fold c0.
  unfold bindM at 1. unfold ret at 1. unfold bindM at 1. unfold ret at 1.
  unfold bindM at 1. rewrite Hrun. cbn [app]. unfold ret.
  destruct (cross_predicates kwargs); reflexivity.
Qed.
End QueryShape.

Lemma split_from_single sep s : forall cur r,
  split_from sep 0 cur s = [r] -> r = (cur ++ s)%string.
Proof.
  induction s as [|ch rest IH]; intros cur r H.
  - cbn [split_from] in H. injection H as <-.
    symmetry. apply CPythonFacts.append_empty.
  - cbn [split_from] in H. destruct (prefix sep (String ch rest)).
    + injection H as _ H. exfalso. revert H. apply split_from_nonempty.
    + rewrite (IH _ _ H). clear. induction cur; cbn; congruence.
Qed.

(** A key without a suffix is its own field path. *)
Lemma plain_field_path key : suffixes key = [] -> field_path key = key.
Proof.
  unfold suffixes, field_path, split.
  destruct (split_from "__" 0 EmptyString key) as [|r more] eqn:H.
  - exfalso. revert H. apply split_from_nonempty.
  - cbn [tl hd]. intros ->. now apply split_from_single in H.
Qed.

Lemma sorted_plain self kwargs :
  Forall (plain_lookup self) kwargs ->
  direct_predicates kwargs = map (fun kv => (fst kv, "=", snd kv)) kwargs
  /\ cross_predicates kwargs = [].
Proof.
  induction 1 as [|kv rest [Hs Hu] _ [IHd IHc]]; [split; reflexivity|].
  unfold direct_predicates, cross_predicates in *. cbn [flat_map map].
  unfold in_suffix at 1 3. rewrite Hs, IHd, IHc, (plain_field_path _ Hs).
  split; reflexivity.
Qed.

(** Lookups without suffix: [query] asks the store one query of the
    manager's kind with one equality filter per keyword argument, in the
    order of the arguments, yields everything the store returns for it, and
    leaves the entities alone and writes nothing. *)
Theorem query_plain_lookups :
  forall rt fuel (self : Manager.t) page_size kwargs c,
    Forall (plain_lookup self) kwargs ->
    0 < match page_size with Some p => p | None => default_page_size c end ->
    length (entities c) < fuel ->
    exists c',
      query rt fuel self VNone VNone page_size kwargs c
      = (gen_done
           (results c (base_query self
                         (map (fun kv => (fst kv, "=", snd kv)) kwargs))),
         c')
      /\ entities c' = entities c
      /\ calls c' = calls c.
Proof.
  intros rt fuel self page_size kwargs c Hplain Hpage Hfuel.
  destruct (sorted_plain Hplain) as [Hd Hc].
  destruct (@query_sorted rt fuel self page_size kwargs c) as
    (c1 & He & Hp & Hcalls & _ & Hq & Hrun).
  { eapply Forall_impl; [|exact Hplain]. intros kv H. now left. }
  exists c1. rewrite Hrun, Hc, Hd in *. split; [|split; assumption].
  f_equal. unfold _iterate.
  rewrite (@_iterate_from_all c1 _ page_size _ Hq); cbn [skipn].
  - now rewrite (@results_same_entities c c1 _ He).
  - now rewrite Hp.
  - pose proof (results_bounded c1 (base_query self
                  (map (fun kv => (fst kv, "=", snd kv)) kwargs))).
    rewrite He in *. lia.
Qed.

Lemma query_plain_lookups_witness :
  fst (query CPython.runtime 10 Sample.manager VNone VNone None
         [("status", VStr "idle")] Sample.five)
  = gen_done [Sample.record 4 "idle"; Sample.record 5 "idle"].
Proof.
  destruct (@query_plain_lookups CPython.runtime 10 Sample.manager None
              [("status", VStr "idle")] Sample.five) as (c' & H & _).
  - repeat constructor.
  - cbn. lia.
  - cbn. lia.
  - rewrite H. reflexivity.
Defined.

(** *** Lookups with the suffix [in] *)

Lemma prepare_options_empty : forall cross options,
  Forall (fun f => snd f = VList []) cross ->
  prepare_options cross options = Ok options.
Proof.
  induction cross as [|[[name op] values] rest IH]; intros options Hall;
    [reflexivity|].
  inversion Hall as [|? ? Hv Hrest]; subst. cbn [snd] in Hv. subst values.
  cbn [prepare_options py_iter bind fold_left]. now apply IH.
Qed.

Lemma options_append_pool name : forall values l,
  fold_left (fun opts value => options_append opts name (name, "=", value))
    values [(name, l)]
  = [(name, l ++ map (fun value => (name, "=", value)) values)].
Proof.
  induction values as [|v vs IH]; intro l; cbn [fold_left map].
  - now rewrite app_nil_r.
  - unfold options_append at 2. cbn [assoc_get assoc_replace].
    rewrite String.eqb_refl. rewrite IH. now rewrite <- app_assoc.
Qed.

Lemma prepare_options_one name op values :
  prepare_options [(name, op, VList values)] []
  = Ok (match values with
        | [] => []
        | _ => [(name, map (fun value => (name, "=", value)) values)]
        end).
Proof.
  cbn [prepare_options py_iter bind]. destruct values as [|v vs]; [reflexivity|].
  cbn [fold_left]. unfold options_append at 2. cbn [assoc_get app].
  now rewrite options_append_pool.
Qed.

Lemma product_one {A} (pool : list A) :
  product [pool] = map (fun x => [x]) pool.
Proof.
  unfold product. induction pool as [|x pool IH]; [reflexivity|].
  cbn [flat_map map app] in *. now rewrite IH.
Qed.

(** One lookup with the suffix [in], on a list: the executor runs one
    query per listed value, and the query for the k-th value carries the
    plain lookups and an equality on the field for each of the first k
    values, since every value is added to the same query object.  With a
    single value that is the query with that one equality more; with an empty
    list it is the query of the plain lookups alone.  What the runs return is
    yielded once per id; the entities are left alone. *)
Theorem query_one_in_lookup :
  forall rt fuel (self : Manager.t) page_size kwargs c name values,
    Forall (fun kv => plain_lookup self kv \/ in_lookup self kv) kwargs ->
    cross_predicates kwargs = [(name, "in", VList values)] ->
    0 < match page_size with Some p => p | None => default_page_size c end ->
    length (entities c) < fuel ->
    exists c',
      query rt fuel self VNone VNone page_size kwargs c
      = (gen_done
           (first_seen
              (flat_map (fun fs => results c (base_query self fs))
                 (accumulated (direct_predicates kwargs)
                    (match values with
                     | [] => [[]]
                     | _ => map (fun value => [(name, "=", value)]) values
                     end)))
              []),
         c')
      /\ entities c' = entities c.
Proof.
  intros rt fuel self page_size kwargs c name values Hall Hcross Hpage Hfuel.
  destruct (@query_sorted rt fuel self page_size kwargs c Hall) as
    (c1 & He & Hp & _ & _ & Hq & Hrun).
  rewrite Hrun, Hcross, prepare_options_one.
  set (combinations := match values with
                       | [] => [[]]
                       | _ => map (fun value => [(name, "=", value)]) values
                       end).
  match goal with
  | |- context [product ?pools] =>
      assert (Hprod : product pools = combinations)
  end.
  { subst combinations. destruct values as [|v vs]; [reflexivity|].
    change (product [map (fun value => (name, "=", value)) (v :: vs)]
            = map (fun value => [(name, "=", value)]) (v :: vs)).
    rewrite product_one. now rewrite map_map. }
  rewrite Hprod.
  destruct (@run_combinations_accumulates fuel (length (queries c)) page_size
              combinations c1 _ [] Hq) as (c' & Hrc & He').
  - subst combinations. destruct values as [|v vs].
    + repeat constructor.
    + apply Forall_map. apply Forall_forall. intros value _. now constructor.
  - now rewrite Hp.
  - now rewrite He.
  - exists c'. rewrite Hrc, take_new_first_seen. split; [|congruence].
    f_equal. f_equal. f_equal. cbn [filters base_query].
    apply flat_map_ext. intro fs. now rewrite (@results_same_entities c c1 _ He).
Qed.

Lemma query_one_in_lookup_witness :
  fst (query CPython.runtime 10 Sample.manager VNone VNone None
         [("status__in", VList [VStr "idle"; VStr "active"])] Sample.five)
  = gen_done [Sample.record 4 "idle"; Sample.record 5 "idle"].
Proof.
  destruct (@query_one_in_lookup CPython.runtime 10 Sample.manager None
              [("status__in", VList [VStr "idle"; VStr "active"])] Sample.five
              "status" [VStr "idle"; VStr "active"]) as (c' & H & _).
  - constructor; [right; split; reflexivity|constructor].
  - reflexivity.
  - cbn. lia.
  - cbn. lia.
  - rewrite H. reflexivity.
Defined.

(** An [in] lookup on an empty list restricts nothing: when every [in]
    lookup among the keyword arguments has an empty list, the executor runs
    the query of the plain lookups once and yields its results, once per
    id. *)
Theorem query_empty_in_is_ignored :
  forall rt fuel (self : Manager.t) page_size kwargs c,
    Forall (fun kv => plain_lookup self kv \/ in_lookup self kv) kwargs ->
    cross_predicates kwargs <> [] ->
    Forall (fun f => snd f = VList []) (cross_predicates kwargs) ->
    0 < match page_size with Some p => p | None => default_page_size c end ->
    length (entities c) < fuel ->
    exists c',
      query rt fuel self VNone VNone page_size kwargs c
      = (gen_done
           (first_seen
              (results c (base_query self (direct_predicates kwargs))) []),
         c')
      /\ entities c' = entities c.
Proof.
  intros rt fuel self page_size kwargs c Hall Hsome Hempty Hpage Hfuel.
  destruct (@query_sorted rt fuel self page_size kwargs c Hall) as
    (c1 & He & Hp & _ & _ & Hq & Hrun).
  rewrite Hrun, (prepare_options_empty [] Hempty).
  destruct (cross_predicates kwargs) as [|f more]; [congruence|].
  cbn [map product].
  destruct (@run_combinations_accumulates fuel (length (queries c)) page_size
              [[]] c1 _ [] Hq) as (c' & Hrc & He').
  - repeat constructor.
  - now rewrite Hp.
  - now rewrite He.
  - exists c'. split; [|congruence]. refine (eq_trans Hrc _).
    rewrite take_new_first_seen.
    cbn [accumulated flat_map filters base_query]. rewrite !app_nil_r.
    now rewrite (@results_same_entities c c1 _ He).
Qed.

Lemma query_empty_in_is_ignored_witness :
  fst (query CPython.runtime 10 Sample.manager VNone VNone None
         [("status", VStr "idle"); ("id__in", VList [])] Sample.five)
  = gen_done [Sample.record 4 "idle"; Sample.record 5 "idle"].
Proof.
  destruct (@query_empty_in_is_ignored CPython.runtime 10 Sample.manager None
              [("status", VStr "idle"); ("id__in", VList [])] Sample.five)
    as (c' & H & _).
  - constructor; [left; split; reflexivity|].
    constructor; [right; split; reflexivity|constructor].
  - discriminate.
  - repeat constructor.
  - cbn. lia.
  - cbn. lia.
  - rewrite H. reflexivity.
Defined.

(** *** What the executor never yields twice *)

Lemma datetime_eqb_sym a b : datetime_eqb a b = datetime_eqb b a.
Proof.
  unfold datetime_eqb.
  now rewrite (Nat.eqb_sym (year a)), (Nat.eqb_sym (month a)),
    (Nat.eqb_sym (day a)), (Nat.eqb_sym (hour a)), (Nat.eqb_sym (minute a)),
    (Nat.eqb_sym (second a)), (Nat.eqb_sym (microsecond a)).
Qed.

Lemma key_eqb_sym a b : key_eqb a b = key_eqb b a.
Proof.
  destruct a, b; cbn [key_eqb]; try reflexivity.
  - now destruct b, b0.
  - apply Z.eqb_sym.
  - apply Z.eqb_sym.
  - apply Z.eqb_sym.
  - apply String.eqb_sym.
  - apply datetime_eqb_sym.
  - now rewrite (String.eqb_sym cls), (String.eqb_sym member).
Qed.

Lemma distinct_snoc found x :
  distinct found -> existsb (key_eqb x) found = false ->
  distinct (found ++ [x]).
Proof.
  induction found as [|k rest IH]; intros Hd Hx.
  - cbn. split; constructor.
  - cbn [distinct app existsb] in *. destruct Hd as [Hk Hrest].
    apply orb_false_iff in Hx as [Hxk Hxrest]. split.
    + apply Forall_app. split; [exact Hk|].
      constructor; [|constructor]. now rewrite key_eqb_sym.
    + now apply IH.
Qed.

Lemma take_new_distinct items : forall found,
  distinct found ->
  snd (take_new items found)
  = found ++ map entity_id (fst (take_new items found))
  /\ distinct (snd (take_new items found)).
Proof.
  induction items as [|item rest IH]; intros found Hd.
  - cbn [take_new fst snd map]. now rewrite app_nil_r.
  - cbn [take_new].
    destruct (existsb (key_eqb (entity_id item)) found) eqn:Hseen;
      [now apply IH|].
    destruct (IH (found ++ [entity_id item]) (@distinct_snoc _ _ Hd Hseen))
      as [Hfound Hdist].
    destruct (take_new rest (found ++ [entity_id item])) as [out found'].
    cbn [fst snd map] in *. split; [|exact Hdist].
    now rewrite Hfound, <- app_assoc.
Qed.

Lemma run_combinations_distinct fuel q page_size : forall combinations found c,
  distinct found ->
  distinct (found ++ map entity_id
              (yielded (fst (run_combinations fuel q page_size combinations
                               found c)))).
Proof.
  induction combinations as [|combination rest IH]; intros found c Hd.
  - cbn. now rewrite app_nil_r.
  - cbn [run_combinations].
    destruct (add_combination q combination c) as [[current_query|e] c1].
    + destruct (@take_new_distinct (yielded (_iterate fuel c1 current_query page_size))
                  _ Hd) as [Hfound Hdist].
      destruct (take_new (yielded (_iterate fuel c1 current_query page_size)) found)
        as [out found'].
      cbn [fst snd] in *.
      destruct (ended (_iterate fuel c1 current_query page_size)).
      * specialize (IH found' c1 Hdist).
        destruct (run_combinations fuel q page_size rest found' c1) as [g' c''].
        cbn [fst gen_cons yielded] in *.
        now rewrite map_app, app_assoc, <- Hfound.
      * cbn [fst yielded]. now rewrite <- Hfound.
    + cbn. now rewrite app_nil_r.
Qed.

Lemma in_suffix_operator key :
  in_suffix key
  = ((match suffixes key with [operator] => operator | _ => "=" end) =? "in")%string.
Proof.
  unfold in_suffix. now destruct (suffixes key) as [|operator [|o2 more]].
Qed.

(** Whatever the keyword arguments, the lookups [query] keeps aside when
    the first loop gets through are those with the suffix [in]. *)
Lemma parse_lookups_cross rt self q : forall kwargs cross c cross' c',
  parse_lookups rt self q kwargs cross c = (Ok cross', c') ->
  cross' = cross ++ cross_predicates kwargs.
Proof.
  induction kwargs as [|[key value] rest IH]; intros cross c cross' c' H.
  - cbn in H. injection H as <- _. cbn. now rewrite app_nil_r.
  - cbn [parse_lookups] in H. unfold bindM at 1 in H. unfold lift in H.
    rewrite _build_filter_cases in H.
    destruct (bad_suffix key); [discriminate|].
    destruct (undeclared_nested self key); [discriminate|].
    unfold bindM at 1 in H. cbn [add_direct] in H.
    unfold cross_predicates. cbn [flat_map fst snd].
    rewrite in_suffix_operator.
    destruct (String.eqb_spec
                (match suffixes key with [operator] => operator | _ => "=" end)
                "in") as [Hin|Hnot].
    + unfold ret at 1 in H. apply IH in H. rewrite H, Hin.
      unfold cross_predicates. now rewrite <- app_assoc.
    + unfold bindM at 1 in H.
      destruct (add_filter q (field_path key) _ value c) as [[q'|e] c1];
        [|discriminate].
      unfold ret at 1 in H. apply IH in H. exact H.
Qed.

Lemma distinct_one_None ks :
  distinct ks -> length (List.filter is_none ks) <= 1.
Proof.
  induction ks as [|k rest IH]; intro Hd; [cbn; lia|].
  cbn [distinct] in Hd. destruct Hd as [Hk Hrest].
  cbn [List.filter]. destruct k; cbn [is_none]; try now apply IH.
  assert (Hnone : List.filter is_none rest = []).
  { clear IH Hrest. induction rest as [|k' rest IH]; [reflexivity|].
    inversion Hk as [|? ? Hk' Hrest]; subst.
    cbn [List.filter]. destruct k'; cbn [is_none]; try now apply IH.
    discriminate Hk'. }
  rewrite Hnone. cbn. lia.
Qed.

(** As soon as one keyword argument has the suffix [in], no two items
    [query] yields have the same [id], whatever the store holds and however
    the run ends.  An entity whose key is a name has the id [None]: at most
    one such entity is yielded. *)
Theorem query_in_yields_each_id_once :
  forall rt fuel (self : Manager.t) page_size kwargs c,
    cross_predicates kwargs <> [] ->
    let items := yielded (fst (query rt fuel self VNone VNone page_size kwargs c)) in
    distinct (map entity_id items)
    /\ length (List.filter (fun e => is_none (entity_id e)) items) <= 1.
Proof.
  intros rt fuel self page_size kwargs c Hsome items.
  assert (Hd : distinct (map entity_id items)).
  { subst items. unfold query. cbn [truthy].
    unfold bindM at 1. unfold client_query.
    unfold bindM at 1. unfold ret at 1. unfold bindM at 1. unfold ret at 1.
    unfold bindM at 1.
    destruct (parse_lookups rt self (length (queries c)) kwargs [] _)
      as [[cross|e] c1] eqn:Hparse; [|exact I].
    apply parse_lookups_cross in Hparse. cbn [app] in Hparse. subst cross.
    unfold ret.
    destruct (cross_predicates kwargs) as [|f more] eqn:Hc; [congruence|].
    destruct (prepare_options (f :: more) []) as [options|e]; [|exact I].
    exact (@run_combinations_distinct fuel (length (queries c)) page_size
             (product (map snd options)) [] c1 I). }
  split; [exact Hd|].
  pose proof (@distinct_one_None _ Hd) as H.
  clear Hd. induction items as [|e rest IH]; [cbn; lia|].
  cbn [map List.filter] in *. destruct (is_none (entity_id e)); cbn [length] in *.
  - assert (length (List.filter is_none (map entity_id rest))
            = length (List.filter (fun e => is_none (entity_id e)) rest)) as <-.
    { clear. induction rest as [|e rest IH]; [reflexivity|].
      cbn [map List.filter]. destruct (is_none (entity_id e)); cbn [length]; now rewrite IH. }
    exact H.
  - now apply IH.
Qed.

Lemma query_in_yields_each_id_once_witness :
  let named name :=
    {| key := {| key_kind := "K"; id_or_name := KeyName name |};
       props := [("status", VStr "active")] |} in
  let c := {| entities := [named "a"; named "b"]; next_id := 0; queries := [];
              default_page_size := 2; calls := [] |} in
  fst (query CPython.runtime 10 Sample.manager VNone VNone None
         [("status__in", VList [VStr "active"])] c) = gen_done [named "a"]
  /\ length (List.filter (fun e => is_none (entity_id e))
               (yielded (fst (query CPython.runtime 10 Sample.manager VNone VNone
                                None [("status__in", VList [VStr "active"])] c))))
     <= 1.
Proof.
  intros named c. split; [reflexivity|].
  apply (@query_in_yields_each_id_once CPython.runtime 10 Sample.manager None
           [("status__in", VList [VStr "active"])] c).
  discriminate.
Defined.

(** *** Lookups with a comparison suffix *)

Lemma parse_lookups_app rt self q : forall a b cross c,
  parse_lookups rt self q (a ++ b) cross c
  = match parse_lookups rt self q a cross c with
    | (Ok cross', c') => parse_lookups rt self q b cross' c'
    | (Raise e, c') => (Raise e, c')
    end.
Proof.
  induction a as [|[key value] a IH]; intros b cross c; [reflexivity|].
  cbn [app parse_lookups]. unfold bindM, lift.
  destruct (_build_filter rt self key value) as [all_filters|e]; [|reflexivity].
  destruct (add_direct q all_filters cross c) as [[cross1|e] c1]; [|reflexivity].
  apply IH.
Qed.

Lemma suffix_not_native operator :
  mem operator (keys lookup_operators) = true ->
  operator <> "in" ->
  mem operator OPERATORS = false.
Proof.
  unfold mem, keys, lookup_operators. cbn [map fst existsb]. intros H Hin.
  repeat (apply orb_true_iff in H as [H|H]);
    try discriminate H;
    apply String.eqb_eq in H; subst operator;
    try reflexivity; now contradiction Hin.
Qed.

(** A lookup with any suffix of the table other than [in] makes [query]
    fail: the suffix reaches [add_filter] as it stands in the key, and the
    store accepts the operators [=], [<], [<=], [>] and [>=] only.  Nothing
    is yielded, and the store keeps its entities. *)
Theorem query_comparison_lookup_raises :
  forall rt fuel (self : Manager.t) page_size before key value rest c operator,
    Forall (fun kv => plain_lookup self kv \/ in_lookup self kv) before ->
    suffixes key = [operator] ->
    mem operator (keys lookup_operators) = true ->
    operator <> "in" ->
    undeclared_nested self key = false ->
    exists c',
      query rt fuel self VNone VNone page_size (before ++ (key, value) :: rest) c
      = (gen_raise (ValueError "Invalid expression"), c')
      /\ entities c' = entities c
      /\ calls c' = calls c.
Proof.
  intros rt fuel self page_size before key value rest c operator
    Hall Hs Hop Hin Hu.
  set (c0 := set_queries c (queries c ++ [base_query self []])).
  assert (Hq0 : nth_error (queries c0) (length (queries c))
                = Some (base_query self [])).
  { subst c0. cbn [queries set_queries]. rewrite nth_error_app2 by lia.
    now rewrite Nat.sub_diag. }
  destruct (@parse_lookups_sorted rt self (length (queries c)) before [] c0 _ Hq0 Hall)
    as (c1 & Hrun & He & _ & Hc & _ & _).
  exists c1. split; [|split; assumption].
  unfold query. cbn [truthy]. unfold bindM at 1. unfold client_query.
  fold (base_query self []). fold c0.
  unfold bindM at 1. unfold ret at 1. unfold bindM at 1. unfold ret at 1.
  unfold bindM at 1. rewrite parse_lookups_app, Hrun.
  cbn [parse_lookups]. unfold bindM at 1. unfold lift.
  rewrite _build_filter_cases. unfold bad_suffix. rewrite Hs, Hop, Hu.
  cbn [negb]. unfold bindM at 1. cbn [add_direct].
  destruct (String.eqb_spec operator "in") as [|_]; [contradiction|].
  unfold bindM at 1. unfold add_filter.
  rewrite (suffix_not_native Hop Hin). reflexivity.
Qed.

Lemma query_comparison_lookup_raises_witness :
  fst (query CPython.runtime 10 Sample.manager VNone VNone None
         [("status", VStr "idle"); ("id__gte", VInt 4)] Sample.five)
  = gen_raise (ValueError "Invalid expression").
Proof.
  destruct (@query_comparison_lookup_raises CPython.runtime 10 Sample.manager
              None [("status", VStr "idle")] "id__gte" (VInt 4) [] Sample.five
              "gte") as (c' & H & _).
  - constructor; [left; split; reflexivity|constructor].
  - reflexivity.
  - reflexivity.
  - discriminate.
  - reflexivity.
  - cbn [app] in H. now rewrite H.
Defined.

(** ** Reading and deleting by key *)

Lemma Key_eqb_eq a b : Key_eqb a b = true -> a = b.
Proof.
  destruct a as [ka ia], b as [kb ib]. unfold Key_eqb. cbn [key_kind id_or_name].
  intro H. apply andb_true_iff in H as [Hk Hi].
  apply String.eqb_eq in Hk. subst kb. f_equal.
  destruct ia, ib; cbn [key_id_eqb] in Hi; try discriminate.
  - apply Z.eqb_eq in Hi. now subst.
  - apply String.eqb_eq in Hi. now subst.
Qed.

Lemma find_fresh kind z es :
  Forall (fun e => key_ident (key e) <> z) es ->
  find (fun e => Key_eqb (key e) {| key_kind := kind; id_or_name := KeyId z |}) es
  = None.
Proof.
  induction 1 as [|e es He _ IH]; [reflexivity|].
  cbn [find]. destruct (Key_eqb (key e) _) eqn:Hk; [|exact IH].
  apply Key_eqb_eq in Hk. rewrite Hk in He. now contradiction He.
Qed.

Lemma find_filter_out {A} (p : A -> bool) l :
  find p (List.filter (fun x => negb (p x)) l) = None.
Proof.
  induction l as [|x l IH]; [reflexivity|].
  cbn [List.filter]. destruct (p x) eqn:Hp; cbn [negb]; [exact IH|].
  cbn [find]. now rewrite Hp.
Qed.

(** With a key that counts as true, [build_key] reads nothing from the
    store and leaves it as it is. *)
Lemma build_key_truthy rt self pk_value c k c1 :
  truthy pk_value = true ->
  build_key rt self pk_value c = (Ok k, c1) ->
  c1 = c /\ forall c', build_key rt self pk_value c' = (Ok k, c').
Proof.
  unfold build_key. intros ->. unfold bindM, lift.
  destruct (match Meta (Manager.doc_klass self) with Some _ => _ | None => _ end)
    as [typed_pk|]; [|discriminate].
  destruct (client_key (Manager.kind self) typed_pk); [|discriminate].
  intro H. injection H as <- <-. split; reflexivity.
Qed.

(** [get] by a primary key that counts as false ([None], zero, the empty
    string) never finds a record: the key it looks under is one the store
    has just allocated.  It raises [DoesNotExist] with the class and the
    value given, an id is used up, and the entities are left alone. *)
Theorem get_by_false_key_raises :
  forall rt fuel (self : Manager.t) kwargs pk_value c,
    assoc_get kwargs (Manager.pk_field self) = Some pk_value ->
    truthy pk_value = false ->
    exists c',
      get rt fuel self kwargs c
      = (Raise (DoesNotExist (Manager.doc_klass self) pk_value), c')
      /\ entities c' = entities c
      /\ calls c' = calls c
      /\ (next_id c < next_id c')%Z.
Proof.
  intros rt fuel self kwargs pk_value c Hkw Hfalse.
  destruct (allocate_id (Manager.kind self) c) as [[k|e] c1] eqn:Halloc;
    [|discriminate Halloc].
  destruct (allocate_id_fresh Halloc) as (z & Hk & _ & Hfresh & Hent).
  exists c1. split; [|split; [exact Hent|]].
  - unfold get. rewrite Hkw. unfold bindM at 1.
    rewrite (@build_key_falsy rt self _ c Hfalse), Halloc.
    unfold bindM, client_get. rewrite Hent, Hk, (@find_fresh _ _ _ Hfresh).
    reflexivity.
  - unfold allocate_id in Halloc. injection Halloc as _ <-.
    cbn [calls next_id]. split; [reflexivity|].
    destruct (fold_max_bound (map (fun e => key_ident (key e)) (entities c))
                (Z.max 0 (next_id c))) as [Hb _].
    lia.
Qed.

Lemma get_by_false_key_raises_witness :
  fst (get CPython.runtime 10 Sample.manager [("id", VInt 0)] Sample.five)
  = Raise (DoesNotExist Sample.K (VInt 0)).
Proof.
  destruct (@get_by_false_key_raises CPython.runtime 10 Sample.manager
              [("id", VInt 0)] (VInt 0) Sample.five eq_refl eq_refl)
    as (c' & H & _).
  now rewrite H.
Defined.

(** [delete] with a key that counts as true removes the entity under that
    key and no other with one call to the store, also when nothing is stored
    under the key; a [get] by the same key afterwards raises [DoesNotExist]. *)
Theorem delete_by_key_then_get :
  forall rt fuel (self : Manager.t) pk_value k c c1,
    truthy pk_value = true ->
    build_key rt self pk_value c = (Ok k, c1) ->
    exists c',
      delete rt fuel self pk_value c = (Ok tt, c')
      /\ entities c'
         = List.filter (fun e => negb (Key_eqb (key e) k)) (entities c)
      /\ calls c' = calls c ++ [Delete k]
      /\ get rt fuel self [(Manager.pk_field self, pk_value)] c'
         = (Raise (DoesNotExist (Manager.doc_klass self) pk_value), c').
Proof.
  intros rt fuel self pk_value k c c1 Htrue Hkey.
  destruct (@build_key_truthy _ _ _ _ _ _ Htrue Hkey) as [-> Hpure].
  eexists. split; [|split; [|split]].
  - unfold delete. rewrite Htrue. unfold bindM. rewrite Hkey.
    unfold client_delete. reflexivity.
  - reflexivity.
  - reflexivity.
  - unfold get. cbn [assoc_get]. rewrite String.eqb_refl.
    unfold bindM at 1. rewrite Hpure. unfold bindM, client_get.
    cbn [entities set_store].
    now rewrite (find_filter_out (fun e => Key_eqb (key e) k)).
Qed.

Lemma delete_by_key_then_get_witness :
  exists c',
    delete CPython.runtime 10 Sample.manager (VInt 2) Sample.five = (Ok tt, c')
    /\ entities c' = [Sample.record 1 "active"; Sample.record 3 "active";
                      Sample.record 4 "idle"; Sample.record 5 "idle"]
    /\ fst (get CPython.runtime 10 Sample.manager [("id", VInt 2)] c')
       = Raise (DoesNotExist Sample.K (VInt 2)).
Proof.
  destruct (@delete_by_key_then_get CPython.runtime 10 Sample.manager (VInt 2)
              {| key_kind := "K"; id_or_name := KeyId 2 |} Sample.five Sample.five
              eq_refl eq_refl) as (c' & Hd & He & _ & Hg).
  exists c'. split; [exact Hd|]. split; [rewrite He; reflexivity|].
  change (Manager.pk_field Sample.manager) with "id" in Hg. now rewrite Hg.
Defined.

(** ** [Document.delete] *)

Lemma delete_everything rt fuel (self : Manager.t) pk_value c :
  truthy pk_value = false ->
  0 < default_page_size c ->
  length (List.filter (of_kind self) (entities c)) < fuel ->
  exists c',
    delete rt fuel self pk_value c = (Ok tt, c')
    /\ entities c' = List.filter (fun e => negb (of_kind self e)) (entities c)
    /\ calls c'
       = calls c
         ++ map DeleteMulti
              (_chunks (map key (List.filter (of_kind self) (entities c)))
                 MAX_ITEMS_PER_OPERATIONS).
Proof.
  intros Hfalse Hpage Hfuel.
  destruct (query_everything rt self c Hpage Hfuel) as (c1 & Hq & Hent & Hcalls).
  assert (H500 : 0 < MAX_ITEMS_PER_OPERATIONS) by (unfold MAX_ITEMS_PER_OPERATIONS; lia).
  eexists. split; [|split].
  - unfold delete. rewrite Hfalse, Hq. cbn [ended gen_done yielded].
    apply delete_chunks_spec.
  - cbn [entities]. rewrite Hent, (_chunks_concat H500).
    apply filter_ext_in. intros e He. f_equal.
    destruct (of_kind self e) eqn:Hk.
    + apply existsb_exists. exists (key e). split; [|apply Key_eqb_refl].
      apply in_map. apply filter_In. now split.
    + apply not_true_is_false. intro Hex.
      apply existsb_exists in Hex as (k & Hin & Heq).
      apply in_map_iff in Hin as (e' & <- & Hin').
      apply filter_In in Hin' as [_ Hk'].
      apply Key_eqb_kind in Heq. unfold of_kind in Hk, Hk'.
      rewrite Heq, Hk' in Hk. discriminate.
  - cbn [calls]. now rewrite Hcalls.
Qed.

(** [Document.delete] on a record that was never saved, whose [id] is
    [None] or zero, passes that [id] on as the key: every stored record of
    its kind is deleted, and the records of other kinds are kept. *)
Theorem Document_delete_of_unsaved_record_deletes_all :
  forall rt fuel cls attrs manager id c,
    documents cls = Some manager ->
    assoc_get attrs "id" = Some id ->
    truthy id = false ->
    0 < default_page_size c ->
    length (List.filter (of_kind manager) (entities c)) < fuel ->
    exists c',
      Document.delete rt fuel (VDoc cls attrs) c = (Ok tt, c')
      /\ entities c'
         = List.filter (fun e => negb (of_kind manager e)) (entities c)
      /\ List.filter (of_kind manager) (entities c') = [].
Proof.
  intros rt fuel cls attrs manager id c Hdocs Hid Hfalse Hpage Hfuel.
  destruct (@delete_everything rt fuel manager id c Hfalse Hpage Hfuel)
    as (c' & Hd & He & _).
  exists c'. split; [|split; [exact He|]].
  - unfold Document.delete. rewrite Hdocs. unfold bindM, lift.
    cbn [getattr]. now rewrite Hid.
  - rewrite He, filter_twice. clear.
    induction (entities c) as [|e es IH]; [reflexivity|].
    cbn [List.filter]. destruct (of_kind manager e); cbn [negb andb]; exact IH.
Qed.

Lemma Document_delete_of_unsaved_record_deletes_all_witness :
  exists c',
    Document.delete CPython.runtime 10 Sample.unsaved Sample.five = (Ok tt, c')
    /\ entities c' = [].
Proof.
  destruct (@Document_delete_of_unsaved_record_deletes_all CPython.runtime 10
              Sample.K [("status", VStr "new"); ("id", VNone)] Sample.manager
              VNone Sample.five eq_refl eq_refl eq_refl)
    as (c' & Hd & He & _).
  - cbn. lia.
  - cbn. lia.
  - exists c'. split; [exact Hd|]. rewrite He. reflexivity.
Defined.

(** ** [update] *)

Lemma as_data_plain fuel : forall kwargs acc,
  Forall (fun kv => ~ is_document (snd kv)) kwargs ->
  as_data fuel kwargs acc = Ok (merge_props acc kwargs).
Proof.
  induction kwargs as [|[key value] rest IH]; intros acc Hall; [reflexivity|].
  inversion Hall as [|? ? Hv Hrest]; subst. cbn [snd] in Hv.
  cbn [as_data]. unfold merge_props. cbn [fold_left fst snd].
  destruct value; try (cbn [bind]; now apply IH).
  exfalso. apply Hv. exact I.
Qed.

Lemma merge_props_fresh : forall (data acc : list (string * pyval)),
  NoDup (keys acc ++ keys data) -> merge_props acc data = acc ++ data.
Proof.
  induction data as [|[k v] rest IH]; intros acc Hnd.
  - cbn. now rewrite app_nil_r.
  - unfold merge_props. cbn [fold_left fst snd]. cbn [keys map fst] in Hnd.
    destruct (NoDup_fresh_head acc k v _ Hnd) as [Hfresh Hnd'].
    rewrite assoc_set_fresh by exact Hfresh.
    fold (merge_props (acc ++ [(k, v)]) rest). rewrite IH by exact Hnd'.
    now rewrite <- app_assoc.
Qed.

Lemma assoc_get_merge : forall (data props : list (string * pyval)) name,
  NoDup (keys data) ->
  assoc_get (merge_props props data) name
  = match assoc_get data name with
    | Some v => Some v
    | None => assoc_get props name
    end.
Proof.
  induction data as [|[k v] rest IH]; intros props name Hnd; [reflexivity|].
  cbn [keys map fst] in Hnd. inversion Hnd as [|? ? Hfresh Hnd']; subst.
  unfold merge_props. cbn [fold_left fst snd].
  fold (merge_props (assoc_set props k v) rest). rewrite IH by exact Hnd'.
  cbn [assoc_get]. destruct (String.eqb_spec k name) as [->|Hne].
  - rewrite (assoc_get_fresh rest name Hfresh). apply assoc_get_set.
  - destruct (assoc_get rest name); [reflexivity|].
    now apply assoc_get_set_other.
Qed.

Lemma find_upsert es e :
  find (fun e' => Key_eqb (key e') (key e)) (upsert es e) = Some e.
Proof.
  induction es as [|e' es IH]; cbn [upsert].
  - cbn [find]. now rewrite Key_eqb_refl.
  - destruct (Key_eqb (key e') (key e)) eqn:Hk; cbn [find].
    + now rewrite Key_eqb_refl.
    + now rewrite Hk.
Qed.

Lemma build_key_calls rt self pk_value c k c1 :
  build_key rt self pk_value c = (Ok k, c1) -> calls c1 = calls c.
Proof.
  unfold build_key. destruct (truthy pk_value).
  - unfold bindM, lift.
    destruct (match Meta (Manager.doc_klass self) with Some _ => _ | None => _ end);
      [|discriminate].
    intro H. now injection H as _ <-.
  - unfold allocate_id. intro H. now injection H as _ <-.
Qed.

(** [update] with keyword arguments on a record that is not stored raises
    [AttributeError], not [DoesNotExist]: the entity the store returned is
    [None] when its [update] is called.  Nothing is written. *)
Theorem update_of_missing_record_raises :
  forall rt fuel (self : Manager.t) pk_value kwargs k c c1 data,
    kwargs <> [] ->
    build_key rt self pk_value c = (Ok k, c1) ->
    find (fun e => Key_eqb (key e) k) (entities c) = None ->
    as_data fuel kwargs [] = Ok data ->
    update rt fuel self pk_value kwargs c = (Raise (AttributeError "update"), c1)
    /\ entities c1 = entities c
    /\ calls c1 = calls c.
Proof.
  intros rt fuel self pk_value kwargs k c c1 data Hkw Hkey Hfind Hdata.
  pose proof (build_key_entities _ _ _ _ Hkey) as Hent.
  split; [|split; [exact Hent|exact (build_key_calls _ _ _ _ Hkey)]].
  unfold update. destruct kwargs as [|kv rest]; [congruence|].
  unfold bindM at 1. unfold bindM at 1. rewrite Hkey.
  unfold bindM at 1. unfold client_get. rewrite Hent, Hfind.
  unfold bindM at 1. unfold lift. rewrite Hdata. reflexivity.
Qed.

Lemma update_of_missing_record_raises_witness :
  fst (update CPython.runtime 10 Sample.manager (VInt 42)
         [("status", VStr "idle")] Sample.five)
  = Raise (AttributeError "update").
Proof.
  destruct (@update_of_missing_record_raises CPython.runtime 10 Sample.manager
              (VInt 42) [("status", VStr "idle")]
              {| key_kind := "K"; id_or_name := KeyId 42 |}
              Sample.five Sample.five [("status", VStr "idle")])
    as (H & _).
  - discriminate.
  - reflexivity.
  - reflexivity.
  - reflexivity.
  - now rewrite H.
Defined.

(** [update] on a stored record, with keyword arguments whose values are
    storable: the entity the store holds under the key is written back
    once, with exactly the named properties overwritten by the values as
    they were given and the other properties as the store held them, and
    what [update] returns is that entity decoded. *)
Theorem update_overwrites_named_properties :
  forall rt fuel (self : Manager.t) pk_value kwargs k c c1 entity,
    Manager.pk_field self = DEFAULT_PK_FIELD ->
    kwargs <> [] ->
    NoDup (keys kwargs) ->
    Forall (fun kv => storable (snd kv) = true) kwargs ->
    truthy pk_value = true ->
    build_key rt self pk_value c = (Ok k, c1) ->
    find (fun e => Key_eqb (key e) k) (entities c) = Some entity ->
    exists stored c',
      update rt fuel self pk_value kwargs c
      = (from_entity rt fuel self stored, c')
      /\ key stored = k
      /\ (forall name,
             assoc_get (props stored) name
             = match assoc_get kwargs name with
               | Some v => Some v
               | None => assoc_get (props entity) name
               end)
      /\ find (fun e => Key_eqb (key e) k) (entities c') = Some stored
      /\ calls c' = calls c ++ [Put stored].
Proof.
  intros rt fuel self pk_value kwargs k c c1 entity
    Hpk Hkw Hnd Hstorable Htrue Hkey Hfind.
  assert (Hplain : Forall (fun kv => ~ is_document (snd kv)) kwargs).
  { eapply Forall_impl; [|exact Hstorable]. intros [name value] Hv.
    cbn [snd] in *. destruct value; try (intros []). discriminate Hv. }
  clear Hstorable.
  destruct (@build_key_truthy _ _ _ _ _ _ Htrue Hkey) as [-> Hpure].
  destruct kwargs as [|[k0 v0] rest]; [congruence|].
  set (kwargs := (k0, v0) :: rest) in *.
  assert (Hk : key entity = k).
  { apply find_some in Hfind as [_ Hk]. now apply Key_eqb_eq. }
  assert (Hdata : as_data fuel kwargs [] = Ok kwargs).
  { rewrite (as_data_plain fuel [] Hplain). f_equal.
    now apply merge_props_fresh. }
  set (stored := {| key := key entity;
                    props := merge_props (props entity) kwargs |}).
  assert (Hprops : forall name,
             assoc_get (props stored) name
             = match assoc_get kwargs name with
               | Some v => Some v
               | None => assoc_get (props entity) name
               end).
  { intro name. apply assoc_get_merge. exact Hnd. }
  assert (Hfound : find (fun e => Key_eqb (key e) k) (upsert (entities c) stored)
                   = Some stored).
  { rewrite <- Hk. apply (@find_upsert (entities c) stored). }
  exists stored, (set_store c (upsert (entities c) stored) (Put stored)).
  split; [|split; [exact Hk|split; [exact Hprops|split; [exact Hfound|reflexivity]]]].
  unfold update. change (match kwargs with [] => ret tt | _ => ?m end) with m.
  unfold bindM at 1. unfold bindM at 1. rewrite Hkey.
  unfold bindM at 1. unfold client_get. rewrite Hfind.
  unfold bindM at 1. unfold lift at 1. rewrite Hdata.
  unfold client_put. fold stored.
  unfold get. rewrite Hpk. cbn [assoc_get DEFAULT_PK_FIELD].
  rewrite String.eqb_refl. unfold bindM at 1. rewrite Hpure.
  unfold bindM, client_get. cbn [entities set_store]. fold stored.
  rewrite Hfound.
  assert (Hne : props stored <> []).
  { intro Hempty. specialize (Hprops k0). rewrite Hempty in Hprops.
    subst kwargs. cbn [assoc_get] in Hprops.
    rewrite String.eqb_refl in Hprops. discriminate. }
  destruct (props stored); [congruence|reflexivity].
Qed.

Lemma update_overwrites_named_properties_witness :
  exists stored c',
    update CPython.runtime 10 Sample.manager (VInt 2)
      [("status", VStr "idle")] Sample.five
    = (from_entity CPython.runtime 10 Sample.manager stored, c')
    /\ assoc_get (props stored) "status" = Some (VStr "idle")
    /\ assoc_get (props stored) "id" = Some (VInt 2)
    /\ calls c' = [Put stored].
Proof.
  destruct (@update_overwrites_named_properties CPython.runtime 10
              Sample.manager (VInt 2) [("status", VStr "idle")]
              {| key_kind := "K"; id_or_name := KeyId 2 |}
              Sample.five Sample.five (Sample.record 2 "active"))
    as (stored & c' & H & _ & Hprops & _ & Hcalls).
  - reflexivity.
  - discriminate.
  - repeat constructor. intros [].
  - repeat constructor.
  - reflexivity.
  - reflexivity.
  - reflexivity.
  - exists stored, c'. split; [exact H|].
    split; [exact (Hprops "status")|]. split; [exact (Hprops "id")|exact Hcalls].
Defined.

(** ** [Document.save], [create] and [get] together *)

Lemma field_of_conforming (D : pytype -> pyval -> Prop) k fk :
  forall (fields : list (string * pytype)) (attrs : list (string * pyval)),
    Forall2 (fun f a => field_ok D (snd f) (snd a)) fields attrs ->
    keys attrs = keys fields ->
    assoc_get fields k = Some fk ->
    exists v, assoc_get attrs k = Some v /\ field_ok D fk v.
Proof.
  induction 1 as [|[fname fk'] [aname a] fields attrs Hp _ IH]; intros Hk Hget;
    [discriminate|].
  cbn [keys map fst] in Hk. injection Hk as -> Hk.
  cbn [assoc_get] in *. destruct (fname =? k)%string.
  - injection Hget as <-. now exists a.
  - now apply IH.
Qed.

Lemma replace_conforming (D : pytype -> pyval -> Prop) k fk v :
  forall (fields : list (string * pytype)) (attrs : list (string * pyval)),
    Forall2 (fun f a => field_ok D (snd f) (snd a)) fields attrs ->
    keys attrs = keys fields ->
    assoc_get fields k = Some fk ->
    field_ok D fk v ->
    Forall2 (fun f a => field_ok D (snd f) (snd a)) fields (assoc_replace attrs k v)
    /\ keys (assoc_replace attrs k v) = keys fields.
Proof.
  induction 1 as [|[fname fk'] [aname a] fields attrs Hp Hrest IH];
    intros Hk Hget Hv; [discriminate|].
  cbn [keys map fst] in Hk. injection Hk as -> Hk.
  cbn [assoc_get assoc_replace] in *. destruct (fname =? k)%string.
  - injection Hget as <-. split.
    + constructor; [exact Hv|exact Hrest].
    + cbn [keys map fst]. now f_equal.
  - destruct (IH Hk Hget Hv) as [IH1 IH2]. split.
    + constructor; [exact Hp|exact IH1].
    + cbn [keys map fst]. now f_equal.
Qed.

Lemma update_props_raw : forall (attrs acc : list (string * pyval)),
  NoDup (keys acc ++ keys attrs) ->
  update_props acc (map (fun '(name, a) => (VStr name, raw_of a)) attrs)
  = acc ++ map (fun '(name, a) => (name, raw_of a)) attrs.
Proof.
  induction attrs as [|[name a] rest IH]; intros acc Hnd.
  - cbn. now rewrite app_nil_r.
  - cbn [map update_props]. cbn [keys map fst] in Hnd.
    destruct (NoDup_fresh_head acc name (raw_of a) _ Hnd) as [Hfresh Hnd'].
    rewrite assoc_set_fresh by exact Hfresh.
    rewrite IH by exact Hnd'. now rewrite <- app_assoc.
Qed.

Lemma assoc_get_keys {A} (l : list (string * A)) k v :
  assoc_get l k = Some v -> In k (keys l).
Proof.
  induction l as [|[k' v'] l IH]; [discriminate|].
  cbn [assoc_get keys map fst]. destruct (String.eqb_spec k' k) as [->|_].
  - now left.
  - intro H. right. now apply IH.
Qed.

(** A record that conforms to its class, whose [id] is declared [int] and
    whose bag holds storable values only, can be saved and read back:
    [save] succeeds, the record it returns has a primary key, and [get] by
    that key on the store as [save] left it returns that very record. *)
Theorem save_then_get_returns_the_record :
  forall rt, RuntimeLaws rt ->
  forall fuel n klass (self : Manager.t) obj c,
    documents klass = Some self ->
    assoc_get (Manager.fields self) "id" = Some KInt ->
    doc_ok n klass obj ->
    storable (raw_of obj) = true ->
    n <= fuel ->
    exists saved id c',
      Document.save rt fuel obj c = (Ok saved, c')
      /\ pk saved = Ok id
      /\ truthy id = true
      /\ get rt fuel self [("id", id)] c' = (Ok saved, c').
Proof.
  intros rt laws fuel n klass self obj c Hdocs Hid Hok _ Hfuel.
  destruct klass; try discriminate Hdocs. cbn [documents] in Hdocs.
  destruct concrete; [|discriminate]. injection Hdocs as <-.
  cbn [Manager.fields] in Hid.
  set (klass := DocClass name true fields defaults) in *.
  set (self := {| Manager.fields := fields; Manager.pk_field := DEFAULT_PK_FIELD;
                  Manager.doc_klass := klass; Manager.kind := name |}).
  set (meta := {| Metadata.fields := fields; Metadata.doc_klass := klass;
                  Metadata.pk_field := Some DEFAULT_PK_FIELD |}).
  assert (Hmeta : Meta klass = Some meta) by reflexivity.
  destruct n as [|n]; [contradiction|].
  destruct obj; try contradiction.
  destruct Hok as (-> & Hnd & Hkeys & Hfields).
  destruct (@field_of_conforming (doc_ok n) "id" KInt fields attrs Hfields Hkeys Hid) as (before & Hbefore & Hitem).
  assert (Hpk : forall attrs' v, assoc_get attrs' "id" = Some v ->
                                 pk (VDoc klass attrs') = Ok v).
  { intros attrs' v H. unfold pk. cbn [pk_field_of Meta klass bind].
    unfold DEFAULT_PK_FIELD. now rewrite H. }
  assert (Hkey : forall z c0, z <> 0%Z ->
             build_key rt self (VInt z) c0
             = (Ok {| key_kind := name; id_or_name := KeyId z |}, c0)).
  { intros z c0 Hz. unfold build_key. cbn [truthy].
    destruct (Z.eqb_spec z 0) as [|_]; [contradiction|]. cbn [negb].
    unfold bindM, lift. cbn [self Manager.doc_klass Manager.pk_field Manager.kind].
    rewrite Hmeta. cbn [meta Metadata.fields]. unfold DEFAULT_PK_FIELD.
    rewrite Hid. reflexivity. }
  assert (Hencode : forall attrs',
             doc_ok (S n) klass (VDoc klass attrs') ->
             to_dict fuel meta (VDoc klass attrs') None
             = Ok (VDict (map (fun '(name, a) => (VStr name, raw_of a)) attrs'))
             /\ from_dict rt fuel meta
                  (as_dict (map (fun '(name, a) => (name, raw_of a)) attrs'))
                = Ok (VDoc klass attrs')
             /\ update_props []
                  (map (fun '(name, a) => (VStr name, raw_of a)) attrs')
                = map (fun '(name, a) => (name, raw_of a)) attrs').
  { intros attrs' Hok'.
    destruct (doc_roundtrip laws klass (VDoc klass attrs') Hok' Hmeta Hfuel)
      as [Hto Hfrom].
    split; [exact Hto|]. split.
    - now rewrite (@as_dict_raw klass attrs').
    - destruct Hok' as (_ & _ & Hkeys' & _).
      apply (@update_props_raw attrs' []). cbn [keys map app].
      fold (keys attrs'). now rewrite Hkeys'. }
  (* what [to_entity] hands back *)
  assert (Hto : exists z attrs1 c1,
             z <> 0%Z
             /\ to_entity rt fuel self (VDoc klass attrs) c
                = (Ok ({| key := {| key_kind := name; id_or_name := KeyId z |};
                          props := map (fun '(name, a) => (name, raw_of a)) attrs1 |},
                       VDoc klass attrs1), c1)
             /\ assoc_get attrs1 "id" = Some (VInt z)
             /\ doc_ok (S n) klass (VDoc klass attrs1)).
  { assert (Hok : doc_ok (S n) klass (VDoc klass attrs))
      by (repeat split; assumption).
    assert (Hunkeyed : truthy before = false ->
              exists z attrs1 c1,
                z <> 0%Z
                /\ to_entity rt fuel self (VDoc klass attrs) c
                   = (Ok ({| key := {| key_kind := name; id_or_name := KeyId z |};
                             props := map (fun '(name, a) => (name, raw_of a)) attrs1 |},
                          VDoc klass attrs1), c1)
                /\ assoc_get attrs1 "id" = Some (VInt z)
                /\ doc_ok (S n) klass (VDoc klass attrs1)).
    { intro Hfalse.
      destruct (allocate_id name c) as [[k|e] c1] eqn:Halloc;
        [|discriminate Halloc].
      destruct (allocate_id_fresh Halloc) as (z & -> & Hz & _ & _).
      set (attrs1 := assoc_set attrs "id" (VInt z)).
      assert (Hok1 : doc_ok (S n) klass (VDoc klass attrs1)).
      { subst attrs1. unfold assoc_set. rewrite Hbefore.
        destruct (@replace_conforming (doc_ok n) "id" KInt (VInt z) fields attrs
                    Hfields Hkeys Hid I) as [H1 H2].
        repeat split; [exact Hnd|exact H2|exact H1]. }
      destruct (Hencode attrs1 Hok1) as (Hdict & _ & Hprops).
      exists z, attrs1, c1. split; [lia|]. split; [|split; [|exact Hok1]].
      - unfold to_entity. unfold bindM at 1. unfold lift at 1.
        rewrite (Hpk _ _ Hbefore). unfold bindM at 1.
        rewrite (@build_key_falsy rt self _ c Hfalse).
        cbn [self Manager.kind]. rewrite Halloc.
        unfold bindM at 1. unfold lift at 1.
        rewrite Hfalse. cbn [negb].
        unfold bindM at 1. unfold bindM at 1. unfold lift at 1.
        cbn [pk_field_of Meta klass]. unfold ret at 1.
        cbn [setattr entity_id key id_or_name]. unfold DEFAULT_PK_FIELD.
        fold attrs1. fold klass. unfold bindM at 1. unfold lift at 1.
        rewrite Hmeta, Hdict. unfold bindM, lift, ret. cbn [py_items].
        now rewrite Hprops.
      - subst attrs1. apply assoc_get_set. }
    cbn [field_ok item_ok] in Hitem.
    destruct before as [| |z| | | | | |]; try contradiction;
      try (apply Hunkeyed; reflexivity).
    destruct (Z.eqb_spec z 0) as [->|Hz]; [apply Hunkeyed; reflexivity|].
    destruct (Hencode attrs Hok) as (Hdict & _ & Hprops).
    exists z, attrs, c. split; [exact Hz|]. split; [|split; assumption].
    assert (Htrue : truthy (VInt z) = true).
    { cbn [truthy]. destruct (Z.eqb_spec z 0); [contradiction|reflexivity]. }
    unfold to_entity. unfold bindM at 1. unfold lift at 1.
    rewrite (Hpk _ _ Hbefore). unfold bindM at 1. rewrite (Hkey z c Hz).
    unfold bindM at 1. unfold lift at 1.
    rewrite Htrue. cbn [negb]. unfold bindM at 1. unfold ret at 1.
    unfold bindM at 1. unfold lift at 1.
    rewrite Hmeta, Hdict. unfold bindM, lift, ret. cbn [py_items].
    now rewrite Hprops. }
  destruct Hto as (z & attrs1 & c1 & Hz & Hto & Hid1 & Hok1).
  assert (Htrue : truthy (VInt z) = true).
  { cbn [truthy]. destruct (Z.eqb_spec z 0); [contradiction|reflexivity]. }
  set (entity := {| key := {| key_kind := name; id_or_name := KeyId z |};
                    props := map (fun '(name, a) => (name, raw_of a)) attrs1 |}) in *.
  exists (VDoc klass attrs1), (VInt z),
    (set_store c1 (upsert (entities c1) entity) (Put entity)).
  split; [|split; [exact (Hpk _ _ Hid1)|split; [exact Htrue|]]].
  - unfold Document.save. cbn [klass documents]. fold klass. fold self.
    unfold create. unfold bindM at 1. rewrite Hto.
    unfold bindM at 1. unfold client_put.
    unfold bindM at 1. unfold lift at 1. rewrite (Hpk _ _ Hid1), Htrue.
    reflexivity.
  - unfold get. cbn [self Manager.pk_field assoc_get DEFAULT_PK_FIELD].
    rewrite String.eqb_refl. fold self. unfold bindM at 1.
    rewrite (Hkey z _ Hz). unfold bindM at 1. unfold client_get.
    cbn [entities set_store].
    assert (Hfound : find (fun e => Key_eqb (key e)
                              {| key_kind := name; id_or_name := KeyId z |})
                       (upsert (entities c1) entity) = Some entity)
      by exact (@find_upsert (entities c1) entity).
    rewrite Hfound.
    assert (Hin : In "id" (keys (props entity))).
    { subst entity. cbn [props]. unfold keys. rewrite map_map.
      apply assoc_get_keys in Hid1. unfold keys in Hid1.
      erewrite map_ext; [exact Hid1|]. now intros [k v]. }
    assert (Hne : match props entity with [] => false | _ => true end = true)
      by (destruct (props entity); [contradiction|reflexivity]).
    rewrite Hne. unfold lift, from_entity.
    cbn [self Manager.pk_field Manager.doc_klass DEFAULT_PK_FIELD].
    unfold DEFAULT_PK_FIELD. rewrite (mem_In _ _ Hin). cbn [negb]. rewrite Hmeta.
    destruct (doc_roundtrip laws klass (VDoc klass attrs1) Hok1 Hmeta Hfuel)
      as [_ Hfrom].
    subst entity. cbn [props]. now rewrite (@as_dict_raw klass attrs1), Hfrom.
Qed.

Lemma save_then_get_returns_the_record_witness :
  exists saved id c',
    Document.save CPython.runtime 2 Sample.eve Sample.five = (Ok saved, c')
    /\ pk saved = Ok id
    /\ truthy id = true
    /\ get CPython.runtime 2
         {| Manager.fields :=
              [("name", KStr); ("born", KDatetime); ("color", Sample.Color);
               ("home", Sample.Address); ("tags", ListOf KStr);
               ("scores", DictOf KStr KInt); ("id", KInt)];
            Manager.pk_field := DEFAULT_PK_FIELD;
            Manager.doc_klass := Sample.Person;
            Manager.kind := "Person" |}
         [("id", id)] c'
       = (Ok saved, c').
Proof.
  apply (@save_then_get_returns_the_record CPython.runtime CPythonFacts.laws
           2 2 Sample.Person _ Sample.eve Sample.five eq_refl eq_refl).
  - cbv delta [Sample.Person Sample.eve Sample.Color Sample.Address Sample.home].
    conforming.
  - vm_compute. reflexivity.
  - lia.
Defined.

(** ** [create] on records without a key *)

Lemma upsert_fresh es e :
  Forall (fun e' => Key_eqb (key e') (key e) = false) es ->
  upsert es e = es ++ [e].
Proof.
  induction 1 as [|e' es He _ IH]; [reflexivity|].
  cbn [upsert app]. now rewrite He, IH.
Qed.

(** [create] on a record whose primary key counts as false adds one entity
    under an id no stored entity has, changes no stored entity, and writes
    that id to the record. *)
Lemma create_unkeyed rt fuel (self : Manager.t) obj before c obj' c' :
  pk obj = Ok before ->
  truthy before = false ->
  create rt fuel self obj c = (Ok obj', c') ->
  exists entity z,
    entities c' = entities c ++ [entity]
    /\ key entity = {| key_kind := Manager.kind self; id_or_name := KeyId z |}
    /\ Forall (fun e => key_ident (key e) <> z) (entities c)
    /\ pk obj' = Ok (VInt z)
    /\ calls c' = calls c ++ [Put entity].
Proof.
  intros Hpk Hfalse H.
  unfold create in H. unfold bindM at 1 in H.
  destruct (to_entity rt fuel self obj c) as [[[entity obj1]|] c1] eqn:Hto;
    [|discriminate].
  destruct (@to_entity_spec rt fuel self _ _ _ _ _ Hto)
    as (before' & Hpk' & Hkey & _ & Hset).
  rewrite Hpk in Hpk'. injection Hpk' as <-.
  destruct (Hset Hfalse) as (name & Hname & ->).
  pose proof (@build_key_calls _ _ _ _ _ _ Hkey) as Hcalls.
  rewrite (@build_key_falsy rt self _ c Hfalse) in Hkey.
  destruct (allocate_id_fresh Hkey) as (z & Hk & Hz & Hfresh & Hent).
  assert (Hid : entity_id entity = VInt z) by (unfold entity_id; now rewrite Hk).
  rewrite Hid in *.
  unfold bindM, client_put, lift, ret in H.
  rewrite (@pk_setattr _ _ (VInt z) Hname) in H.
  assert (Hz' : truthy (VInt z) = true).
  { cbn. destruct (Z.eqb_spec z 0); [lia|reflexivity]. }
  rewrite Hz' in H. cbn [negb] in H. injection H as <- <-.
  exists entity, z. cbn [entities calls set_store].
  split; [|split; [exact Hk|split; [exact Hfresh|split]]].
  - rewrite Hent. apply upsert_fresh.
    eapply Forall_impl; [|exact Hfresh]. intros e He.
    destruct (Key_eqb (key e) (key entity)) eqn:Heq; [|reflexivity].
    apply Key_eqb_eq in Heq. cbv beta in He. rewrite Heq, Hk in He.
    now contradiction He.
  - apply (@pk_setattr _ _ (VInt z) Hname).
  - now rewrite Hcalls.
Qed.

(** Two records without a key that are created one after the other end up
    under two different ids, both stored next to everything the store
    held. *)
Theorem successive_creates_get_distinct_ids :
  forall rt fuel (self : Manager.t) a b pa pb c a' c1 b' c2,
    pk a = Ok pa -> truthy pa = false ->
    pk b = Ok pb -> truthy pb = false ->
    create rt fuel self a c = (Ok a', c1) ->
    create rt fuel self b c1 = (Ok b', c2) ->
    exists ea eb za zb,
      entities c2 = entities c ++ [ea; eb]
      /\ pk a' = Ok (VInt za) /\ entity_id ea = VInt za
      /\ pk b' = Ok (VInt zb) /\ entity_id eb = VInt zb
      /\ za <> zb.
Proof.
  intros rt fuel self a b pa pb c a' c1 b' c2 Hpa Hfa Hpb Hfb Ha Hb.
  destruct (@create_unkeyed _ _ _ _ _ _ _ _ Hpa Hfa Ha)
    as (ea & za & Hea & Hka & _ & Hpka & _).
  destruct (@create_unkeyed _ _ _ _ _ _ _ _ Hpb Hfb Hb)
    as (eb & zb & Heb & Hkb & Hfresh & Hpkb & _).
  exists ea, eb, za, zb.
  split; [now rewrite Heb, Hea, <- app_assoc|].
  split; [exact Hpka|]. split; [unfold entity_id; now rewrite Hka|].
  split; [exact Hpkb|]. split; [unfold entity_id; now rewrite Hkb|].
  rewrite Hea in Hfresh. apply Forall_app in Hfresh as [_ Hfresh].
  inversion Hfresh as [|? ? Hne _]; subst.
  unfold key_ident in Hne. rewrite Hka in Hne. exact Hne.
Qed.

Lemma successive_creates_get_distinct_ids_witness :
  exists ea eb za zb,
    entities (snd (create CPython.runtime 10 Sample.manager Sample.zero_keyed
                     (snd (create CPython.runtime 10 Sample.manager Sample.unsaved
                             Sample.five))))
    = entities Sample.five ++ [ea; eb]
    /\ entity_id ea = VInt za /\ entity_id eb = VInt zb /\ za <> zb.
Proof.
  set (r1 := create CPython.runtime 10 Sample.manager Sample.unsaved Sample.five).
  set (r2 := create CPython.runtime 10 Sample.manager Sample.zero_keyed (snd r1)).
  destruct (@successive_creates_get_distinct_ids CPython.runtime 10 Sample.manager
              Sample.unsaved Sample.zero_keyed VNone (VInt 0)
              Sample.five
              (VDoc Sample.K [("status", VStr "new"); ("id", VInt 6)]) (snd r1)
              (VDoc Sample.K [("status", VStr "new"); ("id", VInt 7)]) (snd r2))
    as (ea & eb & za & zb & He & _ & Ha & _ & Hb & Hne).
  - reflexivity.
  - reflexivity.
  - reflexivity.
  - reflexivity.
  - reflexivity.
  - reflexivity.
  - exists ea, eb, za, zb. repeat split; assumption.
Defined.

(** ** [from_entity] *)

Lemma dict_get_as_dict (d : list (string * pyval)) k :
  dict_get (map (fun kv => (VStr (fst kv), snd kv)) d) (VStr k) = assoc_get d k.
Proof.
  induction d as [|[k' v'] d IH]; [reflexivity|].
  cbn [map dict_get assoc_get key_eqb fst snd].
  destruct (k' =? k)%string; [reflexivity|exact IH].
Qed.

Lemma from_dict_fields_other build d fname : forall fields parsed parsed',
  ~ In fname (keys fields) ->
  from_dict_fields build fields (VDict d) parsed = Ok parsed' ->
  assoc_get parsed' fname = assoc_get parsed fname.
Proof.
  induction fields as [|[f fk] rest IH]; intros parsed parsed' Hout H.
  - cbn [from_dict_fields] in H. now injection H as <-.
  - cbn [keys map fst] in Hout. cbn [from_dict_fields subscript bind] in H.
    assert (Hrest : ~ In fname (keys rest)) by (intro; apply Hout; now right).
    destruct (dict_get d (VStr f)) as [raw|]; [|now apply (IH parsed)].
    destruct (decode_field build fk raw) as [item|]; [|discriminate].
    cbn [bind] in H. rewrite (IH _ _ Hrest H).
    apply assoc_get_set_other. intros ->. apply Hout. now left.
Qed.

Lemma from_dict_fields_present build d fname fk raw :
  dict_get d (VStr fname) = Some raw ->
  forall fields parsed parsed',
    NoDup (keys fields) ->
    assoc_get fields fname = Some fk ->
    from_dict_fields build fields (VDict d) parsed = Ok parsed' ->
    exists item, decode_field build fk raw = Ok item
                 /\ assoc_get parsed' fname = Some item.
Proof.
  intro Hraw. induction fields as [|[f fk'] rest IH];
    intros parsed parsed' Hnd Hget H; [discriminate|].
  cbn [keys map fst] in Hnd. inversion Hnd as [|? ? Hfresh Hnd']; subst.
  cbn [assoc_get] in Hget. cbn [from_dict_fields subscript bind] in H.
  destruct (String.eqb_spec f fname) as [->|Hne].
  - injection Hget as ->. rewrite Hraw in H.
    destruct (decode_field build fk raw) as [item|]; [|discriminate].
    cbn [bind] in H. exists item. split; [reflexivity|].
    rewrite (@from_dict_fields_other _ _ _ _ _ _ Hfresh H). apply assoc_get_set.
  - destruct (dict_get d (VStr f)) as [raw'|]; [|now apply (IH parsed)].
    destruct (decode_field build fk' raw') as [item'|]; [|discriminate].
    cbn [bind] in H. now apply (IH _ _ Hnd' Hget H).
Qed.

Lemma init_attrs_given defaults kwargs fname v :
  assoc_get kwargs fname = Some v ->
  forall (fields : list (string * pytype)) attrs,
    In fname (keys fields) ->
    init_attrs fields defaults kwargs = Ok attrs ->
    assoc_get attrs fname = Some v.
Proof.
  intro Hkw. induction fields as [|[f fk] rest IH]; intros attrs Hin H;
    [contradiction|].
  cbn [init_attrs] in H.
  destruct (String.eqb_spec f fname) as [->|Hne].
  - rewrite Hkw in H. cbn [bind] in H.
    destruct (init_attrs rest defaults kwargs) as [vs|]; [|discriminate].
    cbn [bind] in H. injection H as <-. cbn [assoc_get].
    now rewrite String.eqb_refl.
  - destruct Hin as [E|Hin]; [cbn in E; congruence|].
    destruct (match assoc_get kwargs f with Some _ => _ | None => _ end) as [v'|];
      [|discriminate].
    cbn [bind] in H.
    destruct (init_attrs rest defaults kwargs) as [vs|]; [|discriminate].
    cbn [bind] in H. injection H as <-. cbn [assoc_get].
    destruct (String.eqb_spec f fname); [contradiction|].
    now apply IH.
Qed.

(** An entity that has no property named as the primary key decodes to a
    record whose primary key is the id of the entity's key, when that field
    is declared [int]: the number of a numeric key, [None] for a key that is
    a name. *)
Theorem from_entity_takes_id_from_key :
  forall rt fuel (self : Manager.t) meta entity r,
    Meta (Manager.doc_klass self) = Some meta ->
    NoDup (keys (Metadata.fields meta)) ->
    assoc_get (Metadata.fields meta) (Manager.pk_field self) = Some KInt ->
    assoc_get (props entity) (Manager.pk_field self) = None ->
    from_entity rt fuel self entity = Ok r ->
    getattr r (Manager.pk_field self) = Ok (entity_id entity).
Proof.
  intros rt fuel self meta entity r Hmeta Hnd Hint Habsent H.
  unfold from_entity in H. rewrite Hmeta in H.
  assert (Hmem : mem (Manager.pk_field self) (keys (props entity)) = false).
  { apply not_true_is_false. intro Hm. unfold mem in Hm.
    apply existsb_exists in Hm as (k & Hin & Hk).
    apply String.eqb_eq in Hk. subst k.
    clear - Hin Habsent. induction (props entity) as [|[k v] l IH];
      [contradiction|].
    cbn [assoc_get keys map fst In] in *.
    destruct (String.eqb_spec k (Manager.pk_field self)); [discriminate|].
    destruct Hin as [E|Hin]; [contradiction|now apply IH]. }
  rewrite Hmem in H. cbn [negb] in H.
  destruct fuel as [|fuel]; [discriminate|].
  cbn [from_dict as_dict py_copy bind] in H.
  destruct (from_dict_fields _ _ _ _) as [parsed|] eqn:Hparsed; [|discriminate].
  cbn [bind] in H.
  destruct (@from_dict_fields_present _ _ (Manager.pk_field self) KInt
              (entity_id entity)
              (eq_trans (@dict_get_as_dict _ _) (@assoc_get_set _ _ _ _))
              _ _ _ Hnd Hint Hparsed) as (item & Hdec & Hitem).
  assert (item = entity_id entity) as ->.
  { unfold entity_id in *. destruct (id_or_name (key entity));
      cbn in Hdec; congruence. }
  unfold construct in H.
  destruct (Metadata.doc_klass meta); try discriminate.
  destruct (forallb _ _) eqn:Hknown; [|discriminate].
  destruct (init_attrs fields defaults parsed) as [attrs|] eqn:Hinit;
    [|discriminate].
  cbn [bind] in H. injection H as <-. cbn [getattr].
  rewrite (@init_attrs_given defaults parsed _ _ Hitem fields attrs); [reflexivity| |exact Hinit].
  rewrite forallb_forall in Hknown.
  specialize (Hknown _ (@assoc_get_keys _ _ _ _ Hitem)).
  unfold mem in Hknown. apply existsb_exists in Hknown as (k & Hin & Hk).
  apply String.eqb_eq in Hk. now subst k.
Qed.

Lemma from_entity_takes_id_from_key_witness :
  getattr (VDoc Sample.K [("status", VStr "late"); ("id", VInt 9)]) "id"
  = Ok (entity_id {| key := {| key_kind := "K"; id_or_name := KeyId 9 |};
                     props := [("status", VStr "late")] |}).
Proof.
  apply (@from_entity_takes_id_from_key CPython.runtime 10 Sample.manager
           {| Metadata.fields := [("status", KStr); ("id", KInt)];
              Metadata.doc_klass := Sample.K;
              Metadata.pk_field := Some DEFAULT_PK_FIELD |}
           {| key := {| key_kind := "K"; id_or_name := KeyId 9 |};
              props := [("status", VStr "late")] |}
           (VDoc Sample.K [("status", VStr "late"); ("id", VInt 9)])).
  - reflexivity.
  - repeat constructor; cbn; intuition discriminate.
  - reflexivity.
  - reflexivity.
  - reflexivity.
Defined.

(** ** [filter] and [get] by lookups *)

Lemma query_unordered rt fuel (self : Manager.t) distinct_on order_by page_size
  kwargs c :
  truthy order_by = false ->
  truthy distinct_on = false ->
  query rt fuel self distinct_on order_by page_size kwargs c
  = query rt fuel self VNone VNone page_size kwargs c.
Proof. intros Ho Hd. unfold query. now rewrite Ho, Hd. Qed.

(** [filter] on plain lookups, with or without a page size: the records
    decoded from what the store returns for the query with one equality per
    lookup. *)
Lemma filter_plain rt fuel (self : Manager.t) kwargs page_size c :
  truthy (argument kwargs "order_by") = false ->
  truthy (argument kwargs "distinct_on") = false ->
  as_limit (argument kwargs "page_size") = Ok page_size ->
  Forall (plain_lookup self) (lookups_of kwargs) ->
  0 < match page_size with Some p => p | None => default_page_size c end ->
  length (entities c) < fuel ->
  exists c',
    filter rt fuel self kwargs c
    = (decode_all rt fuel self
         (results c (base_query self
                       (map (fun kv => (fst kv, "=", snd kv)) (lookups_of kwargs))))
         Exhausted,
       c')
    /\ entities c' = entities c
    /\ calls c' = calls c.
Proof.
  intros Ho Hd Hlimit Hplain Hpage Hfuel.
  destruct (sorted_plain Hplain) as [Hdirect Hcross].
  destruct (@query_sorted rt fuel self page_size (lookups_of kwargs) c) as
    (c1 & He & Hp & Hcalls & _ & Hq & Hrun).
  { eapply Forall_impl; [|exact Hplain]. intros kv H. now left. }
  rewrite Hcross, Hdirect in *.
  exists c1. split; [|split; assumption].
  unfold filter. rewrite Hlimit, (@query_unordered rt fuel self _ _ page_size (lookups_of kwargs) c Ho Hd), Hrun.
  unfold _iterate.
  rewrite (@_iterate_from_all c1 _ page_size _ Hq); cbn [skipn].
  - cbn [yielded ended gen_done].
    now rewrite (@results_same_entities c c1 _ He).
  - now rewrite Hp.
  - pose proof (results_bounded c1 (base_query self
                  (map (fun kv => (fst kv, "=", snd kv)) (lookups_of kwargs)))).
    rewrite He in *. lia.
Qed.

(** [filter] binds [page_size], [order_by] and [distinct_on] to the
    parameters of [query] and compiles the other keyword arguments only.
    With plain lookups, and with or without a page size, it yields the
    records decoded from the entities of the kind that satisfy one equality
    per lookup, in the store's order, up to the first that does not decode;
    it changes no entity and writes nothing. *)
Theorem filter_plain_lookups :
  forall rt fuel (self : Manager.t) kwargs page_size c,
    truthy (argument kwargs "order_by") = false ->
    truthy (argument kwargs "distinct_on") = false ->
    as_limit (argument kwargs "page_size") = Ok page_size ->
    Forall (plain_lookup self) (lookups_of kwargs) ->
    0 < match page_size with Some p => p | None => default_page_size c end ->
    length (entities c) < fuel ->
    let matching :=
      results c (base_query self
                   (map (fun kv => (fst kv, "=", snd kv)) (lookups_of kwargs))) in
    exists c',
      filter rt fuel self kwargs c
      = (decode_all rt fuel self matching Exhausted, c')
      /\ entities c' = entities c
      /\ calls c' = calls c
      /\ (forall objs,
             mapM (from_entity rt fuel self) matching = Ok objs ->
             fst (filter rt fuel self kwargs c) = gen_done objs).
Proof.
  intros rt fuel self kwargs page_size c Ho Hd Hlimit Hplain Hpage Hfuel matching.
  destruct (@filter_plain rt fuel self kwargs page_size c Ho Hd Hlimit Hplain
              Hpage Hfuel) as (c' & Hf & He & Hc).
  exists c'. split; [exact Hf|]. split; [exact He|]. split; [exact Hc|].
  intros objs Hobjs. rewrite Hf. cbn [fst]. fold matching.
  clear Hf. revert objs Hobjs.
  induction matching as [|entity rest IH]; intros objs Hobjs.
  - cbn in Hobjs. injection Hobjs as <-. reflexivity.
  - cbn [mapM] in Hobjs. cbn [decode_all].
    destruct (from_entity rt fuel self entity) as [obj|]; [|discriminate].
    cbn [bind] in Hobjs.
    destruct (mapM (from_entity rt fuel self) rest) as [objs'|]; [|discriminate].
    cbn [bind] in Hobjs. injection Hobjs as <-.
    now rewrite (IH objs' eq_refl).
Qed.

Lemma filter_plain_lookups_witness :
  fst (filter CPython.runtime 10 Sample.manager
         [("status", VStr "idle"); ("page_size", VInt 1)] Sample.five)
  = gen_done [VDoc Sample.K [("status", VStr "idle"); ("id", VInt 4)];
              VDoc Sample.K [("status", VStr "idle"); ("id", VInt 5)]].
Proof.
  destruct (@filter_plain_lookups CPython.runtime 10 Sample.manager
              [("status", VStr "idle"); ("page_size", VInt 1)] (Some 1)
              Sample.five) as (c' & _ & _ & _ & H).
  - reflexivity.
  - reflexivity.
  - reflexivity.
  - repeat constructor.
  - cbn. lia.
  - cbn. lia.
  - apply H. reflexivity.
Defined.

(** ** [get] *)





(** ** [_starts_with_operator] *)

Lemma ascii_compare_refl ch : (ch ?= ch)%char = Eq.
Proof. unfold Ascii.compare. apply N.compare_refl. Qed.

Lemma prefix_leb v : forall s,
  prefix v s = true -> (v <=? s)%string = true.
Proof.
  induction v as [|a v IH]; intros s H; [now destruct s|].
  destruct s as [|b s]; [discriminate H|].
  cbn [prefix] in H. destruct (ascii_dec a b) as [<-|]; [|discriminate H].
  unfold String.leb. cbn [String.compare]. rewrite ascii_compare_refl.
  exact (IH s H).
Qed.

Lemma append_leb_sentinel v t :
  match t with
  | EmptyString => True
  | String d _ => (N_of_ascii d < 239)%N
  end ->
  (v ++ t <=? v ++ HIGH_SENTINEL)%string = true.
Proof.
  intro Ht. induction v as [|a v IH].
  - cbn [append]. destruct t as [|d t]; [reflexivity|].
    unfold String.leb, HIGH_SENTINEL. cbn [String.compare].
    unfold Ascii.compare.
    apply N.compare_lt_iff in Ht.
    change (N_of_ascii (ascii_of_nat 239)) with 239%N. now rewrite Ht.
  - cbn [append]. unfold String.leb. cbn [String.compare].
    rewrite ascii_compare_refl. exact IH.
Qed.

Lemma between_prefix v : forall s,
  (v <=? s)%string = true ->
  (s <=? v ++ HIGH_SENTINEL)%string = true ->
  prefix v s = true.
Proof.
  induction v as [|a v IH]; intros s H1 H2; [now destruct s|].
  destruct s as [|b s]; [discriminate H1|].
  unfold String.leb in H1, H2. cbn [String.compare append] in H1, H2.
  rewrite (Ascii.compare_antisym b a) in H2.
  destruct (a ?= b)%char eqn:Hab; cbn [CompOpp] in H2; try discriminate.
  apply Ascii.compare_eq_iff in Hab. subst b.
  cbn [prefix]. destruct (ascii_dec a a) as [_|Hne]; [|now contradiction Hne].
  now apply IH.
Qed.

(** The two predicates [_starts_with_operator] builds for a text value are
    on the dotted path, and bound the strings that start with the value: a
    string within both bounds has the value as a prefix, and a string that
    continues the value with nothing, or with text whose first byte is below
    that of U+FFFD, is within both bounds. *)
Theorem _starts_with_operator_bounds_the_prefix :
  forall rt, RuntimeLaws rt ->
  forall path v s,
    let predicates := _starts_with_operator rt path (VStr v) in
    let within :=
      forallb (fun f => compare_values (snd (fst f)) (VStr s) (snd f)) predicates in
    map (fun f => fst (fst f)) predicates
    = [String.concat "." path; String.concat "." path]
    /\ (within = true -> prefix v s = true)
    /\ (forall t, s = (v ++ t)%string ->
                  match t with
                  | EmptyString => True
                  | String d _ => (N_of_ascii d < 239)%N
                  end ->
                  within = true).
Proof.
  intros rt laws path v s predicates within.
  subst within predicates. rewrite (_starts_with_operator_range laws).
  cbn [map fst snd forallb compare_values String.eqb Ascii.eqb Bool.eqb].
  rewrite andb_true_r.
  split; [reflexivity|]. split.
  - intro H. apply andb_true_iff in H as [H1 H2]. now apply between_prefix.
  - intros t -> Ht. apply andb_true_iff. split.
    + apply prefix_leb. clear. induction v as [|a v IH]; [now destruct t|].
      cbn [append prefix]. destruct (ascii_dec a a) as [_|Hne]; [exact IH|].
      now contradiction Hne.
    + now apply append_leb_sentinel.
Qed.

Lemma _starts_with_operator_bounds_the_prefix_witness :
  prefix "ab" "abc" = true.
Proof.
  apply (proj1 (proj2 (@_starts_with_operator_bounds_the_prefix CPython.runtime
                         CPythonFacts.laws ["name"] "ab" "abc"))).
  reflexivity.
Defined.
